(** * CaptureManager: a shallow embedding of
      [src/core/src/Components/CaptureManager.cpp]

    The capture session is a record of the member variables of
    [CaptureManager]; every member function becomes a command over that
    record which also yields the list of calls it made to the outside
    world (Direct3D, the C runtime, the renderer, the logger).  Results
    of calls into the outside world are inputs of the commands. *)

From stdpp Require Import base numbers list strings pretty gmap.

Open Scope Z_scope.

(** ** Machine integers *)

Module Int.

(** [static_cast<std::int32_t>] and the result of 32-bit signed
    arithmetic as the x86 build computes it (two's complement). *)
Definition int32 (z : Z) : Z := (z + 2 ^ 31) `mod` 2 ^ 32 - 2 ^ 31.

(** [static_cast<std::size_t>], taken 32 bits wide (an x86 build).  The
    properties below are stated for counters below 2^32, where a 64-bit
    [size_t] gives the same values. *)
Definition size_t (z : Z) : Z := z `mod` 2 ^ 32.

(** Increment of the 64-bit frame counter. *)
Definition int64 (z : Z) : Z := (z + 2 ^ 63) `mod` 2 ^ 64 - 2 ^ 63.

Definition INT_MAX : Z := 2 ^ 31 - 1.

End Int.

(** ** Data model *)

(** Pointers: [None] is [nullptr]. *)
Definition FILE := nat.
Definition ComPtr := nat.

(** Modelled from the spec: [Resolution] is declared outside the sources,
    [{width:int, height:int}]. *)
Record Resolution := mkResolution { width : Z; height : Z }.

(** Modelled from the spec: the enumerations of CaptureManager.hpp, which
    is not part of the sources.  The spec lists
    [enum{Video, CameraData, ImageSequence}] and
    [enum{Prores4444XQ, Prores4444, Prores422HQ, Prores422, Prores422LT}];
    a C++ enumeration can hold any value of its underlying integer type,
    so both are integers with named values. *)
Module OutputFormat.
Definition t := Z.
Definition Video : t := 0.
Definition CameraData : t := 1.
Definition ImageSequence : t := 2.
End OutputFormat.

Module VideoCodec.
Definition t := Z.
Definition Prores4444XQ : t := 0.
Definition Prores4444 : t := 1.
Definition Prores422HQ : t := 2.
Definition Prores422 : t := 3.
Definition Prores422LT : t := 4.
End VideoCodec.

(** Modelled from the spec: [CapturePass] of CaptureManager.hpp,
    [{ visibleElements: set of ElementId, pipe: write handle (nullable) }]. *)
Record CapturePass := mkPass {
  elements : gset nat;
  pass_pipe : option FILE
}.

(** Modelled from the spec: [CaptureSettings] of CaptureManager.hpp. *)
Record CaptureSettings := mkSettings {
  startTick : Z;
  endTick : Z;
  outputFormat : OutputFormat.t;
  videoCodec : option VideoCodec.t;
  resolution : Resolution;
  framerate : Z;
  passes : list CapturePass
}.

(** Modelled from the spec: the member variables of [CaptureManager]
    (declared in CaptureManager.hpp), as the member functions use them. *)
Record CaptureManager := mkManager {
  captureSettings : CaptureSettings;
  screenDimensions : Resolution;
  isCapturing : bool;
  framePrepared : bool;
  capturedFrameCount : Z;
  ffmpegNotFound : bool;
  pipe : option FILE;
  backBuffer : option ComPtr;
  tempSurface : option ComPtr;
  downsampledRenderTarget : option ComPtr;
  depthSurface : option ComPtr;
  depthShader : option ComPtr
}.

(** Assignments to single members. *)
Definition set_passes (ps : list CapturePass) (c : CaptureSettings) : CaptureSettings :=
  mkSettings (startTick c) (endTick c) (outputFormat c) (videoCodec c)
             (resolution c) (framerate c) ps.

Definition set_captureSettings (c : CaptureSettings) (m : CaptureManager) : CaptureManager :=
  mkManager c (screenDimensions m) (isCapturing m) (framePrepared m)
            (capturedFrameCount m) (ffmpegNotFound m) (pipe m) (backBuffer m)
            (tempSurface m) (downsampledRenderTarget m) (depthSurface m) (depthShader m).

Definition set_screenDimensions (r : Resolution) (m : CaptureManager) : CaptureManager :=
  mkManager (captureSettings m) r (isCapturing m) (framePrepared m)
            (capturedFrameCount m) (ffmpegNotFound m) (pipe m) (backBuffer m)
            (tempSurface m) (downsampledRenderTarget m) (depthSurface m) (depthShader m).

Definition set_isCapturing (b : bool) (m : CaptureManager) : CaptureManager :=
  mkManager (captureSettings m) (screenDimensions m) b (framePrepared m)
            (capturedFrameCount m) (ffmpegNotFound m) (pipe m) (backBuffer m)
            (tempSurface m) (downsampledRenderTarget m) (depthSurface m) (depthShader m).

Definition set_framePrepared (b : bool) (m : CaptureManager) : CaptureManager :=
  mkManager (captureSettings m) (screenDimensions m) (isCapturing m) b
            (capturedFrameCount m) (ffmpegNotFound m) (pipe m) (backBuffer m)
            (tempSurface m) (downsampledRenderTarget m) (depthSurface m) (depthShader m).

Definition set_capturedFrameCount (n : Z) (m : CaptureManager) : CaptureManager :=
  mkManager (captureSettings m) (screenDimensions m) (isCapturing m) (framePrepared m)
            n (ffmpegNotFound m) (pipe m) (backBuffer m)
            (tempSurface m) (downsampledRenderTarget m) (depthSurface m) (depthShader m).

Definition set_ffmpegNotFound (b : bool) (m : CaptureManager) : CaptureManager :=
  mkManager (captureSettings m) (screenDimensions m) (isCapturing m) (framePrepared m)
            (capturedFrameCount m) b (pipe m) (backBuffer m)
            (tempSurface m) (downsampledRenderTarget m) (depthSurface m) (depthShader m).

Definition set_pipe (p : option FILE) (m : CaptureManager) : CaptureManager :=
  mkManager (captureSettings m) (screenDimensions m) (isCapturing m) (framePrepared m)
            (capturedFrameCount m) (ffmpegNotFound m) p (backBuffer m)
            (tempSurface m) (downsampledRenderTarget m) (depthSurface m) (depthShader m).

Definition set_backBuffer (p : option ComPtr) (m : CaptureManager) : CaptureManager :=
  mkManager (captureSettings m) (screenDimensions m) (isCapturing m) (framePrepared m)
            (capturedFrameCount m) (ffmpegNotFound m) (pipe m) p
            (tempSurface m) (downsampledRenderTarget m) (depthSurface m) (depthShader m).

Definition set_tempSurface (p : option ComPtr) (m : CaptureManager) : CaptureManager :=
  mkManager (captureSettings m) (screenDimensions m) (isCapturing m) (framePrepared m)
            (capturedFrameCount m) (ffmpegNotFound m) (pipe m) (backBuffer m)
            p (downsampledRenderTarget m) (depthSurface m) (depthShader m).

Definition set_downsampledRenderTarget (p : option ComPtr) (m : CaptureManager) : CaptureManager :=
  mkManager (captureSettings m) (screenDimensions m) (isCapturing m) (framePrepared m)
            (capturedFrameCount m) (ffmpegNotFound m) (pipe m) (backBuffer m)
            (tempSurface m) p (depthSurface m) (depthShader m).

Definition set_depthSurface (p : option ComPtr) (m : CaptureManager) : CaptureManager :=
  mkManager (captureSettings m) (screenDimensions m) (isCapturing m) (framePrepared m)
            (capturedFrameCount m) (ffmpegNotFound m) (pipe m) (backBuffer m)
            (tempSurface m) (downsampledRenderTarget m) p (depthShader m).

Definition set_depthShader (p : option ComPtr) (m : CaptureManager) : CaptureManager :=
  mkManager (captureSettings m) (screenDimensions m) (isCapturing m) (framePrepared m)
            (capturedFrameCount m) (ffmpegNotFound m) (pipe m) (backBuffer m)
            (tempSurface m) (downsampledRenderTarget m) (depthSurface m) p.

(** ** Calls to the outside world *)

Inductive LogLevel := LOG_DEBUG | LOG_INFO | LOG_ERROR.

Inductive LogArg :=
| ArgInt (z : Z)
| ArgStr (s : string)
| ArgResolution (r : Resolution).

Record D3DSURFACE_DESC := mkDesc { Width : Z; Height : Z; Format : Z }.

Inductive Event :=
| EvLog (lvl : LogLevel) (fmt : string) (args : list LogArg)
| EvCreateDirectories (dir : string)
| EvSetTickDelta (delta : Z) (flag : bool)
| EvGetBackBuffer (out : option ComPtr)
| EvGetDesc (surface : ComPtr) (out : option D3DSURFACE_DESC)
| EvCreateOffscreenPlainSurface (w h fmt : Z) (out : option ComPtr)
| EvCreateRenderTarget (w h fmt : Z) (out : option ComPtr)
| EvPopen (command : string) (out : option FILE)
| EvFflush (f : FILE)
| EvFclose (f : FILE)
| EvFwrite (size count : Z) (f : option FILE)
| EvRelease (p : ComPtr)
| EvResetVisibleElements
| EvSetVisibleElements (els : gset nat)
| EvDrawShaderForPassIndex (passIndex : Z)
| EvStretchRect (src dst : option ComPtr) (ok : bool)
| EvGetRenderTargetData (src dst : option ComPtr) (ok : bool)
| EvLockRect (surface : option ComPtr) (ok : bool)
| EvUnlockRect (surface : option ComPtr) (ok : bool).

(** ** Commands: state, emitted calls, and C++ exceptions *)

(** The exceptions that leave these functions: [std::bad_optional_access]
    of [std::optional::value], and [std::filesystem::filesystem_error] of
    the throwing overloads of [std::filesystem::exists] and
    [std::filesystem::create_directories].  Nothing here catches either. *)
Inductive Exception := bad_optional_access | filesystem_error.

Inductive Result (A : Type) :=
| Returned (a : A)
| Raised (e : Exception)
| Diverged.
Arguments Returned {A} a.
Arguments Raised {A} e.
Arguments Diverged {A}.

Record Run (A : Type) := mkRun {
  result : Result A;
  after : CaptureManager;
  calls : list Event
}.
Arguments mkRun {A} _ _ _.
Arguments result {A} _.
Arguments after {A} _.
Arguments calls {A} _.

Definition Cmd (A : Type) : Type := CaptureManager -> Run A.

Definition cmd_ret {A} (a : A) : Cmd A := fun m => mkRun (Returned a) m [].

(** Sequencing: the second command runs in the state the first one left,
    unless the first one raised or did not return. *)
Definition cmd_bind {A B} (c : Cmd A) (f : A -> Cmd B) : Cmd B := fun m =>
  match c m with
  | mkRun (Returned a) m1 calls1 =>
      match f a m1 with
      | mkRun r m2 calls2 => mkRun r m2 (calls1 ++ calls2)
      end
  | mkRun (Raised e) m1 calls1 => mkRun (Raised e) m1 calls1
  | mkRun Diverged m1 calls1 => mkRun Diverged m1 calls1
  end.

Declare Scope cmd_scope.
Delimit Scope cmd_scope with cmd.
Bind Scope cmd_scope with Cmd.
Notation "'let!' x ':=' c 'in' k" := (cmd_bind c%cmd (fun x => k%cmd))
  (at level 10, x name, c at level 100, k at level 200) : cmd_scope.
Notation "c >> k" := (cmd_bind c%cmd (fun _ => k%cmd))
  (at level 100, k at level 200, right associativity) : cmd_scope.

Definition emit (e : Event) : Cmd unit := fun m => mkRun (Returned tt) m [e].
Definition modify (f : CaptureManager -> CaptureManager) : Cmd unit :=
  fun m => mkRun (Returned tt) (f m) [].
Definition read {A} (f : CaptureManager -> A) : Cmd A :=
  fun m => mkRun (Returned (f m)) m [].
Definition log (lvl : LogLevel) (fmt : string) (args : list LogArg) : Cmd unit :=
  emit (EvLog lvl fmt args).
Definition skip : Cmd unit := cmd_ret tt.

(** A call of [std::filesystem] in its throwing overload: it gives its
    answer, or throws ([None]). *)
Definition filesystem {A} (answer : option A) : Cmd A := fun m =>
  match answer with
  | Some a => mkRun (Returned a) m []
  | None => mkRun (Raised filesystem_error) m []
  end.

(** Modelled from the spec: [MultiPassEnabled] is defined in
    CaptureManager.hpp; the spec has [passes] empty for single-stream
    capture and non-empty for multi-pass. *)
Definition MultiPassEnabled (m : CaptureManager) : bool :=
  match passes (captureSettings m) with
  | [] => false
  | _ :: _ => true
  end.

Definition passCount (m : CaptureManager) : Z :=
  Z.of_nat (length (passes (captureSettings m))).

(** ** StopCapture *)

(** [if (p) { fflush(p); fclose(p); p = nullptr; }] *)
Definition close_pipe (p : option FILE) : list Event :=
  match p with
  | Some f => [EvFflush f; EvFclose f]
  | None => []
  end.

(** [if (p) { p->Release(); p = nullptr; }] *)
Definition release (p : option ComPtr) : list Event :=
  match p with
  | Some h => [EvRelease h]
  | None => []
  end.

Definition close_pass (pass : CapturePass) : CapturePass :=
  mkPass (elements pass) None.

(** The loop over [captureSettings.passes]. *)
Definition close_passes : Cmd unit := fun m =>
  mkRun (Returned tt)
    (set_captureSettings
       (set_passes (close_pass <$> passes (captureSettings m)) (captureSettings m)) m)
    (passes (captureSettings m) ≫= fun pass => close_pipe (pass_pipe pass)).

(** One [if (p) { ...; p = nullptr; }] block of a member [p]. *)
Definition drop {P} (get : CaptureManager -> option P) (cleanup : option P -> list Event)
    (set : option P -> CaptureManager -> CaptureManager) : Cmd unit :=
  fun m => mkRun (Returned tt) (set None m) (cleanup (get m)).

Definition StopCapture : Cmd unit :=
  (let! n := read capturedFrameCount in
   log LOG_INFO "Stopped capture (wrote {0} frames)" [ArgInt n] >>
   modify (set_isCapturing false) >>
   emit EvResetVisibleElements >>
   modify (set_framePrepared false) >>
   drop pipe close_pipe set_pipe >>
   close_passes >>
   drop tempSurface release set_tempSurface >>
   drop backBuffer release set_backBuffer >>
   drop downsampledRenderTarget release set_downsampledRenderTarget >>
   drop depthSurface release set_depthSurface >>
   drop depthShader release set_depthShader)%cmd.

(** ** PrepareFrame, OnGameFrame *)

(** [static_cast<std::size_t>(capturedFrameCount) % captureSettings.passes.size()] *)
Definition passIndex (m : CaptureManager) : Z :=
  Int.size_t (capturedFrameCount m) `mod` passCount m.

(** [captureSettings.passes[i]]; the index is below the size wherever the
    source subscripts (lemma [passIndex_lookup]). *)
Definition pass_at (m : CaptureManager) (i : Z) : option CapturePass :=
  passes (captureSettings m) !! Z.to_nat i.

Definition PrepareFrame : Cmd unit :=
  (let! capturing := read isCapturing in
   if negb capturing then skip
   else
     (let! multi := read MultiPassEnabled in
      if multi then
        let! pass := read (fun m => pass_at m (passIndex m)) in
        match pass with
        | Some pass => emit (EvSetVisibleElements (elements pass))
        | None => skip
        end
      else skip) >>
     modify (set_framePrepared true))%cmd.

(** The value returned; [None] is the integer division by zero.  The
    counter is a 64-bit signed integer and the size an unsigned 32-bit
    one, so [%] is the signed remainder; [/] truncates. *)
Definition OnGameFrame (m : CaptureManager) : option Z :=
  let hold := if framerate (captureSettings m) =? 0 then None
              else Some (1000 `quot` framerate (captureSettings m)) in
  if MultiPassEnabled m then
    if capturedFrameCount m `rem` passCount m =? 0 then hold else Some 0
  else hold.

(** ** CaptureFrame *)

(** What the outside world answers during one [CaptureFrame]. *)
Record FrameInputs := mkFrameInputs {
  stretchRect : bool;            (* StretchRect succeeded *)
  getRenderTargetData : bool;    (* GetRenderTargetData succeeded *)
  lockRect : bool;               (* LockRect succeeded *)
  unlockRect : bool;             (* UnlockRect succeeded *)
  timelineTick : Z;              (* Playback::GetTimelineTick() *)
  rewinding : bool               (* Rewinding::IsRewinding() *)
}.

(** [screenDimensions.width * screenDimensions.height * 4], 32-bit signed,
    then passed as the [size_t] size argument of [fwrite]. *)
Definition surfaceByteSize (m : CaptureManager) : Z :=
  Int.int32 (Int.int32 (width (screenDimensions m) * height (screenDimensions m)) * 4).

Definition CaptureFrame (w : FrameInputs) : Cmd unit :=
  (modify (set_framePrepared false) >>
   let! anchor := read pipe in
   let! multi := read MultiPassEnabled in
   let! outputPipe :=
     (if multi then
        let! i := read passIndex in
        emit (EvDrawShaderForPassIndex i) >>
        read (fun m => pass_at m i ≫= pass_pipe)
      else cmd_ret anchor) in
   let! bb := read backBuffer in
   let! rt := read downsampledRenderTarget in
   let! tmp := read tempSurface in
   emit (EvStretchRect bb rt (stretchRect w)) >>
   if negb (stretchRect w) then
     log LOG_ERROR "Failed to copy data from backbuffer to render target" [] >>
     StopCapture
   else
   emit (EvGetRenderTargetData rt tmp (getRenderTargetData w)) >>
   if negb (getRenderTargetData w) then
     log LOG_ERROR "Failed copy render target data to surface" [] >>
     StopCapture
   else
   emit (EvLockRect tmp (lockRect w)) >>
   if negb (lockRect w) then
     log LOG_ERROR "Failed to lock surface" [] >>
     StopCapture
   else
   let! size := read surfaceByteSize in
   emit (EvFwrite (Int.size_t size) 1 outputPipe) >>
   modify (fun m => set_capturedFrameCount (Int.int64 (capturedFrameCount m + 1)) m) >>
   emit (EvUnlockRect tmp (unlockRect w)) >>
   if negb (unlockRect w) then
     log LOG_ERROR "Failed to unlock surface" [] >>
     StopCapture
   else
   let! endTick := read (fun m => endTick (captureSettings m)) in
   if negb (rewinding w) && (endTick <? timelineTick w) then StopCapture
   else skip)%cmd.

(** ** GetFFmpegCommand *)

Definition dquote : string := String (Ascii.ascii_of_nat 34) EmptyString.
Definition backslash : string := String (Ascii.ascii_of_nat 92) EmptyString.

(** [std::format] of an integer argument. *)
Definition fmt (z : Z) : string := pretty z.

(** [std::format("Pass {}.mov", passIndex)] and
    [std::format("Pass {}({}).mov", passIndex, i)]. *)
Definition pass_mov (passIndex : Z) : string :=
  "Pass " +:+ fmt passIndex +:+ ".mov".
Definition pass_mov_n (passIndex i : Z) : string :=
  "Pass " +:+ fmt passIndex +:+ "(" +:+ fmt i +:+ ").mov".

(** What the command builder reads from the machine: the short path of
    the encoder executable ([GetShortPathName] of [GetFFmpegPath()]) and
    the names [f] for which [std::filesystem::exists(outputDirectory / f)]. *)
Record Disk := mkDisk {
  shortPath : string;
  files : list string
}.

Definition exists_in (d : Disk) (filename : string) : bool :=
  bool_decide (filename ∈ files d).

(** The [while] loop: [i] is a 32-bit [int], [++i] precedes the format.
    [fuel] bounds the number of iterations; [None] when it runs out. *)
Fixpoint pick_filename (fuel : nat) (d : Disk) (passIndex : Z)
    (filename : string) (i : Z) : option string :=
  if exists_in d filename then
    match fuel with
    | O => None
    | S fuel' =>
        let i' := Int.int32 (i + 1) in
        pick_filename fuel' d passIndex (pass_mov_n passIndex i') i'
    end
  else Some filename.

(** The switch over [captureSettings.videoCodec.value()]: profile, pixel
    format, and whether the [default] label was taken. *)
Definition codec_table (codec : VideoCodec.t) : Z * string * bool :=
  if codec =? VideoCodec.Prores4444XQ then (5, "yuv444p10le", false)
  else if codec =? VideoCodec.Prores4444 then (4, "yuv444p10le", false)
  else if codec =? VideoCodec.Prores422HQ then (3, "yuv422p10le", false)
  else if codec =? VideoCodec.Prores422 then (2, "yuv422p10le", false)
  else if codec =? VideoCodec.Prores422LT then (1, "yuv422p10le", false)
  else (4, "yuv444p10le", true).

Definition video_command (d : Disk) (c : CaptureSettings) (outputDirectory : string)
    (dims : Resolution) (profile : Z) (pixelFormat filename : string) : string :=
  shortPath d +:+ " -f rawvideo -pix_fmt bgra -s " +:+ fmt (width dims) +:+ "x"
  +:+ fmt (height dims) +:+ " -r " +:+ fmt (framerate c)
  +:+ " -i - -c:v prores -profile:v " +:+ fmt profile +:+ " -q:v 1 "
  +:+ "-pix_fmt " +:+ pixelFormat +:+ " -vf scale=" +:+ fmt (width (resolution c))
  +:+ ":" +:+ fmt (height (resolution c)) +:+ " -y " +:+ dquote +:+ outputDirectory
  +:+ backslash +:+ filename +:+ dquote +:+ " 2>&1".

Definition image_sequence_command (d : Disk) (c : CaptureSettings)
    (outputDirectory : string) (dims : Resolution) (passIndex : Z) : string :=
  shortPath d +:+ " -f rawvideo -pix_fmt bgra -s " +:+ fmt (width dims) +:+ "x"
  +:+ fmt (height dims) +:+ " -r " +:+ fmt (framerate c) +:+ " -i - -q:v 0 "
  +:+ "-vf scale=" +:+ fmt (width (resolution c)) +:+ ":" +:+ fmt (height (resolution c))
  +:+ " -y " +:+ dquote +:+ outputDirectory +:+ backslash +:+ "output_"
  +:+ fmt passIndex +:+ "_%06d.tga" +:+ dquote +:+ " 2>&1".

(** The free function [GetFFmpegCommand]: the value returned (or the
    exception raised) and the log lines written.  The loop gets one more
    iteration than the directory has entries, which is more than it can
    use (lemma [pick_filename_total]). *)
Definition GetFFmpegCommand (d : Disk) (c : CaptureSettings) (outputDirectory : string)
    (dims : Resolution) (passIndex : Z) : Result string * list Event :=
  if outputFormat c =? OutputFormat.ImageSequence then
    (Returned (image_sequence_command d c outputDirectory dims passIndex), [])
  else if outputFormat c =? OutputFormat.Video then
    match videoCodec c with
    | None => (Raised bad_optional_access, [])
    | Some codec =>
        let '(profile, pixelFormat, unsupported) := codec_table codec in
        let logged :=
          if unsupported
          then [EvLog LOG_ERROR "Unsupported video codec. Choosing default ({})"
                      [ArgInt (Int.int32 VideoCodec.Prores4444)]]
          else [] in
        match pick_filename (S (length (files d))) d passIndex (pass_mov passIndex) 0 with
        | None => (Diverged, logged)
        | Some filename =>
            (Returned (video_command d c outputDirectory dims profile pixelFormat filename),
             logged)
        end
    end
  else
    (Returned "", [EvLog LOG_ERROR "Output format not supported" []]).

Definition ffmpeg_command (d : Disk) (outputDirectory : string) (passIndex : Z) : Cmd string :=
  fun m =>
    let r := GetFFmpegCommand d (captureSettings m) outputDirectory (screenDimensions m) passIndex in
    mkRun r.1 m r.2.

(** ** StartCapture, ToggleCapture *)

(** What the outside world answers during one [StartCapture].  A Direct3D
    call that succeeds stores a non-null pointer ([Some]); one that fails
    ([None]) leaves the member it was to fill as it is.  A filesystem call
    gives its boolean, or throws ([None]). *)
Record StartInputs := mkStartInputs {
  outputDirectory : string;          (* PreferencesConfiguration: captureOutputDirectory *)
  outputDirectoryExists : option bool;   (* std::filesystem::exists(outputDirectory) *)
  createDirectories : option bool;   (* std::filesystem::create_directories(outputDirectory) *)
  disk : Disk;
  currentTick : Z;                   (* Playback::GetTimelineTick() *)
  getBackBuffer : option ComPtr;
  getDesc : option D3DSURFACE_DESC;
  createOffscreenPlainSurface : option ComPtr;
  createRenderTarget : option ComPtr;
  ffmpegExists : option bool;        (* std::filesystem::exists(GetFFmpegPath()) *)
  popen : nat -> string -> option FILE   (* the n-th _popen of this start *)
}.

Definition set_pass_pipe (i : nat) (p : option FILE) (m : CaptureManager) : CaptureManager :=
  set_captureSettings
    (set_passes (alter (fun pass => mkPass (elements pass) p) i (passes (captureSettings m)))
                (captureSettings m)) m.

(** The [for] loop over the passes, from index [i] with [n] passes left.
    Returns whether every pipe was opened; when one was not, the loop has
    already run [StopCapture]. *)
Fixpoint open_pass_pipes (w : StartInputs) (n i : nat) : Cmd bool :=
  match n with
  | O => cmd_ret true
  | S n' =>
      (let! ffmpegCommand := ffmpeg_command (disk w) (outputDirectory w) (Z.of_nat i) in
       log LOG_DEBUG "ffmpeg command: {}" [ArgStr ffmpegCommand] >>
       let p := popen w i ffmpegCommand in
       emit (EvPopen ffmpegCommand p) >>
       modify (set_pass_pipe i p) >>
       match p with
       | None =>
           log LOG_ERROR "ffmpeg pipe open error" [] >>
           StopCapture >>
           cmd_ret false
       | Some _ => open_pass_pipes w n' (S i)
       end)%cmd
  end.

Definition open_pipes (w : StartInputs) : Cmd bool :=
  (let! empty := read (fun m => bool_decide (passes (captureSettings m) = [])) in
   if empty then
     let! ffmpegCommand := ffmpeg_command (disk w) (outputDirectory w) 0 in
     log LOG_DEBUG "ffmpeg command: {}" [ArgStr ffmpegCommand] >>
     let p := popen w 0%nat ffmpegCommand in
     emit (EvPopen ffmpegCommand p) >>
     modify (set_pipe p) >>
     match p with
     | None =>
         log LOG_ERROR "ffmpeg pipe open error" [] >>
         StopCapture >>
         cmd_ret false
     | Some _ => cmd_ret true
     end
   else
     let! n := read (fun m => length (passes (captureSettings m))) in
     open_pass_pipes w n 0)%cmd.

(** Modelled from the spec: Playback.hpp is not part of the sources; the
    spec has the ticks as ints ([startTick:int]), and [Initialize] assigns
    [startTick] an [int32_t], so the distance to the start tick is a 32-bit
    signed difference. *)
Definition tick_delta (startTick currentTick : Z) : Z := Int.int32 (startTick - currentTick).
Arguments tick_delta : simpl never.

(** [StartCapture].  The two filesystem calls before the seek and the one
    before the pipes are the throwing overloads, outside any [try]: when
    one throws, the function is left there, with what was done so far. *)
Definition StartCapture (w : StartInputs) : Cmd unit :=
  (let! c := read captureSettings in
   if startTick c >=? endTick c then
     log LOG_ERROR "Start tick must be less than end tick" []
   else
   let! present := filesystem (outputDirectoryExists w) in
   (if negb present then
      emit (EvCreateDirectories (outputDirectory w)) >>
      filesystem (createDirectories w) >>
      skip
    else skip) >>
   emit (EvSetTickDelta (tick_delta (startTick c) (currentTick w)) true) >>
   modify (set_capturedFrameCount 0) >>
   log LOG_INFO "Starting capture at {0} ({1} fps)"
       [ArgResolution (resolution c); ArgInt (framerate c)] >>
   emit (EvGetBackBuffer (getBackBuffer w)) >>
   match getBackBuffer w with
   | None => log LOG_ERROR "Failed to capture backbuffer" [] >> StopCapture
   | Some bb =>
   modify (set_backBuffer (Some bb)) >>
   emit (EvGetDesc bb (getDesc w)) >>
   match getDesc w with
   | None => log LOG_ERROR "Failed to get backbuffer description" [] >> StopCapture
   | Some bbDesc =>
   emit (EvCreateOffscreenPlainSurface (Width bbDesc) (Height bbDesc) (Format bbDesc)
                                       (createOffscreenPlainSurface w)) >>
   match createOffscreenPlainSurface w with
   | None => log LOG_ERROR "Failed to create temporary surface" [] >> StopCapture
   | Some tmp =>
   modify (set_tempSurface (Some tmp)) >>
   emit (EvCreateRenderTarget (Width bbDesc) (Height bbDesc) (Format bbDesc)
                              (createRenderTarget w)) >>
   match createRenderTarget w with
   | None => log LOG_ERROR "Failed to create render target" [] >> StopCapture
   | Some rt =>
   modify (set_downsampledRenderTarget (Some rt)) >>
   modify (set_screenDimensions
             (mkResolution (Int.int32 (Width bbDesc)) (Int.int32 (Height bbDesc)))) >>
   let! found := filesystem (ffmpegExists w) in
   if negb found then
     log LOG_ERROR "ffmpeg is not present in the game directory" [] >>
     modify (set_ffmpegNotFound true) >>
     StopCapture
   else
   modify (set_ffmpegNotFound false) >>
   let! opened := open_pipes w in
   if opened then modify (set_isCapturing true) else skip
   end end end end)%cmd.

(** [ToggleCapture] *)
Definition ToggleCapture (w : StartInputs) : Cmd unit :=
  (let! capturing := read isCapturing in
   if negb capturing then StartCapture w else StopCapture)%cmd.

(** ** Vocabulary of the properties *)

(** The pipes a session has open and the GPU resources it holds. *)
Definition open_pipes_of (m : CaptureManager) : list FILE :=
  option_list (pipe m) ++ omap pass_pipe (passes (captureSettings m)).

Definition held_of (m : CaptureManager) : list ComPtr :=
  option_list (tempSurface m) ++ option_list (backBuffer m)
  ++ option_list (downsampledRenderTarget m) ++ option_list (depthSurface m)
  ++ option_list (depthShader m).

(** The state [StopCapture] leaves and the calls it makes, in closed form. *)
Definition idle_of (m : CaptureManager) : CaptureManager :=
  mkManager (set_passes (close_pass <$> passes (captureSettings m)) (captureSettings m))
            (screenDimensions m) false false (capturedFrameCount m) (ffmpegNotFound m)
            None None None None None None.

Definition stop_calls (m : CaptureManager) : list Event :=
  [EvLog LOG_INFO "Stopped capture (wrote {0} frames)" [ArgInt (capturedFrameCount m)];
   EvResetVisibleElements]
  ++ (open_pipes_of m ≫= fun f => [EvFflush f; EvFclose f])
  ++ (EvRelease <$> held_of m).

(** A run whose last action was a complete [StopCapture]. *)
Definition ends_with_StopCapture {A} (r : Run A) : Prop :=
  exists (m' : CaptureManager) (before : list Event),
    calls r = before ++ calls (StopCapture m') /\ after r = after (StopCapture m').

Definition is_fwrite (e : Event) : bool :=
  match e with EvFwrite _ _ _ => true | _ => false end.

Definition allocates_or_opens (e : Event) : bool :=
  match e with
  | EvGetBackBuffer _ | EvCreateOffscreenPlainSurface _ _ _ _
  | EvCreateRenderTarget _ _ _ _ | EvPopen _ _ | EvSetTickDelta _ _
  | EvCreateDirectories _ => true
  | _ => false
  end.

(** The destination pipe in the words of the spec:
    [passes[capturedFrameCount mod passCount].pipe] when the pass list is
    non-empty, the anchor pipe otherwise. *)
Definition destination_pipe (m : CaptureManager) : option FILE :=
  match passes (captureSettings m) with
  | [] => pipe m
  | _ :: _ =>
      passes (captureSettings m) !! Z.to_nat (capturedFrameCount m `mod` passCount m)
        ≫= pass_pipe
  end.

(** Iterated [CaptureFrame], one element of [ws] per render callback. *)
Fixpoint capture_frames (ws : list FrameInputs) (m : CaptureManager) : CaptureManager :=
  match ws with
  | [] => m
  | w :: ws' => capture_frames ws' (after (CaptureFrame w m))
  end.

(** The start steps after the tick guard, as answers of the outside world:
    the [i]-th pipe opens when its command is built and [_popen] returns
    a non-null stream. *)
Definition pipe_opens (w : StartInputs) (c : CaptureSettings) (dims : Resolution)
    (i : nat) : bool :=
  match (GetFFmpegCommand (disk w) c (outputDirectory w) dims (Z.of_nat i)).1 with
  | Returned command => bool_decide (is_Some (popen w i command))
  | _ => false
  end.

Definition every_pipe_opens (w : StartInputs) (c : CaptureSettings) (dims : Resolution) : bool :=
  match passes c with
  | [] => pipe_opens w c dims 0
  | _ :: _ => forallb (pipe_opens w c dims) (seq 0 (length (passes c)))
  end.

(** The output directory is there when the seek is made: it was found,
    or it was missing and [create_directories] returned; neither call
    threw. *)
Definition directory_ready (w : StartInputs) : bool :=
  match outputDirectoryExists w with
  | Some true => true
  | Some false => match createDirectories w with Some _ => true | None => false end
  | None => false
  end.

(** The check for the encoder executable returned [true]. *)
Definition encoder_found (w : StartInputs) : bool :=
  match ffmpegExists w with Some found => found | None => false end.


(** The four device calls of [StartCapture] all succeed. *)
Definition device_steps_succeed (w : StartInputs) : bool :=
  match getBackBuffer w, getDesc w, createOffscreenPlainSurface w, createRenderTarget w with
  | Some _, Some _, Some _, Some _ => true
  | _, _, _, _ => false
  end.

(** Every filesystem call the start gets to gives an answer: the
    directory is ready and, when the device calls succeed, the check for
    the encoder executable does not throw. *)
Definition filesystem_answers (w : StartInputs) : bool :=
  directory_ready w
  && (negb (device_steps_succeed w)
      || match ffmpegExists w with Some _ => true | None => false end).

Definition start_steps_succeed (w : StartInputs) (m : CaptureManager) : bool :=
  directory_ready w
  && match getBackBuffer w, getDesc w, createOffscreenPlainSurface w, createRenderTarget w with
     | Some _, Some bbDesc, Some _, Some _ =>
         encoder_found w
         && every_pipe_opens w (captureSettings m)
              (mkResolution (Int.int32 (Width bbDesc)) (Int.int32 (Height bbDesc)))
     | _, _, _, _ => false
     end.

(** A state with [n] passes, used for concrete runs. *)
Definition empty_pass : CapturePass := mkPass ∅ None.

Definition session (nPasses : nat) (fps count : Z) : CaptureManager :=
  mkManager (mkSettings 10 100 OutputFormat.Video (Some VideoCodec.Prores422)
                        (mkResolution 1280 720) fps (replicate nPasses empty_pass))
            (mkResolution 1920 1080) true false count false
            None None None None None None.

(** A multi-pass session in the middle of a capture, and its single-stream
    counterpart, with every resource and pipe in place. *)
Definition two_pass_session (count : Z) : CaptureManager :=
  mkManager (mkSettings 10 100 OutputFormat.Video (Some VideoCodec.Prores422)
                        (mkResolution 1280 720) 30
                        [mkPass ∅ (Some 10%nat); mkPass {[1%nat]} (Some 11%nat)])
            (mkResolution 1920 1080) true true count false
            None (Some 1%nat) (Some 2%nat) (Some 3%nat) None None.

Definition single_stream_session (count : Z) : CaptureManager :=
  mkManager (mkSettings 10 100 OutputFormat.Video (Some VideoCodec.Prores422)
                        (mkResolution 1280 720) 25 [])
            (mkResolution 1920 1080) true true count false
            (Some 10%nat) (Some 1%nat) (Some 2%nat) (Some 3%nat) None None.

Definition good_frame (tick : Z) : FrameInputs :=
  mkFrameInputs true true true true tick false.

(** The state after a frame was written and the session went on. *)
Definition frame_written (m : CaptureManager) : CaptureManager :=
  set_capturedFrameCount (Int.int64 (capturedFrameCount m + 1)) (set_framePrepared false m).


(** The five ProRes variants the switch of [GetFFmpegCommand] names. *)
Definition supported_codecs : list VideoCodec.t :=
  [VideoCodec.Prores4444XQ; VideoCodec.Prores4444; VideoCodec.Prores422HQ;
   VideoCodec.Prores422; VideoCodec.Prores422LT].


(** A result that is an exception or a loop that does not end. *)
Definition never_returned {A} (r : Result A) : Prop :=
  match r with Returned _ => False | _ => True end.


(** An idle session configured for two passes, and a start in which every
    call to the outside world succeeds. *)
Definition idle_two_pass_session : CaptureManager :=
  mkManager (mkSettings 10 100 OutputFormat.Video (Some VideoCodec.Prores422)
                        (mkResolution 1280 720) 30
                        [mkPass ∅ None; mkPass {[1%nat]} None])
            (mkResolution 0 0) false false 0 false
            None None None None None None.

Definition start_ok : StartInputs :=
  mkStartInputs "C:/recordings" (Some true) (Some false) (mkDisk "ffmpeg.exe" ["Pass 0.mov"]) 5
                (Some 1%nat) (Some (mkDesc 1920 1080 21)) (Some 2%nat) (Some 3%nat)
                (Some true) (fun i _ => Some (10 + i)%nat).

(** The same session with no video codec chosen. *)
Definition codec_absent_session : CaptureManager :=
  set_captureSettings
    (mkSettings 10 100 OutputFormat.Video None (mkResolution 1280 720) 30
                [mkPass ∅ None; mkPass {[1%nat]} None])
    idle_two_pass_session.

(** * The rest of CaptureManager.cpp *)

(** ** Runs of captured frames, with the calls they make *)

Fixpoint capture_frames_calls (ws : list FrameInputs) (m : CaptureManager) : list Event :=
  match ws with
  | [] => []
  | w :: ws' => calls (CaptureFrame w m) ++ capture_frames_calls ws' (after (CaptureFrame w m))
  end.

(** A frame in which every device call succeeds and the tick check lets the
    session go on: rewinding, or a tick not beyond [endTick]. *)
Definition frame_goes_on (endTick : Z) (w : FrameInputs) : bool :=
  stretchRect w && getRenderTargetData w && lockRect w && unlockRect w
  && (rewinding w || (timelineTick w <=? endTick)).

(** The session with its frame counter at another value. *)
Definition at_count (count : Z) (m : CaptureManager) : CaptureManager :=
  set_capturedFrameCount count m.

Definition is_stop_log (e : Event) : bool :=
  match e with
  | EvLog LOG_INFO "Stopped capture (wrote {0} frames)" _ => true
  | _ => false
  end.

(** The pipe [CaptureFrame] hands to [fwrite], as the source selects it. *)
Definition written_to (m : CaptureManager) : option FILE :=
  if MultiPassEnabled m then pass_at m (passIndex m) ≫= pass_pipe else pipe m.

(** The state after [n] frames were written and the session went on. *)
Definition frames_written (n : nat) (m : CaptureManager) : CaptureManager :=
  Nat.iter n frame_written m.

(** ** Decimal digits, for the names the command builder prints *)

Definition is_digit (c : Ascii.ascii) : bool :=
  let n := Ascii.nat_of_ascii c in (48 <=? n)%nat && (n <=? 57)%nat.

Fixpoint all_digits (s : string) : bool :=
  match s with
  | EmptyString => true
  | String c s' => is_digit c && all_digits s'
  end.

(** A string that does not go on with a digit. *)
Definition stops_digits (s : string) : bool :=
  match s with
  | EmptyString => true
  | String c _ => negb (is_digit c)
  end.

(** ** Handles taken and given back, read off the calls *)

(** Direct3D references a call handed out, and references released. *)
Definition acquired (e : Event) : list ComPtr :=
  match e with
  | EvGetBackBuffer (Some h) => [h]
  | EvCreateOffscreenPlainSurface _ _ _ (Some h) => [h]
  | EvCreateRenderTarget _ _ _ (Some h) => [h]
  | _ => []
  end.

Definition released (e : Event) : list ComPtr :=
  match e with EvRelease h => [h] | _ => [] end.

(** Streams [_popen] returned, and streams closed. *)
Definition opened (e : Event) : list FILE :=
  match e with EvPopen _ (Some f) => [f] | _ => [] end.

Definition closed (e : Event) : list FILE :=
  match e with EvFclose f => [f] | _ => [] end.

Definition is_log (e : Event) : bool :=
  match e with EvLog _ _ _ => true | _ => false end.

(** ** What a start leaves in the session record *)

(** The members a [StartCapture] past the tick guard assigns besides the
    handles: none when the directory check or creation throws; else the
    counter; the screen dimensions once the four device calls have
    succeeded; the [ffmpegNotFound] flag once the check for the encoder
    executable has answered. *)
Definition start_record (w : StartInputs) (m : CaptureManager) : CaptureManager :=
  if directory_ready w then
    let m1 := set_capturedFrameCount 0 m in
    match getBackBuffer w, getDesc w, createOffscreenPlainSurface w, createRenderTarget w with
    | Some _, Some bbDesc, Some _, Some _ =>
        let m2 :=
          set_screenDimensions
            (mkResolution (Int.int32 (Width bbDesc)) (Int.int32 (Height bbDesc))) m1 in
        match ffmpegExists w with
        | Some found => set_ffmpegNotFound (negb found) m2
        | None => m2
        end
    | _, _, _, _ => m1
    end
  else m.

Definition is_popen (e : Event) : bool :=
  match e with EvPopen _ _ => true | _ => false end.


(** ** The labels *)

(** [GetOutputFormatLabel] *)
Definition GetOutputFormatLabel (outputFormat : OutputFormat.t) : string :=
  if outputFormat =? OutputFormat.Video then "Video"
  else if outputFormat =? OutputFormat.CameraData then "Camera Data"
  else if outputFormat =? OutputFormat.ImageSequence then "Image Sequence"
  else "Unknown Output Format".

(** [GetVideoCodecLabel] *)
Definition GetVideoCodecLabel (codec : VideoCodec.t) : string :=
  if codec =? VideoCodec.Prores4444XQ then "Prores 4444 XQ"
  else if codec =? VideoCodec.Prores4444 then "Prores 4444"
  else if codec =? VideoCodec.Prores422HQ then "Prores 422 HQ"
  else if codec =? VideoCodec.Prores422 then "Prores 422"
  else if codec =? VideoCodec.Prores422LT then "Prores 422 LT"
  else "Unknown Video Codec".

(** The output formats for which [GetFFmpegCommand] has a [case]. *)
Definition has_command (outputFormat : OutputFormat.t) : bool :=
  (outputFormat =? OutputFormat.ImageSequence) || (outputFormat =? OutputFormat.Video).

(** A call that is not a [_popen], or a [_popen] of the empty command. *)
Definition empty_command (e : Event) : bool :=
  match e with
  | EvPopen command _ => bool_decide (command = "")
  | _ => true
  end.

(** The session of [idle_two_pass_session] set to record camera data. *)
Definition camera_data_session : CaptureManager :=
  set_captureSettings
    (mkSettings 10 100 OutputFormat.CameraData (Some VideoCodec.Prores422)
                (mkResolution 1280 720) 30 [mkPass ∅ None; mkPass {[1%nat]} None])
    idle_two_pass_session.

(** ** OnRenderFrame *)

(** [OnRenderFrame]: both branches of the test return without doing
    anything. *)
Definition OnRenderFrame (rewinding : bool) : Cmd unit :=
  (let! capturing := read isCapturing in
   if negb capturing || rewinding then skip else skip)%cmd.

(** ** Initialize *)

(** [Initialize] writes to more than the members above: to the array
    [supportedResolutions] of the class, to the dvar [r_smp_backend] of the
    game, to the output directory of the preferences and to the listeners
    of [Events]. *)

(** A [std::filesystem::path], kept as the operands of its [operator/]. *)
Inductive path :=
| PathOf (s : string)
| PathSlash (p : path) (name : string).

Fixpoint path_empty (p : path) : bool :=
  match p with
  | PathOf s => bool_decide (s = "")
  | PathSlash p name => path_empty p && bool_decide (name = "")
  end.

Inductive EventType := OnDemoBoundsDetermined | OnFrame.

(** The two closures [Initialize] registers, by what they do: the first
    sets a tick range that is still 0 from the bounds of the demo (in
    double precision, which is not modelled here), the second calls
    [OnRenderFrame]. *)
Inductive Listener := DefaultTickRange | RenderFrame.

Record Surroundings := mkSurroundings {
  members : CaptureManager;
  supportedResolutions : list Resolution;       (* the std::array of the class *)
  r_smp_backend : option Z;                     (* the dvar's int32; None: no such dvar *)
  captureOutputDirectory : path;                (* PreferencesConfiguration *)
  listeners : list (EventType * Listener)       (* Events, in order of registration *)
}.

Definition set_members (m : CaptureManager) (s : Surroundings) : Surroundings :=
  mkSurroundings m (supportedResolutions s) (r_smp_backend s) (captureOutputDirectory s)
                 (listeners s).

Definition set_r_smp_backend (v : option Z) (s : Surroundings) : Surroundings :=
  mkSurroundings (members s) (supportedResolutions s) v (captureOutputDirectory s)
                 (listeners s).

(** What the outside world answers during [Initialize]. *)
Record InitInputs := mkInitInputs {
  init_getBackBuffer : option ComPtr;
  init_getDesc : option D3DSURFACE_DESC;
  currentGameDirectory : string                 (* PathUtils::GetCurrentGameDirectory() *)
}.

(** The loop over [supportedResolutions], at index [i] with [n] entries
    left.  The division is the one of C++, which truncates. *)
Fixpoint fill_resolutions (gameResolution : Resolution) (n : nat) (i : Z)
    (resolutions : list Resolution) : list Resolution :=
  match n with
  | O => resolutions
  | S n' =>
      fill_resolutions gameResolution n' (i + 1)
        (<[Z.to_nat i := mkResolution (Int.int32 (width gameResolution `quot` (i + 1)))
                                      (Int.int32 (height gameResolution `quot` (i + 1)))]>
           resolutions)
  end.

(** [Initialize]: the state it leaves and the calls it makes. *)
Definition Initialize (w : InitInputs) (s : Surroundings) : Surroundings * list Event :=
  let '(s1, calls1) :=
    match r_smp_backend s with
    | None => (s, [EvLog LOG_ERROR "Could not set r_smp_backend; dvar not found" []])
    | Some _ => (set_r_smp_backend (Some 0) s, [])
    end in
  match init_getBackBuffer w with
  | None =>
      (s1, calls1 ++ [EvGetBackBuffer None;
                      EvLog LOG_ERROR
                            "Failed to capture backbuffer. Capture resolution not found." []])
  | Some bb =>
      let s2 := set_members (set_backBuffer (Some bb) (members s1)) s1 in
      match init_getDesc w with
      | None =>
          (s2, calls1 ++ [EvGetBackBuffer (Some bb); EvGetDesc bb None;
                          EvLog LOG_ERROR
                                "Failed to get backbuffer description. Capture resolution not found."
                                []])
      | Some bbDesc =>
          let gameResolution :=
            mkResolution (Int.int32 (Width bbDesc)) (Int.int32 (Height bbDesc)) in
          (mkSurroundings
             (set_captureSettings
                (mkSettings 0 0 OutputFormat.Video (Some VideoCodec.Prores4444)
                            gameResolution 250 [])
                (set_backBuffer None (members s2)))
             (fill_resolutions gameResolution (length (supportedResolutions s2)) 0
                               (supportedResolutions s2))
             (r_smp_backend s2)
             (if path_empty (captureOutputDirectory s2)
              then PathSlash (PathSlash (PathOf (currentGameDirectory w)) "IWXMVM") "recordings"
              else captureOutputDirectory s2)
             (listeners s2 ++ [(OnDemoBoundsDetermined, DefaultTickRange);
                               (OnFrame, RenderFrame)]),
           calls1 ++ [EvGetBackBuffer (Some bb); EvGetDesc bb (Some bbDesc); EvRelease bb])
      end
  end.

(** A game at 1920x1080 with the dvar, no output directory chosen, and a
    catalog of four resolutions. *)
Definition fresh_surroundings : Surroundings :=
  mkSurroundings idle_two_pass_session (replicate 4 (mkResolution 0 0)) (Some 1)
                 (PathOf "") [].

Definition init_ok : InitInputs :=
  mkInitInputs (Some 1%nat) (Some (mkDesc 1920 1080 21)) "C:/game".

(** A call that is not a [_popen], or a [_popen] of a command that tells
    the encoder to read raw BGRA frames of the size [dims]. *)
Definition declares_size (d : Disk) (dims : Resolution) (e : Event) : Prop :=
  match e with
  | EvPopen command _ =>
      exists rest,
        command = shortPath d +:+ " -f rawvideo -pix_fmt bgra -s " +:+ fmt (width dims)
                  +:+ "x" +:+ fmt (height dims) +:+ rest
  | _ => True
  end.

(** * Properties *)

Module IntFacts.

Lemma int32_small z : - 2 ^ 31 <= z < 2 ^ 31 -> Int.int32 z = z.
Proof. intros H. unfold Int.int32. rewrite Z.mod_small; lia. Qed.

Lemma size_t_small z : 0 <= z < 2 ^ 32 -> Int.size_t z = z.
Proof. intros H. unfold Int.size_t. apply Z.mod_small; lia. Qed.

Lemma int64_small z : - 2 ^ 63 <= z < 2 ^ 63 -> Int.int64 z = z.
Proof. intros H. unfold Int.int64. rewrite Z.mod_small; lia. Qed.

End IntFacts.

(** ** StopCapture in closed form *)

Lemma close_pipe_option (p : option FILE) :
  close_pipe p = option_list p ≫= fun f => [EvFflush f; EvFclose f].
Proof. destruct p; reflexivity. Qed.

Lemma close_passes_calls (ps : list CapturePass) :
  (ps ≫= fun pass => close_pipe (pass_pipe pass))
  = omap pass_pipe ps ≫= fun f => [EvFflush f; EvFclose f].
Proof.
  induction ps as [|[els [f|]] ps IH]; simpl; [done| |done].
  cbn. f_equal. f_equal. exact IH.
Qed.

Lemma StopCapture_run (m : CaptureManager) :
  StopCapture m = mkRun (Returned tt) (idle_of m) (stop_calls m).
Proof.
  unfold StopCapture, cmd_bind, stop_calls, idle_of; simpl.
  f_equal. unfold open_pipes_of, held_of.
  rewrite bind_app, close_passes_calls, <- close_pipe_option.
  rewrite !fmap_app.
  destruct (tempSurface m), (backBuffer m), (downsampledRenderTarget m),
    (depthSurface m), (depthShader m); simpl; rewrite ?app_nil_r, <- ?app_assoc; reflexivity.
Qed.

Lemma closed_passes_no_pipe (ps : list CapturePass) :
  omap pass_pipe (close_pass <$> ps) = [].
Proof. induction ps as [|p ps IH]; [done|]. simpl. exact IH. Qed.

Lemma close_pass_twice (ps : list CapturePass) :
  close_pass <$> (close_pass <$> ps) = close_pass <$> ps.
Proof. rewrite <- list_fmap_compose. apply list_fmap_ext. intros _ [els p] _. reflexivity. Qed.

Lemma idle_of_idle (m : CaptureManager) : idle_of (idle_of m) = idle_of m.
Proof. unfold idle_of, set_passes; simpl. by rewrite close_pass_twice. Qed.

Lemma idle_of_no_pipes (m : CaptureManager) : open_pipes_of (idle_of m) = [].
Proof. unfold open_pipes_of; simpl. apply closed_passes_no_pipe. Qed.

Lemma idle_of_holds_nothing (m : CaptureManager) : held_of (idle_of m) = [].
Proof. reflexivity. Qed.

Lemma stop_calls_flush_close (m : CaptureManager) (f : FILE) :
  f ∈ open_pipes_of m ->
  exists before rest, stop_calls m = before ++ EvFflush f :: EvFclose f :: rest.
Proof.
  intros Hf. apply list_elem_of_split in Hf as (l1 & l2 & Hsplit).
  unfold stop_calls. rewrite Hsplit, bind_app, bind_cons.
  set (F := fun f : FILE => [EvFflush f; EvFclose f]).
  exists ([EvLog LOG_INFO "Stopped capture (wrote {0} frames)" [ArgInt (capturedFrameCount m)];
           EvResetVisibleElements] ++ (l1 ≫= F)),
         ((l2 ≫= F) ++ (EvRelease <$> held_of m)).
  rewrite <- !app_assoc. reflexivity.
Qed.

Lemma stop_calls_release (m : CaptureManager) (h : ComPtr) :
  h ∈ held_of m -> EvRelease h ∈ stop_calls m.
Proof.
  intros Hh. unfold stop_calls. rewrite !elem_of_app. right; right.
  by apply list_elem_of_fmap_2.
Qed.

(** C6. [StopCapture] is idempotent.  From any session state, one call
    flushes and then closes every open pipe, releases every held GPU
    resource, leaves every pipe and resource pointer null and both
    [framePrepared] and [isCapturing] false.  A second call in succession
    only logs and resets the visible elements (it flushes, closes and
    releases nothing) and leaves the session state as the first call left
    it. *)
Theorem StopCapture_idempotent (m : CaptureManager) :
  let once := StopCapture m in
  let twice := StopCapture (after once) in
  result once = Returned tt
  /\ (forall f, f ∈ open_pipes_of m ->
        exists before rest, calls once = before ++ EvFflush f :: EvFclose f :: rest)
  /\ (forall h, h ∈ held_of m -> EvRelease h ∈ calls once)
  /\ pipe (after once) = None
  /\ Forall (fun pass => pass_pipe pass = None) (passes (captureSettings (after once)))
  /\ tempSurface (after once) = None
  /\ backBuffer (after once) = None
  /\ downsampledRenderTarget (after once) = None
  /\ depthSurface (after once) = None
  /\ depthShader (after once) = None
  /\ framePrepared (after once) = false
  /\ isCapturing (after once) = false
  /\ result twice = Returned tt
  /\ calls twice =
       [EvLog LOG_INFO "Stopped capture (wrote {0} frames)" [ArgInt (capturedFrameCount m)];
        EvResetVisibleElements]
  /\ after twice = after once.
Proof.
  intros once twice. subst once twice. rewrite !StopCapture_run. simpl.
  repeat split.
  - apply stop_calls_flush_close.
  - apply stop_calls_release.
  - apply Forall_fmap, Forall_true. reflexivity.
  - unfold stop_calls. by rewrite idle_of_no_pipes, idle_of_holds_nothing.
  - apply idle_of_idle.
Qed.

Lemma stop_calls_no_fwrite (m : CaptureManager) :
  List.filter is_fwrite (stop_calls m) = [].
Proof.
  unfold stop_calls. rewrite !List.filter_app. simpl.
  assert (forall fs : list FILE,
             List.filter is_fwrite (fs ≫= fun f => [EvFflush f; EvFclose f]) = []) as ->.
  { induction fs as [|f fs IH]; [done|]. exact IH. }
  assert (forall hs : list ComPtr, List.filter is_fwrite (EvRelease <$> hs) = []) as ->.
  { induction hs as [|h hs IH]; [done|]. exact IH. }
  reflexivity.
Qed.

Lemma idle_of_endTick (m : CaptureManager) :
  endTick (captureSettings (idle_of m)) = endTick (captureSettings m).
Proof. reflexivity. Qed.

(** ** CaptureFrame *)

#[local] Opaque StopCapture stop_calls idle_of.

Ltac run_CaptureFrame w m :=
  unfold CaptureFrame, cmd_bind, log, emit, modify, read, skip, cmd_ret; simpl;
  change (MultiPassEnabled (set_framePrepared false m)) with (MultiPassEnabled m).

(** Every path through [CaptureFrame], with [StopCapture] replaced by its
    closed form. *)
Ltac CaptureFrame_paths w m :=
  run_CaptureFrame w m;
  destruct (MultiPassEnabled m) eqn:?; simpl;
  destruct (stretchRect w) eqn:?; simpl;
  destruct (getRenderTargetData w) eqn:?; simpl;
  destruct (lockRect w) eqn:?; simpl;
  destruct (unlockRect w) eqn:?; simpl;
  destruct (rewinding w) eqn:?; simpl;
  destruct (endTick (captureSettings m) <? timelineTick w) eqn:?; simpl;
  rewrite ?StopCapture_run; simpl.

(** The subscript of [captureSettings.passes] is always in range. *)
Lemma passIndex_lookup (m : CaptureManager) :
  MultiPassEnabled m = true -> is_Some (pass_at m (passIndex m)).
Proof.
  unfold MultiPassEnabled, pass_at, passIndex, passCount.
  destruct (passes (captureSettings m)) as [|p ps] eqn:E; [done|]. intros _.
  apply lookup_lt_is_Some.
  assert (0 < Z.of_nat (length (p :: ps))) as Hn by (cbn [length]; lia).
  pose proof (Z.mod_pos_bound (Int.size_t (capturedFrameCount m)) _ Hn). lia.
Qed.

Lemma destination_pipe_multi (m : CaptureManager) :
  MultiPassEnabled m = true -> 0 <= capturedFrameCount m < 2 ^ 32 ->
  pass_at m (passIndex m) ≫= pass_pipe = destination_pipe m.
Proof.
  unfold MultiPassEnabled, destination_pipe, pass_at, passIndex. intros Hmulti Hc.
  destruct (passes (captureSettings m)) eqn:E; [done|].
  by rewrite IntFacts.size_t_small.
Qed.

Lemma destination_pipe_single (m : CaptureManager) :
  MultiPassEnabled m = false -> destination_pipe m = pipe m.
Proof.
  unfold MultiPassEnabled, destination_pipe.
  by destruct (passes (captureSettings m)).
Qed.

Lemma surfaceByteSize_exact (m : CaptureManager) :
  0 <= width (screenDimensions m) ->
  0 <= height (screenDimensions m) ->
  width (screenDimensions m) * height (screenDimensions m) * 4 < 2 ^ 31 ->
  Int.size_t (surfaceByteSize m)
  = width (screenDimensions m) * height (screenDimensions m) * 4.
Proof.
  intros Hw Hh H1. unfold surfaceByteSize.
  assert (0 <= width (screenDimensions m) * height (screenDimensions m)) as H0 by nia.
  rewrite (IntFacts.int32_small (width _ * height _)) by lia.
  rewrite IntFacts.int32_small by lia.
  apply IntFacts.size_t_small. lia.
Qed.

(** C2. In a state where the copy, the resolve and the lock succeed, one
    [CaptureFrame] makes exactly one [fwrite], of one block of
    [width*height*4] bytes, to the destination pipe
    ([passes[capturedFrameCount mod passCount].pipe] when the pass list is
    non-empty, the anchor pipe otherwise), and leaves [capturedFrameCount]
    one higher.  The counter is taken below 2^32 and the byte size within
    the 32-bit [int] the source computes it in. *)
Theorem CaptureFrame_writes_one_frame (w : FrameInputs) (m : CaptureManager) :
  stretchRect w = true -> getRenderTargetData w = true -> lockRect w = true ->
  0 <= capturedFrameCount m < 2 ^ 32 ->
  0 <= width (screenDimensions m) ->
  0 <= height (screenDimensions m) ->
  width (screenDimensions m) * height (screenDimensions m) * 4 < 2 ^ 31 ->
  let r := CaptureFrame w m in
  result r = Returned tt
  /\ List.filter is_fwrite (calls r)
     = [EvFwrite (width (screenDimensions m) * height (screenDimensions m) * 4) 1
                 (destination_pipe m)]
  /\ capturedFrameCount (after r) = capturedFrameCount m + 1
  /\ (passes (captureSettings m) = [] -> destination_pipe m = pipe m)
  /\ (passes (captureSettings m) <> [] ->
      exists pass,
        passes (captureSettings m) !! Z.to_nat (capturedFrameCount m `mod` passCount m)
          = Some pass
        /\ destination_pipe m = pass_pipe pass).
Proof.
  intros Hcopy Hresolve Hlock Hcount Hwidth Hheight Hsize r. subst r.
  pose proof (surfaceByteSize_exact m Hwidth Hheight Hsize) as Hbytes.
  assert (Int.int64 (capturedFrameCount m + 1) = capturedFrameCount m + 1) as Hinc
    by (apply IntFacts.int64_small; lia).
  split; [|split; [|split; [|split]]].
  - CaptureFrame_paths w m; done.
  - CaptureFrame_paths w m; try done;
      rewrite ?List.filter_app, ?stop_calls_no_fwrite; simpl;
      change (surfaceByteSize (set_framePrepared false m)) with (surfaceByteSize m);
      rewrite Hbytes;
      change (pass_at (set_framePrepared false m) (passIndex (set_framePrepared false m)))
        with (pass_at m (passIndex m));
      first [ by rewrite (destination_pipe_multi m) by assumption
            | by rewrite (destination_pipe_single m) by assumption ].
  - CaptureFrame_paths w m; done.
  - intros Hempty. apply destination_pipe_single. unfold MultiPassEnabled. by rewrite Hempty.
  - intros Hne. unfold destination_pipe.
    destruct (passes (captureSettings m)) as [|p ps] eqn:E; [done|].
    assert (is_Some ((p :: ps) !! Z.to_nat (capturedFrameCount m `mod` passCount m))) as [pass Hp].
    { apply lookup_lt_is_Some. unfold passCount. rewrite E.
      assert (0 < Z.of_nat (length (p :: ps))) as Hn by (cbn [length]; lia).
      pose proof (Z.mod_pos_bound (capturedFrameCount m) _ Hn). lia. }
    exists pass. by rewrite Hp.
Qed.

Lemma CaptureFrame_writes_one_frame_witness :
  let r := CaptureFrame (good_frame 50) (two_pass_session 3) in
  result r = Returned tt
  /\ List.filter is_fwrite (calls r) = [EvFwrite (1920 * 1080 * 4) 1 (Some 11%nat)]
  /\ capturedFrameCount (after r) = 4.
Proof.
  destruct (CaptureFrame_writes_one_frame (good_frame 50) (two_pass_session 3))
    as (Hret & Hwrite & Hcount & _); simpl; try reflexivity; try lia.
  repeat split; assumption.
Defined.


Lemma ends_with_StopCapture_intro {A} (res : Result A) (m' : CaptureManager)
    (before : list Event) :
  ends_with_StopCapture (mkRun res (idle_of m') (before ++ stop_calls m')).
Proof. exists m', before. by rewrite StopCapture_run. Qed.

Ltac calls_before_stop l :=
  lazymatch l with
  | stop_calls _ => constr:(@nil Event)
  | ?e :: ?t => let b := calls_before_stop t in constr:(e :: b)
  end.

Ltac ends_with_StopCapture_now :=
  lazymatch goal with
  | |- ends_with_StopCapture (mkRun ?res (idle_of ?m') ?l) =>
      let b := calls_before_stop l in
      exact (ends_with_StopCapture_intro res m' b)
  end.

(** The two ways a [CaptureFrame] ends: through [StopCapture], or with the
    frame written and the session as it was. *)
Lemma CaptureFrame_outcome (w : FrameInputs) (m : CaptureManager) :
  let r := CaptureFrame w m in
  result r = Returned tt
  /\ ((ends_with_StopCapture r
       /\ exists m', after r = idle_of m' /\ captureSettings m' = captureSettings m)
      \/ (after r = frame_written m
          /\ (rewinding w = true \/ timelineTick w <= endTick (captureSettings m)))).
Proof.
  CaptureFrame_paths w m; (split; [reflexivity|]);
    first [ left; split; [ends_with_StopCapture_now | eexists; split; reflexivity]
          | right; split; [reflexivity|]; first [by left | right; lia] ].
Qed.

Lemma CaptureFrame_settings (w : FrameInputs) (m : CaptureManager) :
  endTick (captureSettings (after (CaptureFrame w m))) = endTick (captureSettings m).
Proof.
  destruct (CaptureFrame_outcome w m) as [_ [[_ (m' & -> & Hm')] | [-> _]]].
  - by rewrite idle_of_endTick, Hm'.
  - reflexivity.
Qed.

Lemma CaptureFrame_stays_idle (w : FrameInputs) (m : CaptureManager) :
  isCapturing m = false -> isCapturing (after (CaptureFrame w m)) = false.
Proof.
  intros Hidle.
  destruct (CaptureFrame_outcome w m) as [_ [[_ (m' & -> & _)] | [-> _]]]; [reflexivity|].
  exact Hidle.
Qed.

Lemma capture_frames_stays_idle (ws : list FrameInputs) (m : CaptureManager) :
  isCapturing m = false -> isCapturing (capture_frames ws m) = false.
Proof.
  revert m. induction ws as [|w ws IH]; intros m Hidle; [exact Hidle|].
  simpl. apply IH, CaptureFrame_stays_idle, Hidle.
Qed.

Lemma CaptureFrame_past_endTick (w : FrameInputs) (m : CaptureManager) :
  rewinding w = false -> endTick (captureSettings m) < timelineTick w ->
  ends_with_StopCapture (CaptureFrame w m) /\ isCapturing (after (CaptureFrame w m)) = false.
Proof.
  intros Hrew Hlate.
  destruct (CaptureFrame_outcome w m) as [_ [[Hstop (m' & Hm' & _)] | [_ [Habs | Habs]]]].
  - split; [exact Hstop|]. by rewrite Hm'.
  - congruence.
  - lia.
Qed.

(** C7. A [CaptureFrame] that runs while rewinding is inactive and the
    timeline tick exceeds [endTick] ends by invoking [StopCapture] and
    leaves [isCapturing] false; and in any sequence of captured frames, once
    such a frame has been captured the session is not Capturing, whatever
    frames come before or after it. *)
Theorem CaptureFrame_stops_past_endTick (w : FrameInputs) (m : CaptureManager) :
  rewinding w = false ->
  endTick (captureSettings m) < timelineTick w ->
  ends_with_StopCapture (CaptureFrame w m)
  /\ isCapturing (after (CaptureFrame w m)) = false
  /\ forall earlier later : list FrameInputs,
       isCapturing (capture_frames (earlier ++ w :: later) m) = false.
Proof.
  intros Hrew Hlate.
  destruct (CaptureFrame_past_endTick w m Hrew Hlate) as [Hstop Hidle].
  split; [exact Hstop|]. split; [exact Hidle|].
  intros earlier later. revert m Hlate Hstop Hidle.
  induction earlier as [|w0 earlier IH]; intros m Hlate Hstop Hidle; simpl.
  - apply capture_frames_stays_idle, Hidle.
  - assert (endTick (captureSettings (after (CaptureFrame w0 m))) < timelineTick w) as Hlate'
      by (rewrite CaptureFrame_settings; exact Hlate).
    destruct (CaptureFrame_past_endTick w _ Hrew Hlate') as [Hstop' Hidle'].
    by apply IH.
Qed.

Lemma CaptureFrame_stops_past_endTick_witness :
  ends_with_StopCapture (CaptureFrame (good_frame 101) (single_stream_session 90))
  /\ isCapturing (after (CaptureFrame (good_frame 101) (single_stream_session 90))) = false
  /\ isCapturing (capture_frames [good_frame 100; good_frame 101; good_frame 102]
                                  (single_stream_session 89)) = false.
Proof.
  destruct (CaptureFrame_stops_past_endTick (good_frame 101) (single_stream_session 90))
    as (Hstop & Hidle & _); [reflexivity | simpl; lia |].
  split; [exact Hstop|]. split; [exact Hidle|].
  destruct (CaptureFrame_stops_past_endTick (good_frame 101) (single_stream_session 89))
    as (_ & _ & Hrun); [reflexivity | simpl; lia |].
  exact (Hrun [good_frame 100] [good_frame 102]).
Defined.

(** ** PrepareFrame *)

(** C10. While [isCapturing] is false, [PrepareFrame] returns at once: the
    session state is unchanged (so [framePrepared] keeps its value and is
    not set to true) and no call reaches the renderer. *)
Theorem PrepareFrame_idle (m : CaptureManager) :
  isCapturing m = false ->
  result (PrepareFrame m) = Returned tt
  /\ after (PrepareFrame m) = m
  /\ framePrepared (after (PrepareFrame m)) = framePrepared m
  /\ calls (PrepareFrame m) = [].
Proof.
  intros Hidle. unfold PrepareFrame, cmd_bind, read. simpl. rewrite Hidle. simpl.
  repeat split.
Qed.

Lemma PrepareFrame_idle_witness :
  after (PrepareFrame (idle_of (two_pass_session 3))) = idle_of (two_pass_session 3)
  /\ calls (PrepareFrame (idle_of (two_pass_session 3))) = [].
Proof.
  destruct (PrepareFrame_idle (idle_of (two_pass_session 3))) as (_ & Hsame & _ & Hcalls);
    [reflexivity|].
  split; assumption.
Defined.

(** ** OnGameFrame *)

Lemma passCount_pos (m : CaptureManager) :
  MultiPassEnabled m = true -> 0 < passCount m.
Proof.
  unfold MultiPassEnabled, passCount.
  destruct (passes (captureSettings m)); [done|]. intros _. cbn [length]. lia.
Qed.

(** C3, as the code has it.  In a multi-pass state (counter not negative)
    [OnGameFrame] returns [1000/framerate] exactly when
    [capturedFrameCount mod passCount == 0], that is before the first pass
    of a cycle is captured, and [0] on every other pass; with an empty pass
    list it returns [1000/framerate].  For three passes at 30 frames per
    second the values at counts 0,1,2,3,4,5 are 33,0,0,33,0,0; the values
    0,0,33,0,0,33 are those found once the frame at each of these counts
    has been written and the counter has moved on. *)
Theorem OnGameFrame_hold (m : CaptureManager) :
  0 <= capturedFrameCount m ->
  framerate (captureSettings m) <> 0 ->
  (MultiPassEnabled m = true ->
     (capturedFrameCount m `mod` passCount m = 0 ->
        OnGameFrame m = Some (1000 `quot` framerate (captureSettings m)))
     /\ (capturedFrameCount m `mod` passCount m <> 0 -> OnGameFrame m = Some 0))
  /\ (passes (captureSettings m) = [] ->
        OnGameFrame m = Some (1000 `quot` framerate (captureSettings m)))
  /\ (fun count => OnGameFrame (session 3 30 count)) <$> [0; 1; 2; 3; 4; 5]
     = Some <$> [33; 0; 0; 33; 0; 0]
  /\ (fun count => OnGameFrame (frame_written (session 3 30 count))) <$> [0; 1; 2; 3; 4; 5]
     = Some <$> [0; 0; 33; 0; 0; 33].
Proof.
  intros Hcount Hfps. apply Z.eqb_neq in Hfps.
  split; [|split; [|split; reflexivity]].
  - intros Hmulti. pose proof (passCount_pos m Hmulti) as Hn.
    unfold OnGameFrame. rewrite Hmulti, Hfps, Z.rem_mod_nonneg by lia.
    split; intros Hmod.
    + by rewrite Hmod.
    + apply Z.eqb_neq in Hmod. by rewrite Hmod.
  - intros Hempty. unfold OnGameFrame, MultiPassEnabled. by rewrite Hempty, Hfps.
Qed.

Lemma OnGameFrame_hold_witness :
  OnGameFrame (two_pass_session 4) = Some 33
  /\ OnGameFrame (two_pass_session 5) = Some 0.
Proof.
  destruct (OnGameFrame_hold (two_pass_session 4)) as [Hmulti _]; [simpl; lia | simpl; lia |].
  destruct (Hmulti eq_refl) as [Hcycle _].
  destruct (OnGameFrame_hold (two_pass_session 5)) as [Hmulti' _]; [simpl; lia | simpl; lia |].
  destruct (Hmulti' eq_refl) as [_ Hother].
  split; [exact (Hcycle eq_refl) | apply Hother; discriminate].
Defined.

(** C3 as stated fails: with three passes at 30 frames per second the
    value at count 0 is 33 where the claim has 0, and at count 2, the last
    pass of the cycle (pass index 2), it is 0 where the claim has 33. *)
Lemma OnGameFrame_last_pass_counterexample :
  OnGameFrame (session 3 30 0) = Some 33
  /\ passIndex (session 3 30 2) = passCount (session 3 30 2) - 1
  /\ OnGameFrame (session 3 30 2) = Some 0
  /\ (fun count => OnGameFrame (session 3 30 count)) <$> [0; 1; 2; 3; 4; 5]
     <> Some <$> [0; 0; 33; 0; 0; 33].
Proof. repeat split. discriminate. Qed.

(** ** The command builder *)

Lemma string_length_app (a b : string) :
  String.length (a +:+ b) = (String.length a + String.length b)%nat.
Proof. induction a as [|c a IH]; simpl; [done|]. by rewrite IH. Qed.

Lemma string_app_inv_tail (a b s : string) : a +:+ s = b +:+ s -> a = b.
Proof.
  revert b. induction a as [|c a IH]; intros [|c' b] H.
  - reflexivity.
  - apply (f_equal String.length) in H. rewrite !string_length_app in H.
    cbn [String.length] in H. lia.
  - apply (f_equal String.length) in H. rewrite !string_length_app in H.
    cbn [String.length] in H. lia.
  - simpl in H. injection H as -> H. f_equal. by apply IH.
Qed.

Lemma pass_mov_n_inj (passIndex : Z) : Inj (=) (=) (pass_mov_n passIndex).
Proof.
  intros a b H. unfold pass_mov_n in H.
  do 3 apply String.app_inj in H.
  apply string_app_inv_tail in H. by apply (inj pretty) in H.
Qed.

Lemma exists_in_true (d : Disk) (f : string) : exists_in d f = true <-> f ∈ files d.
Proof. unfold exists_in. by rewrite bool_decide_eq_true. Qed.

Lemma exists_in_false (d : Disk) (f : string) : exists_in d f = false <-> f ∉ files d.
Proof. unfold exists_in. by rewrite bool_decide_eq_false. Qed.

(** The loop stops at the first free suffix, if it has the iterations to
    reach it and the counter does not leave the 32-bit range. *)
Lemma pick_filename_first_free (d : Disk) (passIndex : Z) :
  forall (fuel : nat) (filename : string) (k n : Z),
    0 <= k < n -> n <= Int.INT_MAX -> n - k <= Z.of_nat fuel ->
    filename ∈ files d ->
    (forall j, k < j < n -> pass_mov_n passIndex j ∈ files d) ->
    pass_mov_n passIndex n ∉ files d ->
    pick_filename fuel d passIndex filename k = Some (pass_mov_n passIndex n).
Proof.
  unfold Int.INT_MAX.
  induction fuel as [|fuel IH]; intros filename k n Hk Hn Hfuel Hin Hbelow Hfree; [lia|].
  simpl. apply exists_in_true in Hin. rewrite Hin.
  rewrite IntFacts.int32_small by lia.
  destruct (decide (k + 1 = n)) as [<-|Hne].
  - apply exists_in_false in Hfree. destruct fuel; simpl; by rewrite Hfree.
  - apply IH; try lia; [apply Hbelow; lia | | exact Hfree].
    intros j Hj. apply Hbelow. lia.
Qed.

(** A directory cannot hold all of the suffixes 1 .. (entries + 1). *)
Lemma free_suffix_exists (d : Disk) (passIndex : Z) :
  exists n, 1 <= n <= Z.of_nat (length (files d)) + 1
            /\ (pass_mov_n passIndex n ∉ files d)
            /\ forall j, 1 <= j < n -> pass_mov_n passIndex j ∈ files d.
Proof.
  set (candidates := seqZ 1 (Z.of_nat (length (files d)) + 1)).
  destruct (list_find (fun n => pass_mov_n passIndex n ∉ files d) candidates)
    as [[i n]|] eqn:Hfind.
  - apply list_find_Some in Hfind as (Hi & Hfree & Hleast).
    apply lookup_seqZ in Hi as [-> Hi].
    exists (1 + Z.of_nat i). split; [lia|]. split; [exact Hfree|].
    intros j Hj. destruct (decide (pass_mov_n passIndex j ∈ files d)) as [|Hout]; [done|].
    exfalso. apply (Hleast (Z.to_nat (j - 1)) j); [|lia|exact Hout].
    apply lookup_seqZ. lia.
  - exfalso. apply list_find_None in Hfind.
    assert (pass_mov_n passIndex <$> candidates ⊆+ files d) as Hsub.
    { apply NoDup_submseteq.
      - pose proof (pass_mov_n_inj passIndex) as Hinj.
        apply (NoDup_fmap_2 _), NoDup_seqZ.
      - intros f (n & -> & Hn)%list_elem_of_fmap.
        rewrite Forall_forall in Hfind. specialize (Hfind n Hn).
        by destruct (decide (pass_mov_n passIndex n ∈ files d)). }
    apply submseteq_length in Hsub. unfold candidates in Hsub.
    rewrite length_fmap, length_seqZ in Hsub. lia.
Qed.

(** The loop of [GetFFmpegCommand] returns, with the name the claim
    describes. *)
Lemma pick_filename_total (d : Disk) (passIndex : Z) :
  Z.of_nat (length (files d)) < Int.INT_MAX ->
  exists filename,
    pick_filename (S (length (files d))) d passIndex (pass_mov passIndex) 0 = Some filename
    /\ (filename ∉ files d)
    /\ (pass_mov passIndex ∉ files d -> filename = pass_mov passIndex)
    /\ (pass_mov passIndex ∈ files d ->
        exists n, 1 <= n /\ filename = pass_mov_n passIndex n
                  /\ forall j, 1 <= j < n -> pass_mov_n passIndex j ∈ files d).
Proof.
  intros Hsmall.
  destruct (decide (pass_mov passIndex ∈ files d)) as [Hin|Hout].
  - destruct (free_suffix_exists d passIndex) as (n & Hn & Hfree & Hbelow).
    exists (pass_mov_n passIndex n). split; [|split; [exact Hfree|split; [done|]]].
    + apply pick_filename_first_free; try lia; try done.
      intros j Hj. apply Hbelow. lia.
    + intros _. exists n. split; [lia|]. split; [reflexivity|exact Hbelow].
  - exists (pass_mov passIndex). split; [|split; [exact Hout|split; [done|done]]].
    apply exists_in_false in Hout. simpl. by rewrite Hout.
Qed.



(** The three directories of the spec's example, codec Prores422, pass 0. *)
Example GetFFmpegCommand_filename_examples :
  let command files :=
    (GetFFmpegCommand (mkDisk "ffmpeg.exe" files)
                      (captureSettings (single_stream_session 0)) "C:/recordings"
                      (mkResolution 1920 1080) 0).1 in
  let named filename :=
    Returned (video_command (mkDisk "ffmpeg.exe" [])
                            (captureSettings (single_stream_session 0)) "C:/recordings"
                            (mkResolution 1920 1080) 2 "yuv422p10le" filename) in
  command [] = named "Pass 0.mov"
  /\ command ["Pass 0.mov"] = named "Pass 0(1).mov"
  /\ command ["Pass 0.mov"; "Pass 0(1).mov"] = named "Pass 0(2).mov"
  /\ command ["Pass 0(1).mov"; "unrelated.txt"] = named "Pass 0.mov".
Proof. vm_compute. repeat split. Qed.

Lemma codec_table_unsupported (codec : VideoCodec.t) :
  codec ∉ supported_codecs -> codec_table codec = (4, "yuv444p10le", true).
Proof.
  unfold supported_codecs. rewrite !not_elem_of_cons. intros (H0 & H1 & H2 & H3 & H4 & _).
  unfold codec_table.
  by rewrite (proj2 (Z.eqb_neq _ _) H0), (proj2 (Z.eqb_neq _ _) H1),
    (proj2 (Z.eqb_neq _ _) H2), (proj2 (Z.eqb_neq _ _) H3), (proj2 (Z.eqb_neq _ _) H4).
Qed.

Lemma codec_table_supported (codec : VideoCodec.t) :
  codec ∈ supported_codecs -> (codec_table codec).2 = false.
Proof.
  unfold supported_codecs. rewrite !elem_of_cons, elem_of_nil.
  intros [->|[->|[->|[->|[->|[]]]]]]; reflexivity.
Qed.




(** ** StartCapture *)

Lemma StartCapture_guard (w : StartInputs) (m : CaptureManager) :
  startTick (captureSettings m) >= endTick (captureSettings m) ->
  StartCapture w m
  = mkRun (Returned tt) m [EvLog LOG_ERROR "Start tick must be less than end tick" []].
Proof.
  intros Hrange. unfold StartCapture, cmd_bind, read. simpl.
  assert ((startTick (captureSettings m) >=? endTick (captureSettings m)) = true) as ->
    by (apply Z.geb_le; lia).
  reflexivity.
Qed.

(** C5. With [startTick >= endTick], [StartCapture] only writes one log
    line: it queries and allocates nothing on the device, opens no pipe,
    does not move the timeline, and leaves every member of the session as
    it was; a session that was not capturing is still not capturing. *)
Theorem StartCapture_rejects_tick_range (w : StartInputs) (m : CaptureManager) :
  startTick (captureSettings m) >= endTick (captureSettings m) ->
  let r := StartCapture w m in
  result r = Returned tt
  /\ after r = m
  /\ calls r = [EvLog LOG_ERROR "Start tick must be less than end tick" []]
  /\ List.filter allocates_or_opens (calls r) = []
  /\ (isCapturing m = false -> isCapturing (after r) = false).
Proof.
  intros Hrange r. subst r. rewrite (StartCapture_guard w m Hrange). by repeat split.
Qed.

Lemma StartCapture_rejects_tick_range_witness :
  let m := idle_of (set_captureSettings
                      (mkSettings 100 100 OutputFormat.Video (Some VideoCodec.Prores4444)
                                  (mkResolution 1280 720) 30 []) (single_stream_session 7)) in
  let w := mkStartInputs "C:/recordings" (Some true) (Some false) (mkDisk "ffmpeg.exe" []) 5
             (Some 1%nat) (Some (mkDesc 1920 1080 21)) (Some 2%nat) (Some 3%nat) (Some true)
             (fun i _ => Some (10 + i)%nat) in
  after (StartCapture w m) = m /\ isCapturing (after (StartCapture w m)) = false.
Proof.
  simpl.
  match goal with |- after (StartCapture ?w ?m) = _ /\ _ =>
    destruct (StartCapture_rejects_tick_range w m) as (_ & Hsame & _ & _ & Hidle)
  end; [vm_compute; discriminate|].
  split; [exact Hsame | exact (Hidle eq_refl)].
Defined.

Lemma GetFFmpegCommand_passes (d : Disk) (c : CaptureSettings) (ps : list CapturePass)
    (dir : string) (dims : Resolution) (i : Z) :
  GetFFmpegCommand d (set_passes ps c) dir dims i = GetFFmpegCommand d c dir dims i.
Proof. reflexivity. Qed.

Lemma ends_with_StopCapture_prefix {A} (res : Result A) (m' : CaptureManager)
    (before l : list Event) :
  ends_with_StopCapture (mkRun res m' l) -> ends_with_StopCapture (mkRun res m' (before ++ l)).
Proof.
  intros (m0 & before0 & Hcalls & Hafter). exists m0, (before ++ before0).
  simpl in *. by rewrite Hcalls, app_assoc.
Qed.

Lemma set_passes_same (m : CaptureManager) :
  set_captureSettings (set_passes (passes (captureSettings m)) (captureSettings m)) m = m.
Proof. by destruct m as [[] ? ? ? ? ? ? ? ? ? ? ?]. Qed.

(** The loop over the passes: it returns [true] with the pipe of every
    pass from [i] on opened, or [false] after [StopCapture] when a pipe
    did not open, or it does not return because the command builder did
    not. *)
Lemma open_pass_pipes_spec (w : StartInputs) :
  forall (n i : nat) (m : CaptureManager),
    (i + n = length (passes (captureSettings m)))%nat ->
    let r := open_pass_pipes w n i m in
    let command j := (GetFFmpegCommand (disk w) (captureSettings m) (outputDirectory w)
                                       (screenDimensions m) (Z.of_nat j)).1 in
    let opens j := pipe_opens w (captureSettings m) (screenDimensions m) j in
    match result r with
    | Returned true =>
        (forall j, (i <= j < i + n)%nat -> opens j = true)
        /\ exists ps,
            after r = set_captureSettings (set_passes ps (captureSettings m)) m
            /\ length ps = length (passes (captureSettings m))
            /\ (forall j pass, (i <= j)%nat -> ps !! j = Some pass -> is_Some (pass_pipe pass))
            /\ (forall j, (j < i)%nat -> ps !! j = passes (captureSettings m) !! j)
    | Returned false =>
        (exists j, (i <= j < i + n)%nat /\ opens j = false)
        /\ ends_with_StopCapture r
        /\ isCapturing (after r) = false
    | _ =>
        isCapturing (after r) = isCapturing m
        /\ exists j, (i <= j < i + n)%nat /\ never_returned (command j)
    end.
Proof.
  induction n as [|n IH]; intros i m Hlen; simpl.
  - split; [intros j Hj; lia|]. exists (passes (captureSettings m)).
    rewrite set_passes_same. split; [reflexivity|]. split; [reflexivity|].
    split; [|done]. intros j pass Hj Hpass. apply lookup_lt_Some in Hpass. lia.
  - unfold cmd_bind, ffmpeg_command, log, emit, modify.
    destruct (GetFFmpegCommand (disk w) (captureSettings m) (outputDirectory w)
                (screenDimensions m) (Z.of_nat i)) as [[command|e|] logs] eqn:Hcommand;
      simpl.
    + assert (pipe_opens w (captureSettings m) (screenDimensions m) i
              = bool_decide (is_Some (popen w i command))) as Hopens
        by (unfold pipe_opens; by rewrite Hcommand).
      destruct (popen w i command) as [f|] eqn:Hpopen; simpl.
      * specialize (IH (S i) (set_pass_pipe i (Some f) m)).
        destruct (open_pass_pipes w n (S i) (set_pass_pipe i (Some f) m))
          as [res m2 calls2].
        simpl in IH. rewrite length_alter in IH. specialize (IH ltac:(lia)).
        destruct res as [[|]|e|]; simpl.
        -- destruct IH as (Hall & ps & -> & Hps & Hsome & Hbelow). split.
           ++ intros j Hj. destruct (decide (j = i)) as [->|Hne]; [done|].
              apply Hall. lia.
           ++ exists ps. split; [reflexivity|]. split; [exact Hps|]. split.
              ** intros j pass Hj Hpass. destruct (decide (j = i)) as [->|Hne].
                 --- rewrite Hbelow, list_lookup_alter_eq in Hpass by lia.
                     destruct (passes (captureSettings m) !! i) as [pass0|]; [|done].
                     injection Hpass as <-. by eexists.
                 --- apply (Hsome j); [lia|exact Hpass].
              ** intros j Hj. rewrite Hbelow by lia. apply list_lookup_alter_ne. lia.
        -- destruct IH as ((j & Hj & Hfail) & Hstop & Hidle).
           split; [exists j; split; [lia|exact Hfail]|]. split; [|exact Hidle].
           apply (ends_with_StopCapture_prefix _ _ logs).
           apply (ends_with_StopCapture_prefix _ _ [_; _]). exact Hstop.
        -- destruct IH as (Hsame & j & Hj & Hnever). split; [exact Hsame|].
           exists j. split; [lia|exact Hnever].
        -- destruct IH as (Hsame & j & Hj & Hnever). split; [exact Hsame|].
           exists j. split; [lia|exact Hnever].
      * rewrite StopCapture_run. simpl. split; [exists i; split; [lia|done]|].
        split; [|reflexivity]. rewrite app_nil_r.
        apply (ends_with_StopCapture_prefix _ _ logs). ends_with_StopCapture_now.
    + split; [reflexivity|]. exists i. split; [lia|]. by rewrite Hcommand.
    + split; [reflexivity|]. exists i. split; [lia|]. by rewrite Hcommand.
Qed.

Lemma open_pipes_spec (w : StartInputs) (m : CaptureManager) :
  let r := open_pipes w m in
  let c := captureSettings m in
  let command j := (GetFFmpegCommand (disk w) c (outputDirectory w)
                                     (screenDimensions m) (Z.of_nat j)).1 in
  match result r with
  | Returned true =>
      every_pipe_opens w c (screenDimensions m) = true
      /\ exists p ps,
          after r = set_pipe p (set_captureSettings (set_passes ps c) m)
          /\ length ps = length (passes c)
          /\ Forall (fun pass => is_Some (pass_pipe pass)) ps
          /\ (passes c = [] -> is_Some p)
  | Returned false =>
      every_pipe_opens w c (screenDimensions m) = false
      /\ ends_with_StopCapture r
      /\ isCapturing (after r) = false
  | _ =>
      every_pipe_opens w c (screenDimensions m) = false
      /\ isCapturing (after r) = isCapturing m
      /\ exists j, never_returned (command j)
  end.
Proof.
  unfold open_pipes, every_pipe_opens, cmd_bind, read. cbn beta iota.
  destruct (passes (captureSettings m)) as [|pass0 ps0] eqn:Hpasses.
  - rewrite bool_decide_eq_true_2 by reflexivity.
    unfold cmd_bind, ffmpeg_command, log, emit, modify, pipe_opens.
    change (Z.of_nat 0) with 0.
    destruct (GetFFmpegCommand (disk w) (captureSettings m) (outputDirectory w)
                (screenDimensions m) 0) as [[command|e|] logs] eqn:Hcommand; simpl.
    + destruct (popen w 0%nat command) as [f|] eqn:Hpopen; simpl.
      * split; [reflexivity|]. exists (Some f), []. rewrite <- Hpasses, set_passes_same.
        rewrite Hpasses. by repeat split.
      * rewrite StopCapture_run. simpl. split; [reflexivity|]. split; [|reflexivity].
        rewrite app_nil_r. apply (ends_with_StopCapture_prefix _ _ logs).
        ends_with_StopCapture_now.
    + repeat split. exists 0%nat. change (Z.of_nat 0) with 0. by rewrite Hcommand.
    + repeat split. exists 0%nat. change (Z.of_nat 0) with 0. by rewrite Hcommand.
  - rewrite bool_decide_eq_false_2 by discriminate. cbn beta iota. rewrite Hpasses.
    pose proof (open_pass_pipes_spec w (length (pass0 :: ps0)) 0 m) as Hloop.
    rewrite Hpasses in Hloop. specialize (Hloop eq_refl).
    destruct (open_pass_pipes w (length (pass0 :: ps0)) 0 m) as [res m2 calls2].
    cbn zeta in Hloop. cbn [result after] in Hloop.
    assert (forall j, never_returned
                        (GetFFmpegCommand (disk w) (captureSettings m) (outputDirectory w)
                           (screenDimensions m) (Z.of_nat j)).1 ->
                      pipe_opens w (captureSettings m) (screenDimensions m) j = false)
      as Hclosed.
    { intros j. unfold pipe_opens. by destruct (GetFFmpegCommand _ _ _ _ _).1. }
    assert (forall j, (0 <= j < 0 + length (pass0 :: ps0))%nat ->
                      pipe_opens w (captureSettings m) (screenDimensions m) j = false ->
                      forallb (pipe_opens w (captureSettings m) (screenDimensions m))
                              (seq 0 (length (pass0 :: ps0))) = false) as Hsome_closed.
    { intros j Hj Hfail. apply not_true_is_false. intros Hall.
      rewrite forallb_forall in Hall. rewrite Hall in Hfail; [done|]. apply in_seq. lia. }
    destruct res as [[|]|e|]; cbn [result after]; cbn beta iota in Hloop.
    + destruct Hloop as (Hall & ps & -> & Hps & Hsome & _). split.
      * apply forallb_forall. intros j Hj. apply in_seq in Hj. apply Hall. lia.
      * exists (pipe m), ps. split; [by destruct m|]. split; [exact Hps|]. split; [|done].
        apply Forall_lookup. intros j pass Hpass. apply (Hsome j); [lia|exact Hpass].
    + destruct Hloop as ((j & Hj & Hfail) & Hstop & Hidle).
      split; [|split; [exact Hstop|exact Hidle]]. by apply (Hsome_closed j).
    + destruct Hloop as (Hsame & j & Hj & Hnever).
      split; [|split; [exact Hsame|by exists j]]. apply (Hsome_closed j Hj), Hclosed, Hnever.
    + destruct Hloop as (Hsame & j & Hj & Hnever).
      split; [|split; [exact Hsame|by exists j]]. apply (Hsome_closed j Hj), Hclosed, Hnever.
Qed.

Lemma GetFFmpegCommand_only_logs (d : Disk) (c : CaptureSettings) (dir : string)
    (dims : Resolution) (i : Z) :
  Forall (fun e => is_log e = true) (GetFFmpegCommand d c dir dims i).2.
Proof.
  unfold GetFFmpegCommand.
  destruct (outputFormat c =? OutputFormat.ImageSequence); [constructor|].
  destruct (outputFormat c =? OutputFormat.Video); [|by repeat constructor].
  destruct (videoCodec c) as [codec|]; [|constructor].
  destruct (codec_table codec) as [[profile pix] []];
    destruct (pick_filename _ _ _ _ _); by repeat constructor.
Qed.

Lemma logs_tally {A} (f : Event -> list A) (l : list Event) :
  (forall lvl fmt args, f (EvLog lvl fmt args) = []) ->
  Forall (fun e => is_log e = true) l -> l ≫= f = [].
Proof.
  intros Hf. induction 1 as [|e l He _ IH]; [done|].
  rewrite bind_cons, IH. destruct e; try discriminate He. by rewrite Hf.
Qed.

Lemma stop_calls_unfold (m : CaptureManager) :
  stop_calls m
  = [EvLog LOG_INFO "Stopped capture (wrote {0} frames)" [ArgInt (capturedFrameCount m)];
     EvResetVisibleElements]
    ++ (open_pipes_of m ≫= fun f => [EvFflush f; EvFclose f])
    ++ (EvRelease <$> held_of m).
Proof. reflexivity. Qed.

Lemma stop_calls_one_log (m : CaptureManager) :
  List.filter is_stop_log (stop_calls m)
  = [EvLog LOG_INFO "Stopped capture (wrote {0} frames)" [ArgInt (capturedFrameCount m)]].
Proof.
  rewrite stop_calls_unfold.
  rewrite !List.filter_app.
  assert (forall fs : list FILE,
             List.filter is_stop_log (fs ≫= fun f => [EvFflush f; EvFclose f]) = []) as ->.
  { induction fs as [|f fs IH]; [done|]. exact IH. }
  assert (forall hs : list ComPtr, List.filter is_stop_log (EvRelease <$> hs) = []) as ->.
  { induction hs as [|h hs IH]; [done|]. exact IH. }
  reflexivity.
Qed.

(** ** A start that is left by an exception *)

Lemma GetFFmpegCommand_no_stop_log (d : Disk) (c : CaptureSettings) (dir : string)
    (dims : Resolution) (i : Z) :
  List.filter is_stop_log (GetFFmpegCommand d c dir dims i).2 = [].
Proof.
  unfold GetFFmpegCommand.
  destruct (outputFormat c =? OutputFormat.ImageSequence); [reflexivity|].
  destruct (outputFormat c =? OutputFormat.Video); [|reflexivity].
  destruct (videoCodec c) as [codec|]; [|reflexivity].
  destruct (codec_table codec) as [[profile pix] []];
    destruct (pick_filename _ _ _ _ _); reflexivity.
Qed.

Lemma builder_calls_nothing (d : Disk) (c : CaptureSettings) (dir : string)
    (dims : Resolution) (i : Z) :
  let logs := (GetFFmpegCommand d c dir dims i).2 in
  List.filter is_stop_log logs = []
  /\ logs ≫= released = []
  /\ logs ≫= closed = [].
Proof.
  split; [apply GetFFmpegCommand_no_stop_log|].
  split; apply logs_tally; try done; apply GetFFmpegCommand_only_logs.
Qed.

Lemma open_pass_pipes_not_returned (w : StartInputs) :
  forall (n i : nat) (m : CaptureManager),
    let r := open_pass_pipes w n i m in
    never_returned (result r) ->
    List.filter is_stop_log (calls r) = []
    /\ calls r ≫= released = []
    /\ calls r ≫= closed = [].
Proof.
  induction n as [|n IH]; intros i m; cbn zeta; [by intros []|].
  cbn [open_pass_pipes]. unfold cmd_bind, ffmpeg_command, log, emit, modify, cmd_ret.
  destruct (builder_calls_nothing (disk w) (captureSettings m) (outputDirectory w)
              (screenDimensions m) (Z.of_nat i)) as (Hlog & Hrel & Hcls).
  destruct (GetFFmpegCommand (disk w) (captureSettings m) (outputDirectory w)
              (screenDimensions m) (Z.of_nat i)) as [[command|e|] logs];
    cbn [fst snd] in *; [|by intros _..].
  destruct (popen w i command) as [p|].
  - specialize (IH (S i) (set_pass_pipe i (Some p) m)).
    destruct (open_pass_pipes w n (S i) (set_pass_pipe i (Some p) m)) as [res m' calls'].
    cbn zeta in IH. simpl in IH |- *. intros Hnever.
    destruct (IH Hnever) as (Hlog' & Hrel' & Hcls').
    rewrite List.filter_app, !bind_app, Hlog, Hrel, Hcls. cbn.
    change (list_bind Event ComPtr released calls') with (calls' ≫= released).
    change (list_bind Event FILE closed calls') with (calls' ≫= closed).
    by rewrite Hlog', Hrel', Hcls'.
  - rewrite StopCapture_run. simpl. by intros [].
Qed.

Lemma open_pipes_not_returned (w : StartInputs) (m : CaptureManager) :
  let r := open_pipes w m in
  never_returned (result r) ->
  List.filter is_stop_log (calls r) = []
  /\ calls r ≫= released = []
  /\ calls r ≫= closed = [].
Proof.
  cbn zeta. unfold open_pipes, cmd_bind, read.
  destruct (decide (passes (captureSettings m) = [])) as [Hempty|Hsome].
  - rewrite bool_decide_eq_true_2 by done.
    unfold ffmpeg_command, log, emit, modify, cmd_ret.
    destruct (builder_calls_nothing (disk w) (captureSettings m) (outputDirectory w)
                (screenDimensions m) 0) as (Hlog & Hrel & Hcls).
    destruct (GetFFmpegCommand (disk w) (captureSettings m) (outputDirectory w)
                (screenDimensions m) 0) as [[command|e|] logs];
      cbn [fst snd] in *; [|by intros _..].
    destruct (popen w 0%nat command) as [p|]; [by intros []|].
    rewrite StopCapture_run. simpl. by intros [].
  - rewrite bool_decide_eq_false_2 by done.
    pose proof (open_pass_pipes_not_returned w (length (passes (captureSettings m))) 0 m)
      as Hloop.
    destruct (open_pass_pipes w (length (passes (captureSettings m))) 0 m)
      as [res m' calls'].
    simpl in *. by rewrite ?app_nil_r.
Qed.

#[local] Opaque open_pipes.

Ltac StartCapture_steps w m Hguard :=
  unfold StartCapture, cmd_bind, read, log, emit, modify, skip, filesystem; simpl;
  replace (startTick (captureSettings m) >=? endTick (captureSettings m)) with false
    by (symmetry; rewrite Z.geb_leb; apply Z.leb_gt; exact Hguard).

Lemma StartCapture_spec (w : StartInputs) (m : CaptureManager) :
  startTick (captureSettings m) < endTick (captureSettings m) ->
  let r := StartCapture w m in
  match result r with
  | Returned _ =>
      if start_steps_succeed w m then
        isCapturing (after r) = true
        /\ backBuffer (after r) = getBackBuffer w
        /\ tempSurface (after r) = createOffscreenPlainSurface w
        /\ downsampledRenderTarget (after r) = createRenderTarget w
        /\ is_Some (getBackBuffer w)
        /\ is_Some (createOffscreenPlainSurface w)
        /\ is_Some (createRenderTarget w)
        /\ length (passes (captureSettings (after r))) = length (passes (captureSettings m))
        /\ Forall (fun pass => is_Some (pass_pipe pass)) (passes (captureSettings (after r)))
        /\ (passes (captureSettings m) = [] -> is_Some (pipe (after r)))
      else ends_with_StopCapture r /\ isCapturing (after r) = false
  | _ =>
      start_steps_succeed w m = false
      /\ isCapturing (after r) = isCapturing m
      /\ (filesystem_answers w = false
          \/ exists j dims,
               never_returned (GetFFmpegCommand (disk w) (captureSettings m)
                                                (outputDirectory w) dims (Z.of_nat j)).1)
  end.
Proof.
  intros Hguard.
  unfold start_steps_succeed, filesystem_answers, directory_ready, encoder_found,
    device_steps_succeed.
  StartCapture_steps w m Hguard.
  destruct (outputDirectoryExists w) as [[|]|]; simpl;
    [|destruct (createDirectories w) as [created|]; simpl; [|by auto]|by auto];
    (destruct (getBackBuffer w) as [bb|]; simpl;
     [|rewrite StopCapture_run; simpl; split; [ends_with_StopCapture_now|reflexivity]]);
    (destruct (getDesc w) as [bbDesc|]; simpl;
     [|rewrite StopCapture_run; simpl; split; [ends_with_StopCapture_now|reflexivity]]);
    (destruct (createOffscreenPlainSurface w) as [tmp|]; simpl;
     [|rewrite StopCapture_run; simpl; split; [ends_with_StopCapture_now|reflexivity]]);
    (destruct (createRenderTarget w) as [rt|]; simpl;
     [|rewrite StopCapture_run; simpl; split; [ends_with_StopCapture_now|reflexivity]]);
    (destruct (ffmpegExists w) as [[|]|]; simpl;
     [|rewrite StopCapture_run; simpl; split; [ends_with_StopCapture_now|reflexivity]
      |by auto]).
  all: match goal with
       | |- context [open_pipes ?w' ?m5] =>
           pose proof (open_pipes_spec w' m5) as Hpipes;
           destruct (open_pipes w' m5) as [res m6 calls6]
       end.
  all: simpl in Hpipes; destruct res as [[|]|e|]; simpl.
  all: try (destruct Hpipes as (-> & p & ps & -> & Hps & Hsome & Hanchor); simpl;
            repeat split; try done; by eexists).
  all: try (destruct Hpipes as (-> & Hstop & Hidle); rewrite app_nil_r; split; [|exact Hidle];
            repeat (apply (ends_with_StopCapture_prefix _ _ [_])); exact Hstop).
  all: destruct Hpipes as (-> & Hsame & j & Hnever); split; [reflexivity|];
       split; [exact Hsame|]; right; exists j; eexists; exact Hnever.
Qed.

Lemma StartCapture_not_returned (w : StartInputs) (m : CaptureManager) :
  startTick (captureSettings m) < endTick (captureSettings m) ->
  let r := StartCapture w m in
  never_returned (result r) ->
  List.filter is_stop_log (calls r) = []
  /\ calls r ≫= released = []
  /\ calls r ≫= closed = [].
Proof.
  intros Hguard. cbn zeta. StartCapture_steps w m Hguard.
  destruct (outputDirectoryExists w) as [[|]|]; simpl;
    [|destruct (createDirectories w) as [created|]; simpl; [|done]|done];
    (destruct (getBackBuffer w) as [bb|]; simpl;
     [|rewrite StopCapture_run; simpl; by intros []]);
    (destruct (getDesc w) as [bbDesc|]; simpl;
     [|rewrite StopCapture_run; simpl; by intros []]);
    (destruct (createOffscreenPlainSurface w) as [tmp|]; simpl;
     [|rewrite StopCapture_run; simpl; by intros []]);
    (destruct (createRenderTarget w) as [rt|]; simpl;
     [|rewrite StopCapture_run; simpl; by intros []]);
    (destruct (ffmpegExists w) as [[|]|]; simpl;
     [|rewrite StopCapture_run; simpl; by intros []|done]).
  all: match goal with
       | |- context [open_pipes ?w' ?m5] =>
           pose proof (open_pipes_not_returned w' m5) as Hpipes;
           destruct (open_pipes w' m5) as [res m6 calls6]
       end.
  all: cbn zeta in Hpipes; cbn [result calls] in Hpipes.
  all: destruct res as [[|]|e|]; simpl; try (by intros []).
  all: intros _; destruct (Hpipes I) as (Hlog & Hrel & Hcls).
  all: change (list_bind Event ComPtr released calls6) with (calls6 ≫= released);
       change (list_bind Event FILE closed calls6) with (calls6 ≫= closed).
  all: by rewrite Hlog, Hrel, Hcls.
Qed.

Lemma StartCapture_throws (w : StartInputs) (m : CaptureManager) :
  startTick (captureSettings m) < endTick (captureSettings m) ->
  filesystem_answers w = false ->
  result (StartCapture w m) = Raised filesystem_error.
Proof.
  intros Hguard.
  unfold filesystem_answers, directory_ready, device_steps_succeed.
  StartCapture_steps w m Hguard.
  destruct (outputDirectoryExists w) as [[|]|]; simpl;
    [|destruct (createDirectories w) as [created|]; simpl; [|done]|done];
    destruct (getBackBuffer w) as [bb|], (getDesc w) as [bbDesc|],
      (createOffscreenPlainSurface w) as [tmp|], (createRenderTarget w) as [rt|];
    simpl; try discriminate;
    destruct (ffmpegExists w) as [[|]|]; simpl; try discriminate; done.
Qed.




(** ** The backbuffer reference *)

Lemma CaptureFrame_reads_backBuffer (w : FrameInputs) (m : CaptureManager) :
  EvStretchRect (backBuffer m) (downsampledRenderTarget m) (stretchRect w)
    ∈ calls (CaptureFrame w m).
Proof.
  CaptureFrame_paths w m; rewrite ?elem_of_cons; auto.
Qed.


(** C4, as the code has it.  The session holds the backbuffer reference
    for as long as it is Capturing: a [StartCapture] that leaves the
    session Capturing has stored the pointer [GetBackBuffer] returned,
    which is non-null; every [CaptureFrame] passes the stored pointer to
    [StretchRect], and one that leaves the session Capturing leaves the
    pointer in place; the pointer is released and cleared by
    [StopCapture] only, so a [CaptureFrame] that ends a capture, and every
    [StopCapture], leave it null. *)
Theorem backBuffer_held_while_capturing :
  (forall (w : StartInputs) (m : CaptureManager),
      isCapturing m = false ->
      isCapturing (after (StartCapture w m)) = true ->
      is_Some (getBackBuffer w)
      /\ backBuffer (after (StartCapture w m)) = getBackBuffer w)
  /\ (forall (w : FrameInputs) (m : CaptureManager),
        EvStretchRect (backBuffer m) (downsampledRenderTarget m) (stretchRect w)
          ∈ calls (CaptureFrame w m))
  /\ (forall (w : FrameInputs) (m : CaptureManager),
        isCapturing (after (CaptureFrame w m)) = true ->
        backBuffer (after (CaptureFrame w m)) = backBuffer m)
  /\ (forall (w : FrameInputs) (m : CaptureManager),
        isCapturing m = true ->
        isCapturing (after (CaptureFrame w m)) = false ->
        backBuffer (after (CaptureFrame w m)) = None)
  /\ (forall m : CaptureManager,
        backBuffer (after (StopCapture m)) = None
        /\ forall h, backBuffer m = Some h -> EvRelease h ∈ calls (StopCapture m)).
Proof.
  split; [|split; [|split; [|split]]].
  - intros w m Hidle Hcap.
    destruct (Z_lt_ge_dec (startTick (captureSettings m)) (endTick (captureSettings m)))
      as [Hguard|Hguard].
    + pose proof (StartCapture_spec w m Hguard) as Hspec. cbn zeta in Hspec.
      destruct (StartCapture w m) as [res m' calls']. cbn [result after] in *.
      destruct res as [[]|e|]; [destruct (start_steps_succeed w m)|..].
      * destruct Hspec as (_ & Hbb & _ & _ & Sbb & _). by split.
      * destruct Hspec as (_ & Hidle'). congruence.
      * destruct Hspec as (_ & Hsame & _). congruence.
      * destruct Hspec as (_ & Hsame & _). congruence.
    + rewrite (StartCapture_guard w m Hguard) in Hcap. simpl in Hcap. congruence.
  - apply CaptureFrame_reads_backBuffer.
  - intros w m Hcap.
    destruct (CaptureFrame_outcome w m) as [_ [[_ (m' & Hm' & _)] | [Hm' _]]];
      rewrite Hm' in *; [done|reflexivity].
  - intros w m Hcap Hidle.
    destruct (CaptureFrame_outcome w m) as [_ [[_ (m' & Hm' & _)] | [Hm' _]]];
      rewrite Hm' in *; [reflexivity|]. simpl in Hidle. congruence.
  - intros m. rewrite StopCapture_run. split; [reflexivity|].
    intros h Hh. apply stop_calls_release. unfold held_of. rewrite Hh.
    rewrite !elem_of_app. right. left. apply list_elem_of_here.
Qed.

(** C4 as stated fails: after a successful [StartCapture], and after the
    frame captured next, the session is Capturing and holds the backbuffer
    pointer [GetBackBuffer] returned. *)
Lemma backBuffer_held_counterexample :
  let started := after (StartCapture start_ok idle_two_pass_session) in
  let next := after (CaptureFrame (good_frame 11) started) in
  isCapturing started = true
  /\ backBuffer started = Some 1%nat
  /\ isCapturing next = true
  /\ backBuffer next = Some 1%nat
  /\ backBuffer next <> None.
Proof. vm_compute. repeat split. discriminate. Qed.

(** * Further properties of the code *)

(** ** CaptureFrame: failing device calls *)

Lemma idle_of_framePrepared (b : bool) (m : CaptureManager) :
  idle_of (set_framePrepared b m) = idle_of m.
Proof. reflexivity. Qed.

Lemma stop_calls_framePrepared (b : bool) (m : CaptureManager) :
  stop_calls (set_framePrepared b m) = stop_calls m.
Proof. reflexivity. Qed.

(** X1. When the copy to the render target, the read-back or the lock
    fails, [CaptureFrame] writes nothing to any pipe, leaves
    [capturedFrameCount] as it was, ends by running [StopCapture] and
    leaves the session exactly as a [StopCapture] of the state before would
    have. *)
Theorem CaptureFrame_device_failure (w : FrameInputs) (m : CaptureManager) :
  stretchRect w && getRenderTargetData w && lockRect w = false ->
  let r := CaptureFrame w m in
  List.filter is_fwrite (calls r) = []
  /\ capturedFrameCount (after r) = capturedFrameCount m
  /\ ends_with_StopCapture r
  /\ after r = after (StopCapture m).
Proof.
  intros Hfail r. subst r. rewrite StopCapture_run. cbn [after].
  CaptureFrame_paths w m; try discriminate Hfail;
    rewrite ?stop_calls_no_fwrite;
    (split; [reflexivity|]); (split; [reflexivity|]);
    (split; [ends_with_StopCapture_now|reflexivity]).
Qed.

Lemma CaptureFrame_device_failure_witness :
  let r := CaptureFrame (mkFrameInputs true false true true 50 false) (two_pass_session 3) in
  List.filter is_fwrite (calls r) = []
  /\ capturedFrameCount (after r) = 3
  /\ isCapturing (after r) = false.
Proof.
  destruct (CaptureFrame_device_failure (mkFrameInputs true false true true 50 false)
              (two_pass_session 3) eq_refl) as (Hwrite & Hcount & _ & Hafter).
  split; [exact Hwrite|]. split; [exact Hcount|]. by rewrite Hafter.
Defined.

(** X2. When the copy, the read-back and the lock succeed but the unlock
    fails, the frame has already been written and counted: there is exactly
    one [fwrite], the counter has moved on, and the session ends as a
    [StopCapture] of the state with the frame written leaves it. *)
Theorem CaptureFrame_unlock_failure (w : FrameInputs) (m : CaptureManager) :
  stretchRect w = true -> getRenderTargetData w = true -> lockRect w = true ->
  unlockRect w = false ->
  let r := CaptureFrame w m in
  List.filter is_fwrite (calls r)
  = [EvFwrite (Int.size_t (surfaceByteSize m)) 1 (written_to m)]
  /\ ends_with_StopCapture r
  /\ after r = after (StopCapture (frame_written m))
  /\ capturedFrameCount (after r) = Int.int64 (capturedFrameCount m + 1).
Proof.
  intros Hcopy Hresolve Hlock Hunlock r. subst r. rewrite StopCapture_run. cbn [after].
  unfold written_to.
  CaptureFrame_paths w m; try discriminate;
    rewrite ?stop_calls_no_fwrite;
    (split; [reflexivity|]); (split; [ends_with_StopCapture_now|]); split; reflexivity.
Qed.

Lemma CaptureFrame_unlock_failure_witness :
  let r := CaptureFrame (mkFrameInputs true true true false 50 false) (two_pass_session 3) in
  List.filter is_fwrite (calls r) = [EvFwrite 8294400 1 (Some 11%nat)]
  /\ capturedFrameCount (after r) = 4
  /\ isCapturing (after r) = false.
Proof.
  destruct (CaptureFrame_unlock_failure (mkFrameInputs true true true false 50 false)
              (two_pass_session 3) eq_refl eq_refl eq_refl eq_refl)
    as (Hwrite & _ & Hafter & Hcount).
  split; [exact Hwrite|]. split; [exact Hcount|]. by rewrite Hafter.
Defined.

(** ** Runs of frames *)

Lemma CaptureFrame_goes_on (w : FrameInputs) (m : CaptureManager) :
  frame_goes_on (endTick (captureSettings m)) w = true ->
  after (CaptureFrame w m) = frame_written m
  /\ List.filter is_fwrite (calls (CaptureFrame w m))
     = [EvFwrite (Int.size_t (surfaceByteSize m)) 1 (written_to m)]
  /\ List.filter is_stop_log (calls (CaptureFrame w m)) = [].
Proof.
  unfold frame_goes_on, written_to. intros Hon.
  assert ((timelineTick w <=? endTick (captureSettings m))
          = negb (endTick (captureSettings m) <? timelineTick w)) as Hle
    by (rewrite Z.ltb_antisym; by destruct (timelineTick w <=? endTick (captureSettings m))).
  rewrite Hle in Hon. clear Hle.
  CaptureFrame_paths w m; try discriminate Hon; repeat split.
Qed.

Lemma frame_written_settings (m : CaptureManager) :
  captureSettings (frame_written m) = captureSettings m.
Proof. reflexivity. Qed.

Lemma frames_written_settings (n : nat) (m : CaptureManager) :
  captureSettings (frames_written n m) = captureSettings m.
Proof. induction n as [|n IH]; [done|]. unfold frames_written in *. simpl. exact IH. Qed.

Lemma frames_written_S (n : nat) (m : CaptureManager) :
  frames_written (S n) m = frames_written n (frame_written m).
Proof. unfold frames_written. by rewrite Nat.iter_succ_r. Qed.

Lemma frames_written_count (n : nat) (m : CaptureManager) :
  - 2 ^ 63 <= capturedFrameCount m ->
  capturedFrameCount m + Z.of_nat n < 2 ^ 63 ->
  capturedFrameCount (frames_written n m) = capturedFrameCount m + Z.of_nat n.
Proof.
  revert m. induction n as [|n IH]; intros m Hlo Hhi.
  - unfold frames_written. simpl. lia.
  - rewrite frames_written_S, IH; simpl; rewrite IntFacts.int64_small; lia.
Qed.

(** A run of frames that all go on: the state and the writes. *)
Lemma capture_frames_go_on (ws : list FrameInputs) (m : CaptureManager) :
  Forall (fun w => frame_goes_on (endTick (captureSettings m)) w = true) ws ->
  capture_frames ws m = frames_written (length ws) m
  /\ List.filter is_fwrite (capture_frames_calls ws m)
     = (fun k => EvFwrite (Int.size_t (surfaceByteSize m)) 1 (written_to (frames_written k m)))
         <$> seq 0 (length ws)
  /\ List.filter is_stop_log (capture_frames_calls ws m) = [].
Proof.
  revert m. induction ws as [|w ws IH]; intros m Hall; [done|].
  apply Forall_cons in Hall as [Hw Hws].
  destruct (CaptureFrame_goes_on w m Hw) as (Hafter & Hwrite & Hlog).
  cbn [capture_frames capture_frames_calls length]. rewrite Hafter.
  destruct (IH (frame_written m) Hws) as (IHafter & IHwrite & IHlog).
  rewrite !List.filter_app, Hwrite, Hlog, IHwrite, IHlog, IHafter, frames_written_S.
  repeat split. cbn [seq fmap list_fmap app]. f_equal.
  rewrite <- seq_shift, <- list_fmap_compose. apply list_fmap_ext.
  intros _ k _. unfold compose. by rewrite frames_written_S.
Qed.

Lemma idle_of_count (m : CaptureManager) :
  capturedFrameCount (idle_of m) = capturedFrameCount m.
Proof. reflexivity. Qed.

Lemma CaptureFrame_counts (w : FrameInputs) (m : CaptureManager) :
  - 2 ^ 63 <= capturedFrameCount m < 2 ^ 63 - 1 ->
  capturedFrameCount (after (CaptureFrame w m))
  = capturedFrameCount m
    + Z.of_nat (length (List.filter is_fwrite (calls (CaptureFrame w m)))).
Proof.
  intros Hrange.
  assert (Int.int64 (capturedFrameCount m + 1) = capturedFrameCount m + 1) as Hinc
    by (apply IntFacts.int64_small; lia).
  CaptureFrame_paths w m; rewrite ?stop_calls_no_fwrite, ?idle_of_count; simpl; lia.
Qed.

(** X3. [capturedFrameCount] counts the frames written: over any run of
    [CaptureFrame] calls, whatever fails in them, the counter grows by the
    number of [fwrite] calls made, and the "Stopped capture" line of a
    [StopCapture] that follows reports that number.  (The 64-bit counter is
    taken far enough from its upper end.) *)
Theorem capturedFrameCount_counts_writes (ws : list FrameInputs) (m : CaptureManager) :
  - 2 ^ 63 <= capturedFrameCount m ->
  capturedFrameCount m + Z.of_nat (length ws) < 2 ^ 63 ->
  let written :=
    Z.of_nat (length (List.filter is_fwrite (capture_frames_calls ws m))) in
  written <= Z.of_nat (length ws)
  /\ capturedFrameCount (capture_frames ws m) = capturedFrameCount m + written
  /\ List.filter is_stop_log (calls (StopCapture (capture_frames ws m)))
     = [EvLog LOG_INFO "Stopped capture (wrote {0} frames)"
              [ArgInt (capturedFrameCount m + written)]].
Proof.
  intros Hlo Hhi. cbn zeta.
  assert (Z.of_nat (length (List.filter is_fwrite (capture_frames_calls ws m)))
          <= Z.of_nat (length ws)
          /\ capturedFrameCount (capture_frames ws m)
             = capturedFrameCount m
               + Z.of_nat (length (List.filter is_fwrite (capture_frames_calls ws m))))
    as [Hle Hcount].
  { revert m Hlo Hhi. induction ws as [|w ws IH]; intros m Hlo Hhi.
    - simpl. lia.
    - cbn [capture_frames capture_frames_calls length] in *.
      pose proof (CaptureFrame_counts w m ltac:(lia)) as Hone.
      assert (length (List.filter is_fwrite (calls (CaptureFrame w m))) <= 1)%nat as Hmost.
      { CaptureFrame_paths w m; rewrite ?stop_calls_no_fwrite; simpl; lia. }
      destruct (IH (after (CaptureFrame w m))) as [IHle IHcount]; [lia|lia|].
      rewrite List.filter_app, length_app, IHcount, Hone. lia. }
  split; [exact Hle|]. split; [exact Hcount|].
  rewrite StopCapture_run. cbn [calls]. by rewrite stop_calls_one_log, Hcount.
Qed.

Lemma capturedFrameCount_counts_writes_witness :
  let ws := [good_frame 50; good_frame 51; mkFrameInputs true false true true 52 false] in
  capturedFrameCount (capture_frames ws (two_pass_session 3)) = 5
  /\ length (List.filter is_fwrite (capture_frames_calls ws (two_pass_session 3))) = 2%nat.
Proof.
  cbn zeta.
  pose proof (capturedFrameCount_counts_writes
                [good_frame 50; good_frame 51; mkFrameInputs true false true true 52 false]
                (two_pass_session 3)) as H.
  cbn zeta in H. destruct H as (_ & Hcount & _); [simpl; lia | simpl; lia |].
  assert (length (List.filter is_fwrite
                    (capture_frames_calls
                       [good_frame 50; good_frame 51;
                        mkFrameInputs true false true true 52 false]
                       (two_pass_session 3))) = 2%nat) as Htwo
    by (vm_compute; reflexivity).
  rewrite Htwo in Hcount. split; [exact Hcount|exact Htwo].
Defined.

Lemma capture_frames_app (ws1 ws2 : list FrameInputs) (m : CaptureManager) :
  capture_frames (ws1 ++ ws2) m = capture_frames ws2 (capture_frames ws1 m).
Proof. revert m. induction ws1 as [|w ws1 IH]; intros m; [done|]. simpl. apply IH. Qed.

Lemma capture_frames_calls_app (ws1 ws2 : list FrameInputs) (m : CaptureManager) :
  capture_frames_calls (ws1 ++ ws2) m
  = capture_frames_calls ws1 m ++ capture_frames_calls ws2 (capture_frames ws1 m).
Proof.
  revert m. induction ws1 as [|w ws1 IH]; intros m; [done|].
  simpl. by rewrite IH, app_assoc.
Qed.

(** The frame whose tick is beyond [endTick] is written before the
    session stops. *)
Lemma CaptureFrame_last_frame (w : FrameInputs) (m : CaptureManager) :
  stretchRect w && getRenderTargetData w && lockRect w && unlockRect w = true ->
  rewinding w = false ->
  endTick (captureSettings m) < timelineTick w ->
  after (CaptureFrame w m) = idle_of (frame_written m)
  /\ List.filter is_fwrite (calls (CaptureFrame w m))
     = [EvFwrite (Int.size_t (surfaceByteSize m)) 1 (written_to m)]
  /\ List.filter is_stop_log (calls (CaptureFrame w m))
     = [EvLog LOG_INFO "Stopped capture (wrote {0} frames)"
              [ArgInt (Int.int64 (capturedFrameCount m + 1))]].
Proof.
  intros Hok Hrew Hlate. apply Z.ltb_lt in Hlate. unfold written_to.
  CaptureFrame_paths w m; try discriminate;
    rewrite ?stop_calls_no_fwrite, ?stop_calls_one_log; repeat split.
Qed.

(** X4. With one timeline tick per captured frame from tick [t0] on, every
    device call succeeding and no rewinding, the session goes on through
    the frame at tick [endTick] and stops only after the frame at tick
    [endTick + 1] has been written as well: [endTick + 2 - t0] frames are
    written, the "Stopped capture" line appears once, and the session ends
    not capturing. *)
Theorem capture_stops_after_endTick_plus_one (m : CaptureManager) (t0 : Z) :
  t0 <= endTick (captureSettings m) + 1 ->
  let frames := endTick (captureSettings m) + 1 - t0 in
  let ws := good_frame <$> seqZ t0 frames in
  let last := good_frame (endTick (captureSettings m) + 1) in
  capture_frames ws m = frames_written (Z.to_nat frames) m
  /\ List.filter is_stop_log (capture_frames_calls ws m) = []
  /\ length (List.filter is_fwrite (capture_frames_calls (ws ++ [last]) m))
     = Z.to_nat (frames + 1)
  /\ length (List.filter is_stop_log (capture_frames_calls (ws ++ [last]) m)) = 1%nat
  /\ isCapturing (capture_frames (ws ++ [last]) m) = false.
Proof.
  intros Ht0. cbn zeta.
  set (E := endTick (captureSettings m)).
  set (ws := good_frame <$> seqZ t0 (E + 1 - t0)).
  assert (Forall (fun w => frame_goes_on E w = true) ws) as Hon.
  { apply Forall_fmap, Forall_forall. intros t Ht. apply elem_of_seqZ in Ht.
    unfold frame_goes_on. simpl. apply Z.leb_le. lia. }
  assert (length ws = Z.to_nat (E + 1 - t0)) as Hlen
    by (unfold ws; by rewrite length_fmap, length_seqZ).
  destruct (capture_frames_go_on ws m Hon) as (Hafter & Hwrites & Hlogs).
  rewrite Hlen in Hafter.
  destruct (CaptureFrame_last_frame (good_frame (E + 1)) (capture_frames ws m))
    as (Hlast & Hlastwrite & Hlastlog); [reflexivity|reflexivity| |].
  { rewrite Hafter, frames_written_settings. simpl. fold E. lia. }
  split; [exact Hafter|]. split; [exact Hlogs|].
  rewrite capture_frames_calls_app, capture_frames_app, !List.filter_app, !length_app.
  cbn [capture_frames capture_frames_calls]. rewrite app_nil_r.
  rewrite Hlastwrite, Hlastlog, Hwrites, Hlogs, Hlast, length_fmap, length_seq, Hlen.
  cbn [length]. split; [lia|]. split; reflexivity.
Qed.

Lemma capture_stops_after_endTick_plus_one_witness :
  let ws := good_frame <$> seqZ 98 3 in
  isCapturing (capture_frames ws (single_stream_session 88)) = true
  /\ length (List.filter is_fwrite
               (capture_frames_calls (ws ++ [good_frame 101]) (single_stream_session 88)))
     = 4%nat
  /\ isCapturing (capture_frames (ws ++ [good_frame 101]) (single_stream_session 88)) = false.
Proof.
  cbn zeta.
  pose proof (capture_stops_after_endTick_plus_one (single_stream_session 88) 98) as H.
  cbn zeta in H. destruct H as (Hon & _ & Hwrites & _ & Hidle); [simpl; lia|].
  split; [exact (f_equal isCapturing Hon)|]. split; [exact Hwrites|exact Hidle].
Defined.

Lemma written_to_frames_written (k : nat) (m : CaptureManager) :
  MultiPassEnabled m = true ->
  0 <= capturedFrameCount m ->
  capturedFrameCount m + Z.of_nat k < 2 ^ 32 ->
  capturedFrameCount m `mod` passCount m = 0 ->
  (k < length (passes (captureSettings m)))%nat ->
  written_to (frames_written k m) = passes (captureSettings m) !! k ≫= pass_pipe.
Proof.
  intros Hmulti Hlo Hhi Hcycle Hk.
  unfold written_to, MultiPassEnabled, pass_at, passIndex, passCount in *.
  rewrite frames_written_settings, frames_written_count by lia.
  destruct (passes (captureSettings m)) as [|p ps] eqn:Hpasses; [done|].
  rewrite IntFacts.size_t_small by lia.
  set (n := Z.of_nat (length (p :: ps))) in *.
  assert (0 < n) as Hn by (unfold n; cbn [length]; lia).
  rewrite Z.add_mod, Hcycle, Z.add_0_l, Z.mod_mod, Z.mod_small by lia.
  by rewrite Nat2Z.id.
Qed.

(** X5. One cycle of a multi-pass capture: starting at a counter that is a
    multiple of the number of passes, as many frames as there are passes,
    all going on, are written to the pipes of the passes in pass order, one
    frame each. *)
Theorem capture_cycle_round_robin (ws : list FrameInputs) (m : CaptureManager) :
  MultiPassEnabled m = true ->
  length ws = length (passes (captureSettings m)) ->
  Forall (fun w => frame_goes_on (endTick (captureSettings m)) w = true) ws ->
  0 <= capturedFrameCount m ->
  capturedFrameCount m + passCount m < 2 ^ 32 ->
  capturedFrameCount m `mod` passCount m = 0 ->
  List.filter is_fwrite (capture_frames_calls ws m)
  = (fun pass => EvFwrite (Int.size_t (surfaceByteSize m)) 1 (pass_pipe pass))
      <$> passes (captureSettings m)
  /\ capturedFrameCount (capture_frames ws m) `mod` passCount m = 0.
Proof.
  intros Hmulti Hlen Hon Hlo Hhi Hcycle.
  destruct (capture_frames_go_on ws m Hon) as (Hafter & Hwrites & _).
  pose proof (passCount_pos m Hmulti) as Hn.
  split.
  - rewrite Hwrites, Hlen. apply list_eq. intros k.
    rewrite !list_lookup_fmap.
    destruct (decide (k < length (passes (captureSettings m)))%nat) as [Hk|Hk].
    + rewrite lookup_seq_lt by exact Hk. cbn [fmap option_fmap option_map Nat.add].
      rewrite written_to_frames_written; try done; [|unfold passCount in Hhi; lia].
      destruct (lookup_lt_is_Some_2 _ _ Hk) as [pass Hpass]. by rewrite Hpass.
    + rewrite lookup_seq_ge by lia. by rewrite lookup_ge_None_2 by lia.
  - rewrite Hafter. unfold passCount in *.
    rewrite frames_written_count, Hlen by lia.
    by rewrite Z.add_mod, Hcycle, Z.mod_same, Z.add_0_l, Z.mod_0_l by lia.
Qed.

Lemma capture_cycle_round_robin_witness :
  List.filter is_fwrite
    (capture_frames_calls [good_frame 50; good_frame 50] (two_pass_session 4))
  = [EvFwrite 8294400 1 (Some 10%nat); EvFwrite 8294400 1 (Some 11%nat)].
Proof.
  destruct (capture_cycle_round_robin [good_frame 50; good_frame 50] (two_pass_session 4)
              eq_refl eq_refl)
    as [Hwrites _];
    [do 2 (apply Forall_cons_2; [reflexivity|]); apply Forall_nil_2
    | by vm_compute | by vm_compute | reflexivity |].
  exact Hwrites.
Defined.

(** ** PrepareFrame and CaptureFrame on the same pass *)

Lemma idle_of_framePrepared_false (m : CaptureManager) : framePrepared (idle_of m) = false.
Proof. reflexivity. Qed.

Lemma CaptureFrame_at_most_one_write (w : FrameInputs) (m : CaptureManager) :
  let r := CaptureFrame w m in
  framePrepared (after r) = false
  /\ (MultiPassEnabled m = true -> head (calls r) = Some (EvDrawShaderForPassIndex (passIndex m)))
  /\ (List.filter is_fwrite (calls r) = []
      \/ List.filter is_fwrite (calls r)
         = [EvFwrite (Int.size_t (surfaceByteSize m)) 1 (written_to m)]).
Proof.
  unfold written_to.
  CaptureFrame_paths w m;
    rewrite ?stop_calls_no_fwrite, ?idle_of_framePrepared_false;
    (split; [reflexivity|]); (split; [by intros|]); auto.
Qed.

(** X6. While capturing, [PrepareFrame] marks the frame prepared and, in a
    multi-pass session, shows the renderer the elements of pass
    [capturedFrameCount mod passCount]; the [CaptureFrame] that follows
    draws the shader of that same pass, writes at most one frame and writes
    it to that pass's pipe, and clears [framePrepared].  In a single-stream
    session [PrepareFrame] calls nothing and the frame goes to the anchor
    pipe. *)
Theorem PrepareFrame_CaptureFrame_same_pass (w : FrameInputs) (m : CaptureManager) :
  isCapturing m = true ->
  0 <= capturedFrameCount m < 2 ^ 32 ->
  let prepared := after (PrepareFrame m) in
  let r := CaptureFrame w prepared in
  let size := Int.size_t (surfaceByteSize m) in
  prepared = set_framePrepared true m
  /\ framePrepared (after r) = false
  /\ (MultiPassEnabled m = true ->
      exists pass,
        passes (captureSettings m) !! Z.to_nat (capturedFrameCount m `mod` passCount m)
        = Some pass
        /\ calls (PrepareFrame m) = [EvSetVisibleElements (elements pass)]
        /\ head (calls r)
           = Some (EvDrawShaderForPassIndex (capturedFrameCount m `mod` passCount m))
        /\ (List.filter is_fwrite (calls r) = []
            \/ List.filter is_fwrite (calls r) = [EvFwrite size 1 (pass_pipe pass)]))
  /\ (MultiPassEnabled m = false ->
      calls (PrepareFrame m) = []
      /\ (List.filter is_fwrite (calls r) = []
          \/ List.filter is_fwrite (calls r) = [EvFwrite size 1 (pipe m)])).
Proof.
  intros Hcap Hcount. cbn zeta.
  assert (PrepareFrame m
          = mkRun (Returned tt) (set_framePrepared true m)
                  (if MultiPassEnabled m
                   then match pass_at m (passIndex m) with
                        | Some pass => [EvSetVisibleElements (elements pass)]
                        | None => []
                        end
                   else [])) as Hprepare.
  { unfold PrepareFrame, cmd_bind, read, emit, modify, skip, cmd_ret. simpl. rewrite Hcap.
    simpl. destruct (MultiPassEnabled m); [|reflexivity].
    by destruct (pass_at m (passIndex m)). }
  rewrite Hprepare. cbn [after calls].
  assert (passIndex m = capturedFrameCount m `mod` passCount m) as Hindex
    by (unfold passIndex; by rewrite IntFacts.size_t_small).
  destruct (CaptureFrame_at_most_one_write w (set_framePrepared true m))
    as (Hclear & Hdraw & Hwrite).
  change (MultiPassEnabled (set_framePrepared true m)) with (MultiPassEnabled m) in Hdraw.
  change (passIndex (set_framePrepared true m)) with (passIndex m) in Hdraw.
  change (surfaceByteSize (set_framePrepared true m)) with (surfaceByteSize m) in Hwrite.
  change (written_to (set_framePrepared true m)) with (written_to m) in Hwrite.
  split; [reflexivity|]. split; [exact Hclear|]. split.
  - intros Hmulti. rewrite Hmulti.
    destruct (passIndex_lookup m Hmulti) as [pass Hpass].
    exists pass. rewrite Hpass. unfold pass_at in Hpass.
    unfold written_to, pass_at in Hwrite. rewrite Hmulti, Hpass in Hwrite.
    rewrite Hindex in Hpass, Hdraw.
    split; [exact Hpass|]. split; [reflexivity|]. split; [exact (Hdraw Hmulti)|exact Hwrite].
  - intros Hsingle. rewrite Hsingle. split; [reflexivity|].
    unfold written_to in Hwrite. by rewrite Hsingle in Hwrite.
Qed.

Lemma PrepareFrame_CaptureFrame_same_pass_witness :
  calls (PrepareFrame (two_pass_session 3)) = [EvSetVisibleElements {[1%nat]}]
  /\ head (calls (CaptureFrame (good_frame 50) (after (PrepareFrame (two_pass_session 3)))))
     = Some (EvDrawShaderForPassIndex 1).
Proof.
  pose proof (PrepareFrame_CaptureFrame_same_pass (good_frame 50) (two_pass_session 3)
                eq_refl) as H.
  cbn zeta in H. destruct H as (_ & _ & Hmulti & _); [by vm_compute|].
  destruct (Hmulti eq_refl) as (pass & Hpass & Hshow & Hdraw & _).
  vm_compute in Hpass. injection Hpass as <-. split; [exact Hshow|exact Hdraw].
Defined.

(** ** OnGameFrame over a cycle *)

Lemma OnGameFrame_multi (m : CaptureManager) :
  MultiPassEnabled m = true ->
  0 <= capturedFrameCount m ->
  framerate (captureSettings m) <> 0 ->
  OnGameFrame m
  = Some (if capturedFrameCount m `mod` passCount m =? 0
          then 1000 `quot` framerate (captureSettings m) else 0).
Proof.
  intros Hmulti Hcount Hfps. pose proof (passCount_pos m Hmulti) as Hn.
  apply Z.eqb_neq in Hfps. unfold OnGameFrame.
  rewrite Hmulti, Hfps, Z.rem_mod_nonneg by lia.
  by destruct (capturedFrameCount m `mod` passCount m =? 0).
Qed.

(** X7. The timeline is held back on all but one pass of a cycle: among
    any [passCount] consecutive values of the frame counter there is
    exactly one at which [OnGameFrame] returns [1000/framerate]; at the
    others it returns 0. *)
Theorem OnGameFrame_once_per_cycle (m : CaptureManager) (c : Z) :
  MultiPassEnabled m = true ->
  framerate (captureSettings m) <> 0 ->
  0 <= c ->
  exists k0,
    0 <= k0 < passCount m
    /\ OnGameFrame (at_count (c + k0) m) = Some (1000 `quot` framerate (captureSettings m))
    /\ forall k, 0 <= k < passCount m -> k <> k0 -> OnGameFrame (at_count (c + k) m) = Some 0.
Proof.
  intros Hmulti Hfps Hc. pose proof (passCount_pos m Hmulti) as Hn.
  set (n := passCount m) in *.
  assert (forall k, 0 <= k ->
            OnGameFrame (at_count (c + k) m)
            = Some (if (c + k) `mod` n =? 0
                    then 1000 `quot` framerate (captureSettings m) else 0)) as Hat.
  { intros k Hk. rewrite OnGameFrame_multi; try done. simpl. lia. }
  pose proof (Z.mod_pos_bound (- c) n Hn) as Hk0.
  exists ((- c) `mod` n). split; [lia|]. split.
  - rewrite Hat by lia. rewrite Z.add_mod_idemp_r, Z.add_opp_diag_r, Z.mod_0_l by lia.
    reflexivity.
  - intros k Hk Hne. rewrite Hat by lia.
    destruct ((c + k) `mod` n =? 0) eqn:Hzero; [|reflexivity].
    exfalso. apply Hne. apply Z.eqb_eq in Hzero.
    rewrite <- (Z.mod_small k n) by lia.
    replace k with ((c + k) + - c) at 1 by lia.
    by rewrite Z.add_mod, Hzero, Z.add_0_l, Z.mod_mod by lia.
Qed.

Lemma OnGameFrame_once_per_cycle_witness :
  exists k0,
    0 <= k0 < 2
    /\ OnGameFrame (at_count (7 + k0) (two_pass_session 0)) = Some 33
    /\ forall k, 0 <= k < 2 -> k <> k0 ->
                 OnGameFrame (at_count (7 + k) (two_pass_session 0)) = Some 0.
Proof.
  destruct (OnGameFrame_once_per_cycle (two_pass_session 0) 7 eq_refl)
    as (k0 & Hk0 & Hhold & Hzero); [by vm_compute | by vm_compute |].
  exists k0. split; [exact Hk0|]. split; [exact Hhold|exact Hzero].
Defined.

(** ** The command builder: one output per pass *)

Lemma string_app_assoc (a b c : string) : (a +:+ b) +:+ c = a +:+ (b +:+ c).
Proof.
  induction a as [|x a IH]; [done|].
  change (String x ((a +:+ b) +:+ c) = String x (a +:+ (b +:+ c))). by rewrite IH.
Qed.

Lemma all_digits_app (a b : string) :
  all_digits (a +:+ b) = all_digits a && all_digits b.
Proof.
  induction a as [|x a IH]; [done|].
  change (is_digit x && all_digits (a +:+ b) = is_digit x && all_digits a && all_digits b).
  by rewrite IH, andb_assoc.
Qed.

Lemma pretty_N_char_digit (x : N) : is_digit (pretty_N_char x) = true.
Proof. unfold pretty_N_char. by repeat case_match. Qed.

Lemma pretty_N_go_digits (x : N) (s : string) :
  exists ds, pretty_N_go x s = ds +:+ s /\ all_digits ds = true.
Proof.
  revert s. induction (N.lt_wf_0 x) as [x _ IH]; intros s.
  assert (x = 0 \/ 0 < x)%N as [->|Hpos] by lia.
  - exists "". by rewrite pretty_N_go_0.
  - rewrite pretty_N_go_step by done.
    destruct (IH (x `div` 10)%N (N.div_lt x 10 Hpos eq_refl)
                 (String (pretty_N_char (x `mod` 10)) s)) as (ds & -> & Hds).
    exists (ds +:+ String (pretty_N_char (x `mod` 10)) ""). split.
    + by rewrite string_app_assoc.
    + rewrite all_digits_app, Hds. simpl. by rewrite pretty_N_char_digit.
Qed.

Lemma fmt_digits (z : Z) : 0 <= z -> all_digits (fmt z) = true.
Proof.
  intros Hz. unfold fmt, pretty, pretty_Z. destruct z as [|p|p]; [done| |lia].
  unfold pretty, pretty_positive, pretty, pretty_N. case_decide; [done|].
  destruct (pretty_N_go_digits (N.pos p) "") as (ds & -> & Hds).
  by rewrite all_digits_app, Hds.
Qed.

(** Two digit strings followed by something that is not a digit. *)
Lemma digits_prefix_inj (a b x y : string) :
  all_digits a = true -> all_digits b = true ->
  stops_digits x = true -> stops_digits y = true ->
  x <> "" -> y <> "" ->
  a +:+ x = b +:+ y -> a = b.
Proof.
  revert b. induction a as [|c a IH]; intros [|c' b] Ha Hb Hx Hy Hxe Hye H.
  - reflexivity.
  - exfalso. change (x = String c' (b +:+ y)) in H. rewrite H in Hx.
    cbn [stops_digits all_digits] in *. apply andb_prop in Hb as [Hc _].
    by rewrite Hc in Hx.
  - exfalso. change (String c (a +:+ x) = y) in H. rewrite <- H in Hy.
    cbn [stops_digits all_digits] in *. apply andb_prop in Ha as [Hc _].
    by rewrite Hc in Hy.
  - cbn [all_digits] in *.
    apply andb_prop in Ha as [_ Ha]. apply andb_prop in Hb as [_ Hb].
    change (String c (a +:+ x) = String c' (b +:+ y)) in H.
    injection H as -> H. f_equal. by apply (IH b).
Qed.

Lemma fmt_prefix_inj (i j : Z) (x y : string) :
  0 <= i -> 0 <= j ->
  stops_digits x = true -> stops_digits y = true -> x <> "" -> y <> "" ->
  fmt i +:+ x = fmt j +:+ y -> i = j.
Proof.
  intros Hi Hj Hx Hy Hxe Hye H.
  apply (inj pretty). change (fmt i = fmt j).
  by apply (digits_prefix_inj _ _ x y); auto using fmt_digits.
Qed.

Lemma pick_filename_shape (d : Disk) (passIndex : Z) :
  forall (fuel : nat) (filename : string) (k : Z) (chosen : string),
    pick_filename fuel d passIndex filename k = Some chosen ->
    chosen = filename \/ exists n, chosen = pass_mov_n passIndex n.
Proof.
  induction fuel as [|fuel IH]; intros filename k chosen; simpl.
  - destruct (exists_in d filename); [done|]. intros [= <-]. by left.
  - destruct (exists_in d filename); [|intros [= <-]; by left].
    intros Hpick. right. apply IH in Hpick as [->|[n ->]]; by eexists.
Qed.

Lemma string_app_inv_head (a x y : string) : a +:+ x = a +:+ y -> x = y.
Proof. apply String.app_inj. Qed.

Lemma pass_name_index (i j : Z) (x y : string) :
  0 <= i -> 0 <= j ->
  stops_digits x = true -> stops_digits y = true -> x <> "" -> y <> "" ->
  "Pass " +:+ fmt i +:+ x = "Pass " +:+ fmt j +:+ y -> i = j.
Proof.
  intros Hi Hj Hx Hy Hxe Hye H. apply string_app_inv_head in H.
  by apply (fmt_prefix_inj i j x y).
Qed.

Lemma chosen_filename_index (d : Disk) (i j : Z) (fuel fuel' : nat) (chosen : string) :
  0 <= i -> 0 <= j ->
  pick_filename fuel d i (pass_mov i) 0 = Some chosen ->
  pick_filename fuel' d j (pass_mov j) 0 = Some chosen ->
  i = j.
Proof.
  intros Hi Hj Hpi Hpj.
  apply pick_filename_shape in Hpi as [Hpi|[n Hpi]];
    apply pick_filename_shape in Hpj as [Hpj|[n' Hpj]];
    rewrite Hpi in Hpj; unfold pass_mov, pass_mov_n in Hpj;
    by apply pass_name_index in Hpj.
Qed.

(** X8. One output per pass: for Video and for ImageSequence output, the
    commands built for two different pass indices are different strings
    (they name different files), whatever the directory holds. *)
Theorem GetFFmpegCommand_one_output_per_pass (d : Disk) (c : CaptureSettings)
    (dir : string) (dims : Resolution) (i j : Z) (command_i command_j : string) :
  0 <= i -> 0 <= j -> i <> j ->
  outputFormat c = OutputFormat.Video \/ outputFormat c = OutputFormat.ImageSequence ->
  (GetFFmpegCommand d c dir dims i).1 = Returned command_i ->
  (GetFFmpegCommand d c dir dims j).1 = Returned command_j ->
  command_i <> command_j.
Proof.
  intros Hi Hj Hne Hformat Hci Hcj Heq. subst command_j. apply Hne. clear Hne.
  unfold GetFFmpegCommand in Hci, Hcj. destruct Hformat as [Hformat|Hformat];
    rewrite Hformat in Hci, Hcj;
    cbn [Z.eqb OutputFormat.Video OutputFormat.ImageSequence] in Hci, Hcj.
  - destruct (videoCodec c) as [codec|]; [|discriminate].
    destruct (codec_table codec) as [[profile pix] unsupported].
    destruct (pick_filename (S (length (files d))) d i (pass_mov i) 0) as [fi|] eqn:Hpi;
      [|discriminate].
    destruct (pick_filename (S (length (files d))) d j (pass_mov j) 0) as [fj|] eqn:Hpj;
      [|discriminate].
    cbn [fst] in Hci, Hcj. rewrite <- Hci in Hcj. injection Hcj as Hcj.
    unfold video_command in Hcj. repeat apply string_app_inv_head in Hcj.
    apply string_app_inv_tail in Hcj. subst fj.
    exact (chosen_filename_index d i j _ _ fi Hi Hj Hpi Hpj).
  - cbn [fst] in Hci, Hcj. rewrite <- Hci in Hcj. injection Hcj as Hcj.
    unfold image_sequence_command in Hcj. repeat apply string_app_inv_head in Hcj.
    by apply fmt_prefix_inj in Hcj.
Qed.

Lemma GetFFmpegCommand_one_output_per_pass_witness :
  exists command0 command1,
    (GetFFmpegCommand (mkDisk "ffmpeg.exe" ["Pass 1.mov"])
                      (captureSettings (two_pass_session 0)) "C:/recordings"
                      (mkResolution 1920 1080) 0).1 = Returned command0
    /\ (GetFFmpegCommand (mkDisk "ffmpeg.exe" ["Pass 1.mov"])
                         (captureSettings (two_pass_session 0)) "C:/recordings"
                         (mkResolution 1920 1080) 1).1 = Returned command1
    /\ command0 <> command1.
Proof.
  eexists _, _. split; [vm_compute; reflexivity|]. split; [vm_compute; reflexivity|].
  apply (GetFFmpegCommand_one_output_per_pass
           (mkDisk "ffmpeg.exe" ["Pass 1.mov"]) (captureSettings (two_pass_session 0))
           "C:/recordings" (mkResolution 1920 1080) 0 1);
    [lia | lia | lia | left; reflexivity | vm_compute; reflexivity | vm_compute; reflexivity].
Defined.

(** ** StartCapture: every handle is accounted for *)

Lemma stop_calls_tally (m : CaptureManager) :
  stop_calls m ≫= acquired = []
  /\ stop_calls m ≫= released = held_of m
  /\ stop_calls m ≫= opened = []
  /\ stop_calls m ≫= closed = open_pipes_of m.
Proof.
  rewrite stop_calls_unfold.
  rewrite !bind_app.
  assert (forall fs : list FILE,
             (fs ≫= fun f => [EvFflush f; EvFclose f]) ≫= acquired = []
             /\ (fs ≫= fun f => [EvFflush f; EvFclose f]) ≫= released = []
             /\ (fs ≫= fun f => [EvFflush f; EvFclose f]) ≫= opened = []
             /\ (fs ≫= fun f => [EvFflush f; EvFclose f]) ≫= closed = fs) as Hpipes.
  { induction fs as [|f fs (IH1 & IH2 & IH3 & IH4)]; [done|].
    rewrite !bind_cons, !bind_app, IH1, IH2, IH3, IH4. by repeat split. }
  assert (forall hs : list ComPtr,
             (EvRelease <$> hs) ≫= acquired = []
             /\ (EvRelease <$> hs) ≫= released = hs
             /\ (EvRelease <$> hs) ≫= opened = []
             /\ (EvRelease <$> hs) ≫= closed = []) as Hrel.
  { induction hs as [|h hs (IH1 & IH2 & IH3 & IH4)]; [done|].
    rewrite fmap_cons, !bind_cons, IH1, IH2, IH3, IH4. by repeat split. }
  destruct (Hpipes (open_pipes_of m)) as (-> & -> & -> & ->).
  destruct (Hrel (held_of m)) as (-> & -> & -> & ->).
  cbn. by rewrite app_nil_r.
Qed.

Lemma no_pipes_omap (ps : list CapturePass) :
  (forall j pass, ps !! j = Some pass -> pass_pipe pass = None) ->
  omap pass_pipe ps = [].
Proof.
  induction ps as [|p ps IH]; intros Hnone; [done|].
  cbn. rewrite (Hnone 0%nat p eq_refl). apply IH.
  intros j pass Hj. by apply (Hnone (S j)).
Qed.

Lemma omap_open_pass (ps : list CapturePass) (i : nat) (p : option FILE) :
  (i < length ps)%nat ->
  (forall j pass, (i <= j)%nat -> ps !! j = Some pass -> pass_pipe pass = None) ->
  omap pass_pipe (alter (fun pass => mkPass (elements pass) p) i ps)
  = omap pass_pipe ps ++ option_list p.
Proof.
  revert i. induction ps as [|q ps IH]; intros i Hi Hnone; [simpl in Hi; lia|].
  destruct i as [|i].
  - cbn. rewrite (Hnone 0%nat q ltac:(lia) eq_refl).
    rewrite (no_pipes_omap ps).
    + by destruct p.
    + intros j pass Hj. apply (Hnone (S j)); [lia|exact Hj].
  - cbn. rewrite IH.
    + by destruct (pass_pipe q).
    + simpl in Hi. lia.
    + intros j pass Hij Hj. apply (Hnone (S j)); [lia|exact Hj].
Qed.

Lemma open_pipes_of_set_pass_pipe (i : nat) (p : option FILE) (m : CaptureManager) :
  (i < length (passes (captureSettings m)))%nat ->
  (forall j pass, (i <= j)%nat -> passes (captureSettings m) !! j = Some pass ->
                  pass_pipe pass = None) ->
  open_pipes_of (set_pass_pipe i p m) = open_pipes_of m ++ option_list p.
Proof.
  intros Hi Hnone. unfold open_pipes_of. simpl.
  by rewrite omap_open_pass, app_assoc.
Qed.

Lemma open_pass_pipes_tally (w : StartInputs) :
  forall (n i : nat) (m : CaptureManager),
    (i + n = length (passes (captureSettings m)))%nat ->
    (forall j pass, (i <= j)%nat -> passes (captureSettings m) !! j = Some pass ->
                    pass_pipe pass = None) ->
    let r := open_pass_pipes w n i m in
    calls r ≫= acquired = []
    /\ (calls r ≫= released) ++ held_of (after r) = held_of m
    /\ open_pipes_of m ++ (calls r ≫= opened) = (calls r ≫= closed) ++ open_pipes_of (after r).
Proof.
  induction n as [|n IH]; intros i m Hlen Hnone; simpl.
  - by rewrite app_nil_r.
  - unfold cmd_bind, ffmpeg_command, log, emit, modify.
    pose proof (GetFFmpegCommand_only_logs (disk w) (captureSettings m) (outputDirectory w)
                  (screenDimensions m) (Z.of_nat i)) as Hlogs.
    destruct (GetFFmpegCommand (disk w) (captureSettings m) (outputDirectory w)
                (screenDimensions m) (Z.of_nat i)) as [[command|e|] logs]; simpl in *.
    + destruct (popen w i command) as [f|] eqn:Hpopen; simpl.
      * specialize (IH (S i) (set_pass_pipe i (Some f) m)).
        pose proof (open_pipes_of_set_pass_pipe i (Some f) m ltac:(lia) Hnone) as Hopen.
        destruct (open_pass_pipes w n (S i) (set_pass_pipe i (Some f) m))
          as [res m2 calls2].
        simpl in IH. rewrite length_alter in IH.
        destruct IH as (IHacq & IHrel & IHpipes); [lia| |].
        { intros j pass Hj. rewrite list_lookup_alter_ne by lia. apply Hnone. lia. }
        cbn [calls after].
        rewrite !bind_app, !(logs_tally _ logs) by done.
        rewrite !bind_cons. cbn [acquired released opened closed app].
        split; [exact IHacq|]. split; [exact IHrel|].
        by rewrite <- IHpipes, Hopen, <- app_assoc.
      * pose proof (open_pipes_of_set_pass_pipe i None m ltac:(lia) Hnone) as Hopen.
        rewrite StopCapture_run. cbn [calls after].
        destruct (stop_calls_tally (set_pass_pipe i None m)) as (Sacq & Srel & Sopn & Scls).
        rewrite !bind_app, !(logs_tally _ logs) by done.
        rewrite !bind_cons, !bind_app, Sacq, Srel, Sopn, Scls.
        cbn [acquired released opened closed app mbind list_bind].
        rewrite idle_of_no_pipes, idle_of_holds_nothing, Hopen, !app_nil_r.
        by repeat split.
    + by rewrite !(logs_tally _ logs), app_nil_r.
    + by rewrite !(logs_tally _ logs), app_nil_r.
Qed.


#[local] Transparent open_pipes.

Lemma clean_passes (m : CaptureManager) :
  open_pipes_of m = [] ->
  pipe m = None
  /\ forall j pass, passes (captureSettings m) !! j = Some pass -> pass_pipe pass = None.
Proof.
  unfold open_pipes_of. intros Hclean. apply app_eq_nil in Hclean as [Hpipe Hpasses].
  split; [by destruct (pipe m)|].
  revert Hpasses. generalize (passes (captureSettings m)).
  induction l as [|p ps IH]; intros Hps j pass Hj; [done|].
  cbn in Hps. destruct (pass_pipe p) eqn:Hp; [done|].
  destruct j as [|j]; [by injection Hj as <-|]. by apply (IH Hps j).
Qed.

Lemma open_pipes_tally (w : StartInputs) (m : CaptureManager) :
  open_pipes_of m = [] ->
  let r := open_pipes w m in
  calls r ≫= acquired = []
  /\ (calls r ≫= released) ++ held_of (after r) = held_of m
  /\ calls r ≫= opened = (calls r ≫= closed) ++ open_pipes_of (after r).
Proof.
  intros Hclean. destruct (clean_passes m Hclean) as [Hpipe Hnone].
  unfold open_pipes, cmd_bind, read. cbn beta iota.
  destruct (passes (captureSettings m)) as [|pass0 ps0] eqn:Hpasses.
  - rewrite bool_decide_eq_true_2 by reflexivity.
    unfold cmd_bind, ffmpeg_command, log, emit, modify.
    pose proof (GetFFmpegCommand_only_logs (disk w) (captureSettings m) (outputDirectory w)
                  (screenDimensions m) 0) as Hlogs.
    destruct (GetFFmpegCommand (disk w) (captureSettings m) (outputDirectory w)
                (screenDimensions m) 0) as [[command|e|] logs]; simpl in *.
    + destruct (popen w 0%nat command) as [f|] eqn:Hpopen; simpl.
      * rewrite !bind_app, !(logs_tally _ logs) by done.
        unfold open_pipes_of. simpl. rewrite Hpasses. by repeat split.
      * rewrite StopCapture_run. cbn [calls after].
        destruct (stop_calls_tally (set_pipe None m)) as (Sacq & Srel & Sopn & Scls).
        rewrite !bind_app, !(logs_tally _ logs) by done.
        rewrite !bind_cons, !bind_app, Sacq, Srel, Sopn, Scls.
        cbn [acquired released opened closed app mbind list_bind].
        rewrite idle_of_no_pipes, idle_of_holds_nothing, !app_nil_r.
        unfold open_pipes_of. simpl. rewrite Hpasses. by repeat split.
    + rewrite !(logs_tally _ logs) by done. by rewrite Hclean.
    + rewrite !(logs_tally _ logs) by done. by rewrite Hclean.
  - rewrite bool_decide_eq_false_2 by discriminate. cbn beta iota. rewrite Hpasses.
    pose proof (open_pass_pipes_tally w (length (pass0 :: ps0)) 0 m) as Hloop.
    rewrite Hpasses in Hloop. specialize (Hloop eq_refl).
    destruct Hloop as (Hacq & Hrel & Hopn); [intros j pass _; apply Hnone|].
    destruct (open_pass_pipes w (length (pass0 :: ps0)) 0 m) as [res m2 calls2].
    cbn [calls after] in *. rewrite Hclean in Hopn.
    destruct res as [[|]|e|]; cbn [calls after app]; by repeat split.
Qed.

#[local] Opaque open_pipes.

Lemma holds_nothing (m : CaptureManager) :
  held_of m = [] ->
  tempSurface m = None /\ backBuffer m = None /\ downsampledRenderTarget m = None
  /\ depthSurface m = None /\ depthShader m = None.
Proof.
  unfold held_of.
  by destruct (tempSurface m), (backBuffer m), (downsampledRenderTarget m),
    (depthSurface m), (depthShader m).
Qed.

Lemma StartCapture_tally (w : StartInputs) (m : CaptureManager) :
  held_of m = [] ->
  open_pipes_of m = [] ->
  let r := StartCapture w m in
  (calls r ≫= acquired) ≡ₚ (calls r ≫= released) ++ held_of (after r)
  /\ calls r ≫= opened = (calls r ≫= closed) ++ open_pipes_of (after r)
  /\ (result r = Returned tt -> isCapturing (after r) = false ->
      held_of (after r) = [] /\ open_pipes_of (after r) = []
      /\ (calls r ≫= acquired) ≡ₚ (calls r ≫= released)
      /\ calls r ≫= opened = calls r ≫= closed).
Proof.
  intros Hheld Hclean r. subst r.
  destruct (holds_nothing m Hheld) as (Htmp & Hbb & Hrt & Hds & Hsh).
  destruct (Z_lt_ge_dec (startTick (captureSettings m)) (endTick (captureSettings m)))
    as [Hguard|Hguard].
  2: { rewrite (StartCapture_guard w m Hguard). cbn [calls after result].
       rewrite Hheld, Hclean. by repeat split. }
  StartCapture_steps w m Hguard.
  destruct (outputDirectoryExists w) as [[|]|]; simpl;
    [|destruct (createDirectories w) as [created|]; simpl;
      [|rewrite Hheld, Hclean; by repeat split]
     |rewrite Hheld, Hclean; by repeat split];
    (destruct (getBackBuffer w) as [bb|]; simpl;
     [destruct (getDesc w) as [bbDesc|]; simpl;
      [destruct (createOffscreenPlainSurface w) as [tmp|]; simpl;
       [destruct (createRenderTarget w) as [rt|]; simpl;
        [destruct (ffmpegExists w) as [[|]|]; simpl;
         [| |unfold held_of, open_pipes_of in *; simpl;
             rewrite ?Hds, ?Hsh, ?Hclean; simpl;
             split; [apply Permutation_swap|by split]]|]|]|]|]).
  all: try (rewrite StopCapture_run; cbn [calls after result];
            rewrite ?bind_cons, ?bind_app;
            match goal with
            | |- context [stop_calls ?m'] =>
                destruct (stop_calls_tally m') as (-> & -> & -> & ->)
            end;
            rewrite idle_of_holds_nothing, idle_of_no_pipes;
            unfold held_of, open_pipes_of in *; simpl;
            rewrite ?Htmp, ?Hbb, ?Hrt, ?Hds, ?Hsh, ?Hclean; simpl;
            repeat split; try reflexivity; try apply Permutation_swap).
  all: match goal with
       | |- context [open_pipes ?w' ?m5] =>
           pose proof (open_pipes_tally w' m5 Hclean) as Hpipes;
           pose proof (open_pipes_spec w' m5) as Hspec;
           assert (held_of m5 = [tmp; bb; rt]) as Hheld5
             by (unfold held_of; simpl; by rewrite Hds, Hsh);
           destruct (open_pipes w' m5) as [res m6 calls6]
       end.
  all: cbn [calls after result] in Hpipes, Hspec; cbn zeta in Hspec;
       destruct Hpipes as (Hacq & Hrel & Hopn); rewrite Hheld5 in Hrel.
  all: destruct res as [[|]|e|]; simpl.
  all: rewrite ?bind_cons, ?bind_app, ?app_nil_r; cbn [acquired released opened closed app].
  all: change (held_of (set_isCapturing true m6)) with (held_of m6);
       change (open_pipes_of (set_isCapturing true m6)) with (open_pipes_of m6).
  all: change (list_bind Event ComPtr acquired calls6) with (calls6 ≫= acquired);
       change (list_bind Event ComPtr released calls6) with (calls6 ≫= released);
       change (list_bind Event FILE opened calls6) with (calls6 ≫= opened);
       change (list_bind Event FILE closed calls6) with (calls6 ≫= closed).
  all: rewrite Hacq, Hrel.
  all: split; [apply Permutation_swap|]; split; [exact Hopn|]; intros Hret Hidle;
       try discriminate.
  all: destruct Hspec as (_ & (m' & before & _ & Hafter) & _); cbn [after] in Hafter;
       rewrite StopCapture_run in Hafter; cbn [after] in Hafter; subst m6.
  all: rewrite idle_of_holds_nothing, idle_of_no_pipes, app_nil_r in *.
  all: rewrite Hrel. 
  all: repeat split; [apply Permutation_swap|exact Hopn].
Qed.

(** X9. No handle is lost by a start.  From a session that holds no
    Direct3D reference and no open pipe, whatever fails in [StartCapture]
    (a device call, the missing encoder, a pipe that does not open, the
    command builder raising), every reference the device handed out is
    either released in the same call or still held by the session, and
    every stream [_popen] returned is either closed in the same call or
    still in the anchor or a pass; a start that returns without capturing
    has released and closed all of them. *)
Theorem StartCapture_accounts_for_handles (w : StartInputs) (m : CaptureManager) :
  held_of m = [] ->
  open_pipes_of m = [] ->
  let r := StartCapture w m in
  (calls r ≫= acquired) ≡ₚ (calls r ≫= released) ++ held_of (after r)
  /\ calls r ≫= opened = (calls r ≫= closed) ++ open_pipes_of (after r)
  /\ (result r = Returned tt -> isCapturing (after r) = false ->
      held_of (after r) = [] /\ open_pipes_of (after r) = []
      /\ (calls r ≫= acquired) ≡ₚ (calls r ≫= released)
      /\ calls r ≫= opened = calls r ≫= closed).
Proof. exact (StartCapture_tally w m). Qed.

Lemma StartCapture_accounts_for_handles_witness :
  let r := StartCapture
             (mkStartInputs "C:/recordings" (Some true) (Some false) (mkDisk "ffmpeg.exe" []) 5
                (Some 1%nat) (Some (mkDesc 1920 1080 21)) (Some 2%nat) (Some 3%nat)
                (Some true) (fun i _ => if i is 1%nat then None else Some (10 + i)%nat))
             idle_two_pass_session in
  (calls r ≫= acquired) ≡ₚ (calls r ≫= released)
  /\ calls r ≫= opened = calls r ≫= closed
  /\ calls r ≫= opened = [10%nat].
Proof.
  cbn zeta.
  match goal with |- (calls (StartCapture ?w ?m) ≫= _) ≡ₚ _ /\ _ =>
    destruct (StartCapture_accounts_for_handles w m eq_refl eq_refl)
      as (_ & _ & Hdone)
  end.
  destruct Hdone as (_ & _ & Hcom & Hpipes); [by vm_compute | by vm_compute |].
  split; [exact Hcom|]. split; [exact Hpipes|]. by vm_compute.
Defined.


(** ** StartCapture: what it leaves in the record *)

Lemma close_pass_alter (ps : list CapturePass) (i : nat) (p : option FILE) :
  close_pass <$> alter (fun pass => mkPass (elements pass) p) i ps = close_pass <$> ps.
Proof.
  revert i. induction ps as [|q ps IH]; intros [|i]; try done.
  cbn. f_equal. apply IH.
Qed.

Lemma idle_of_set_pass_pipe (i : nat) (p : option FILE) (m : CaptureManager) :
  idle_of (set_pass_pipe i p m) = idle_of m.
Proof.
  pose proof (close_pass_alter (passes (captureSettings m)) i p) as Halter.
  change (idle_of (set_pass_pipe i p m))
    with (mkManager
            (set_passes
               (close_pass <$> alter (fun pass => mkPass (elements pass) p) i
                                     (passes (captureSettings m)))
               (captureSettings m))
            (screenDimensions m) false false (capturedFrameCount m) (ffmpegNotFound m)
            None None None None None None).
  rewrite Halter. reflexivity.
Qed.

Lemma open_pass_pipes_idle_of (w : StartInputs) :
  forall (n i : nat) (m : CaptureManager),
    idle_of (after (open_pass_pipes w n i m)) = idle_of m.
Proof.
  induction n as [|n IH]; intros i m; [reflexivity|]. simpl.
  unfold cmd_bind, ffmpeg_command, log, emit, modify.
  destruct (GetFFmpegCommand (disk w) (captureSettings m) (outputDirectory w)
              (screenDimensions m) (Z.of_nat i)) as [[command|e|] logs]; simpl;
    [|reflexivity..].
  destruct (popen w i command) as [f|]; simpl.
  - specialize (IH (S i) (set_pass_pipe i (Some f) m)).
    destruct (open_pass_pipes w n (S i) (set_pass_pipe i (Some f) m)) as [res m2 calls2].
    simpl in *. by rewrite IH, idle_of_set_pass_pipe.
  - rewrite StopCapture_run. simpl. by rewrite idle_of_idle, idle_of_set_pass_pipe.
Qed.

#[local] Transparent open_pipes.

Lemma open_pipes_idle_of (w : StartInputs) (m : CaptureManager) :
  idle_of (after (open_pipes w m)) = idle_of m.
Proof.
  unfold open_pipes, cmd_bind, read. cbn beta iota.
  destruct (bool_decide (passes (captureSettings m) = [])).
  - unfold cmd_bind, ffmpeg_command, log, emit, modify.
    destruct (GetFFmpegCommand (disk w) (captureSettings m) (outputDirectory w)
                (screenDimensions m) 0) as [[command|e|] logs]; simpl; [|reflexivity..].
    destruct (popen w 0%nat command) as [f|]; simpl; [reflexivity|].
    rewrite StopCapture_run. simpl. by rewrite idle_of_idle.
  - cbn beta iota.
    pose proof (open_pass_pipes_idle_of w (length (passes (captureSettings m))) 0 m) as Hloop.
    destruct (open_pass_pipes w (length (passes (captureSettings m))) 0 m)
      as [res m2 calls2].
    by destruct res.
Qed.

#[local] Opaque open_pipes.

Lemma StartCapture_idle_of (w : StartInputs) (m : CaptureManager) :
  startTick (captureSettings m) < endTick (captureSettings m) ->
  idle_of (after (StartCapture w m)) = idle_of (start_record w m).
Proof.
  intros Hguard. unfold start_record, directory_ready.
  StartCapture_steps w m Hguard.
  destruct (outputDirectoryExists w) as [[|]|]; simpl;
    [|destruct (createDirectories w) as [created|]; simpl; [|reflexivity]|reflexivity];
    (destruct (getBackBuffer w) as [bb|]; simpl;
     [destruct (getDesc w) as [bbDesc|]; simpl;
      [destruct (createOffscreenPlainSurface w) as [tmp|]; simpl;
       [destruct (createRenderTarget w) as [rt|]; simpl;
        [destruct (ffmpegExists w) as [[|]|]; simpl; [| |reflexivity]|]|]|]|]).
  all: try (rewrite StopCapture_run; simpl; by rewrite idle_of_idle).
  all: match goal with
       | |- context [open_pipes ?w' ?m5] =>
           pose proof (open_pipes_idle_of w' m5) as Hpipes;
           destruct (open_pipes w' m5) as [res m6 calls6]
       end.
  all: cbn [after] in Hpipes; destruct res as [[|]|e|]; simpl; by rewrite <- ?Hpipes.
Qed.

Lemma idle_of_ffmpegNotFound (m : CaptureManager) :
  ffmpegNotFound (idle_of m) = ffmpegNotFound m.
Proof. reflexivity. Qed.

Lemma stop_calls_no_popen (m : CaptureManager) :
  List.filter is_popen (stop_calls m) = [].
Proof.
  rewrite stop_calls_unfold, !List.filter_app.
  assert (forall fs : list FILE,
             List.filter is_popen (fs ≫= fun f => [EvFflush f; EvFclose f]) = []) as ->.
  { induction fs as [|f fs IH]; [done|]. exact IH. }
  assert (forall hs : list ComPtr, List.filter is_popen (EvRelease <$> hs) = []) as ->.
  { induction hs as [|h hs IH]; [done|]. exact IH. }
  reflexivity.
Qed.

Lemma StartCapture_missing_encoder (w : StartInputs) (m : CaptureManager) :
  startTick (captureSettings m) < endTick (captureSettings m) ->
  directory_ready w = true ->
  device_steps_succeed w = true ->
  ffmpegExists w = Some false ->
  let r := StartCapture w m in
  result r = Returned tt
  /\ ends_with_StopCapture r
  /\ List.filter is_popen (calls r) = []
  /\ isCapturing (after r) = false.
Proof.
  intros Hguard Hready Hdevice Hmissing.
  unfold directory_ready, device_steps_succeed in *. cbn zeta.
  StartCapture_steps w m Hguard.
  rewrite Hmissing.
  destruct (outputDirectoryExists w) as [[|]|]; try discriminate Hready;
    [|destruct (createDirectories w) as [created|]; try discriminate Hready];
    destruct (getBackBuffer w), (getDesc w),
      (createOffscreenPlainSurface w), (createRenderTarget w); try discriminate Hdevice;
    simpl; rewrite StopCapture_run; simpl; rewrite stop_calls_no_popen;
    (split; [reflexivity|]); (split; [ends_with_StopCapture_now|]); by split.
Qed.

(** X10. [ffmpegNotFound] reports the last check for the encoder
    executable.  A start that passes the tick guard, finds the output
    directory ready and whose four device calls succeed leaves the flag
    true when the check answers that the executable is missing, and then
    ends in [StopCapture] without ever calling [_popen]; it leaves the flag
    false when the executable is there, whatever happens to the pipes.  A
    start that is left by an exception of a filesystem call or fails at a
    device call, [StopCapture] and [CaptureFrame] leave the flag as it
    was. *)
Theorem ffmpegNotFound_reports_last_check (w : StartInputs) (m : CaptureManager) :
  startTick (captureSettings m) < endTick (captureSettings m) ->
  let r := StartCapture w m in
  (directory_ready w = true -> device_steps_succeed w = true ->
   forall found, ffmpegExists w = Some found -> ffmpegNotFound (after r) = negb found)
  /\ (directory_ready w = true -> device_steps_succeed w = true ->
      ffmpegExists w = Some false ->
      result r = Returned tt
      /\ ends_with_StopCapture r
      /\ List.filter is_popen (calls r) = []
      /\ isCapturing (after r) = false)
  /\ (directory_ready w = false \/ device_steps_succeed w = false \/ ffmpegExists w = None ->
      ffmpegNotFound (after r) = ffmpegNotFound m)
  /\ ffmpegNotFound (after (StopCapture (after r))) = ffmpegNotFound (after r)
  /\ (forall f, ffmpegNotFound (after (CaptureFrame f (after r))) = ffmpegNotFound (after r)).
Proof.
  intros Hguard r. subst r.
  pose proof (f_equal ffmpegNotFound (StartCapture_idle_of w m Hguard)) as Hflag.
  rewrite !idle_of_ffmpegNotFound in Hflag.
  assert (forall m', ffmpegNotFound (after (StopCapture m')) = ffmpegNotFound m') as Hstop.
  { intros m'. by rewrite StopCapture_run. }
  assert (forall f m', ffmpegNotFound (after (CaptureFrame f m')) = ffmpegNotFound m')
    as Hframe.
  { intros f m'. CaptureFrame_paths f m'; by rewrite ?idle_of_ffmpegNotFound. }
  split; [|split; [|split; [|split]]].
  - intros Hready Hdevice found Hfound. rewrite Hflag.
    unfold start_record, device_steps_succeed in *. rewrite Hready, Hfound.
    by destruct (getBackBuffer w), (getDesc w), (createOffscreenPlainSurface w),
      (createRenderTarget w).
  - intros Hready Hdevice Hmissing. by apply StartCapture_missing_encoder.
  - intros Hnot. rewrite Hflag. unfold start_record, device_steps_succeed in *.
    destruct (directory_ready w); [|reflexivity].
    destruct (getBackBuffer w), (getDesc w), (createOffscreenPlainSurface w),
      (createRenderTarget w); try reflexivity.
    destruct Hnot as [Hnot|[Hnot|Hnot]]; try discriminate Hnot. by rewrite Hnot.
  - apply Hstop.
  - intros f. apply Hframe.
Qed.

Lemma ffmpegNotFound_reports_last_check_witness :
  let missing :=
    mkStartInputs "C:/recordings" (Some true) (Some false) (mkDisk "ffmpeg.exe" []) 5
                  (Some 1%nat) (Some (mkDesc 1920 1080 21)) (Some 2%nat) (Some 3%nat)
                  (Some false) (fun i _ => Some (10 + i)%nat) in
  ffmpegNotFound (after (StartCapture missing idle_two_pass_session)) = true
  /\ isCapturing (after (StartCapture missing idle_two_pass_session)) = false
  /\ ffmpegNotFound (after (StartCapture start_ok
                             (after (StartCapture missing idle_two_pass_session)))) = false.
Proof.
  cbn zeta.
  match goal with |- ffmpegNotFound (after (StartCapture ?w ?m)) = _ /\ _ =>
    destruct (ffmpegNotFound_reports_last_check w m) as (Hflag & Hstop & _);
      [by vm_compute|];
    destruct (Hstop eq_refl eq_refl eq_refl) as (_ & _ & _ & Hidle);
    split; [exact (Hflag eq_refl eq_refl false eq_refl)|]; split; [exact Hidle|];
    destruct (ffmpegNotFound_reports_last_check start_ok (after (StartCapture w m)))
      as (Hflag' & _); [by vm_compute|]; exact (Hflag' eq_refl eq_refl true eq_refl)
  end.
Defined.

Lemma StartCapture_resets_counter (w : StartInputs) (m : CaptureManager) :
  startTick (captureSettings m) < endTick (captureSettings m) ->
  directory_ready w = true ->
  capturedFrameCount (after (StartCapture w m)) = 0.
Proof.
  intros Hguard Hready.
  pose proof (f_equal capturedFrameCount (StartCapture_idle_of w m Hguard)) as Hcount.
  rewrite !idle_of_count in Hcount. rewrite Hcount. unfold start_record. rewrite Hready.
  by destruct (getBackBuffer w), (getDesc w), (createOffscreenPlainSurface w),
    (createRenderTarget w), (ffmpegExists w).
Qed.

Lemma StartCapture_first_calls (w : StartInputs) (m : CaptureManager) :
  startTick (captureSettings m) < endTick (captureSettings m) ->
  directory_ready w = true ->
  exists rest,
    calls (StartCapture w m)
    = match outputDirectoryExists w with
      | Some false => [EvCreateDirectories (outputDirectory w)]
      | _ => []
      end
      ++ EvSetTickDelta (tick_delta (startTick (captureSettings m)) (currentTick w)) true
      :: EvLog LOG_INFO "Starting capture at {0} ({1} fps)"
               [ArgResolution (resolution (captureSettings m));
                ArgInt (framerate (captureSettings m))]
      :: EvGetBackBuffer (getBackBuffer w) :: rest.
Proof.
  intros Hguard Hready. unfold directory_ready in Hready.
  StartCapture_steps w m Hguard.
  destruct (outputDirectoryExists w) as [[|]|]; try discriminate Hready;
    [|destruct (createDirectories w) as [created|]; try discriminate Hready];
    destruct (getBackBuffer w), (getDesc w),
      (createOffscreenPlainSurface w), (createRenderTarget w),
      (ffmpegExists w) as [[|]|];
    simpl; rewrite ?StopCapture_run; simpl;
    try (eexists; reflexivity).
  all: match goal with
       | |- context [open_pipes ?w' ?m5] =>
           destruct (open_pipes w' m5) as [[[|]| |] m6 calls6]
       end; simpl; eexists; reflexivity.
Qed.

Lemma StartCapture_directory_throws (w : StartInputs) (m : CaptureManager) :
  startTick (captureSettings m) < endTick (captureSettings m) ->
  directory_ready w = false ->
  StartCapture w m
  = mkRun (Raised filesystem_error) m
          match outputDirectoryExists w with
          | Some false => [EvCreateDirectories (outputDirectory w)]
          | _ => []
          end.
Proof.
  intros Hguard Hready. unfold directory_ready in Hready.
  StartCapture_steps w m Hguard.
  destruct (outputDirectoryExists w) as [[|]|]; try discriminate Hready;
    [|reflexivity].
  destruct (createDirectories w) as [created|]; [discriminate Hready|reflexivity].
Qed.

Lemma tick_delta_in_range (startTick currentTick : Z) :
  - 2 ^ 31 <= startTick - currentTick < 2 ^ 31 ->
  tick_delta startTick currentTick = startTick - currentTick.
Proof. apply IntFacts.int32_small. Qed.

(** X11. A start that passes the tick guard and finds the output directory
    ready seeks and resets, whatever happens next.  It asks for the
    directory to be created exactly when the check answers that it is
    missing, moves the timeline by [startTick - currentTick] computed in 32
    bits (a seek backwards when the demo is already past the start tick),
    logs the start and asks for the back buffer, in this order; and it ends
    with [capturedFrameCount] at 0, so that a start which returns without
    capturing has logged that 0 frames were written, whatever the counter
    was before.  When the directory check or the creation throws, the call
    is left by that exception before the seek: the timeline is not moved
    and the session, counter included, is as it was. *)
Theorem StartCapture_seeks_and_resets (w : StartInputs) (m : CaptureManager) :
  startTick (captureSettings m) < endTick (captureSettings m) ->
  let r := StartCapture w m in
  let c := captureSettings m in
  let made :=
    match outputDirectoryExists w with
    | Some false => [EvCreateDirectories (outputDirectory w)]
    | _ => []
    end in
  (directory_ready w = true ->
   capturedFrameCount (after r) = 0
   /\ (exists rest,
         calls r
         = made
           ++ EvSetTickDelta (tick_delta (startTick c) (currentTick w)) true
           :: EvLog LOG_INFO "Starting capture at {0} ({1} fps)"
                    [ArgResolution (resolution c); ArgInt (framerate c)]
           :: EvGetBackBuffer (getBackBuffer w) :: rest)
   /\ (- 2 ^ 31 <= startTick c - currentTick w < 2 ^ 31 ->
       tick_delta (startTick c) (currentTick w) = startTick c - currentTick w))
  /\ (directory_ready w = false ->
      result r = Raised filesystem_error /\ after r = m /\ calls r = made)
  /\ (result r = Returned tt -> isCapturing (after r) = false ->
      EvLog LOG_INFO "Stopped capture (wrote {0} frames)" [ArgInt 0] ∈ calls r).
Proof.
  intros Hguard r c made. subst r c made.
  split; [|split].
  - intros Hready. split; [by apply StartCapture_resets_counter|].
    split; [by apply StartCapture_first_calls|]. apply tick_delta_in_range.
  - intros Hready. by rewrite (StartCapture_directory_throws w m Hguard Hready).
  - intros Hret Hidle.
    destruct (directory_ready w) eqn:Hready.
    2: { rewrite (StartCapture_directory_throws w m Hguard Hready) in Hret.
         discriminate Hret. }
    pose proof (StartCapture_resets_counter w m Hguard Hready) as Hzero.
    pose proof (StartCapture_spec w m Hguard) as Hspec. cbn zeta in Hspec.
    rewrite Hret in Hspec.
    destruct (start_steps_succeed w m).
    { destruct Hspec as (Hcap & _). congruence. }
    destruct Hspec as ((m' & before & Hcalls & Hafter) & _).
    rewrite StopCapture_run in Hcalls, Hafter. cbn [calls after] in Hcalls, Hafter.
    rewrite Hafter, idle_of_count in Hzero.
    rewrite Hcalls, stop_calls_unfold, Hzero.
    apply elem_of_app. right. apply elem_of_app. left. apply elem_of_cons. by left.
Qed.

Lemma StartCapture_seeks_and_resets_witness :
  let late :=
    mkStartInputs "C:/recordings" (Some false) (Some true) (mkDisk "ffmpeg.exe" []) 57 None
                  None None None (Some true) (fun _ _ => None) in
  let m := at_count 41 idle_two_pass_session in
  capturedFrameCount (after (StartCapture late m)) = 0
  /\ EvSetTickDelta (-47) true ∈ calls (StartCapture late m)
  /\ EvLog LOG_INFO "Stopped capture (wrote {0} frames)" [ArgInt 0]
     ∈ calls (StartCapture late m).
Proof.
  cbn zeta.
  match goal with |- capturedFrameCount (after (StartCapture ?w ?m)) = _ /\ _ =>
    destruct (StartCapture_seeks_and_resets w m) as (Hseek & _ & Hlog); [by vm_compute|];
    destruct (Hseek eq_refl) as (Hzero & (rest & Hcalls) & _);
    split; [exact Hzero|]; split; [|apply Hlog; by vm_compute];
    rewrite Hcalls; apply elem_of_cons; right; apply elem_of_cons; by left
  end.
Defined.

Lemma ToggleCapture_idle (w : StartInputs) (m : CaptureManager) :
  isCapturing m = false -> ToggleCapture w m = StartCapture w m.
Proof.
  intros Hidle. unfold ToggleCapture, cmd_bind, read. rewrite Hidle. cbn [negb].
  by destruct (StartCapture w m).
Qed.

Lemma ToggleCapture_capturing (w : StartInputs) (m : CaptureManager) :
  isCapturing m = true -> ToggleCapture w m = StopCapture m.
Proof.
  intros Hcap. unfold ToggleCapture, cmd_bind, read. rewrite Hcap. cbn [negb].
  by rewrite StopCapture_run.
Qed.

Lemma idle_of_isCapturing (m : CaptureManager) : isCapturing (idle_of m) = false.
Proof. reflexivity. Qed.

Lemma StartCapture_capturing_needs (w : StartInputs) (m : CaptureManager) :
  startTick (captureSettings m) < endTick (captureSettings m) ->
  isCapturing m = false ->
  isCapturing (after (StartCapture w m)) = true ->
  result (StartCapture w m) = Returned tt
  /\ directory_ready w = true
  /\ ffmpegExists w = Some true
  /\ exists bb bbDesc tmp rt,
      getBackBuffer w = Some bb /\ getDesc w = Some bbDesc
      /\ createOffscreenPlainSurface w = Some tmp /\ createRenderTarget w = Some rt.
Proof.
  intros Hguard Hidle Hcap.
  pose proof (StartCapture_spec w m Hguard) as Hspec. cbn zeta in Hspec.
  destruct (result (StartCapture w m)) as [[]| |] eqn:Hres.
  - split; [reflexivity|].
    unfold start_steps_succeed, encoder_found in Hspec.
    destruct (directory_ready w); [|destruct Hspec as (_ & Hnot); congruence].
    cbn [andb] in Hspec.
    destruct (getBackBuffer w) as [bb|], (getDesc w) as [bbDesc|],
      (createOffscreenPlainSurface w) as [tmp|], (createRenderTarget w) as [rt|];
      try (destruct Hspec as (_ & Hnot); congruence).
    destruct (ffmpegExists w) as [[|]|]; try (destruct Hspec as (_ & Hnot); congruence).
    split; [reflexivity|]. split; [reflexivity|]. by exists bb, bbDesc, tmp, rt.
  - destruct Hspec as (_ & Hsame & _). congruence.
  - destruct Hspec as (_ & Hsame & _). congruence.
Qed.

(** X12. Toggling twice is a round trip.  From an idle session that holds
    nothing, when the first [ToggleCapture] starts a capture, the second one
    stops it without looking at the outside world: it returns, and the
    session is back where it was except that the frame counter is 0, the
    screen dimensions are those of the back buffer and [ffmpegNotFound] is
    cleared.  Over the two calls every GPU resource that was acquired has
    been released and every pipe that was opened has been flushed and
    closed, in the order of opening. *)
Theorem ToggleCapture_round_trip (w w' : StartInputs) (m : CaptureManager) :
  startTick (captureSettings m) < endTick (captureSettings m) ->
  idle_of m = m ->
  let r1 := ToggleCapture w m in
  isCapturing (after r1) = true ->
  let r2 := ToggleCapture w' (after r1) in
  result r1 = Returned tt
  /\ result r2 = Returned tt
  /\ (exists bbDesc,
        getDesc w = Some bbDesc
        /\ after r2
           = set_ffmpegNotFound false
               (set_screenDimensions
                  (mkResolution (Int.int32 (Width bbDesc)) (Int.int32 (Height bbDesc)))
                  (set_capturedFrameCount 0 m)))
  /\ ((calls r1 ++ calls r2) ≫= acquired) ≡ₚ ((calls r1 ++ calls r2) ≫= released)
  /\ (calls r1 ++ calls r2) ≫= opened = (calls r1 ++ calls r2) ≫= closed
  /\ List.filter is_popen (calls r2) = [].
Proof.
  intros Hguard Hclean r1. subst r1.
  assert (isCapturing m = false) as Hidle by (by rewrite <- Hclean).
  assert (held_of m = []) as Hheld by (rewrite <- Hclean; apply idle_of_holds_nothing).
  assert (open_pipes_of m = []) as Hpipes by (rewrite <- Hclean; apply idle_of_no_pipes).
  rewrite (ToggleCapture_idle w m Hidle). intros Hcap r2. subst r2.
  rewrite (ToggleCapture_capturing w' _ Hcap), StopCapture_run. cbn [result after calls].
  destruct (StartCapture_capturing_needs w m Hguard Hidle Hcap)
    as (Hret & Hready & Hffmpeg & bb & bbDesc & tmp & rt & Hbb & Hdesc & Htmp & Hrt).
  destruct (StartCapture_tally w m Hheld Hpipes) as (Hgpu & Hfiles & _). cbn zeta in Hgpu, Hfiles.
  destruct (stop_calls_tally (after (StartCapture w m))) as (Hacq & Hrel & Hop & Hcl).
  split; [exact Hret|]. split; [reflexivity|]. split; [|split; [|split]].
  - exists bbDesc. split; [exact Hdesc|].
    rewrite (StartCapture_idle_of w m Hguard). unfold start_record.
    rewrite Hready, Hbb, Hdesc, Htmp, Hrt, Hffmpeg. cbn [negb].
    rewrite <- Hclean at 2. reflexivity.
  - rewrite !bind_app, Hacq, Hrel, app_nil_r. exact Hgpu.
  - rewrite !bind_app, Hop, Hcl, app_nil_r. exact Hfiles.
  - apply stop_calls_no_popen.
Qed.

Lemma ToggleCapture_round_trip_witness :
  let r1 := ToggleCapture start_ok idle_two_pass_session in
  let r2 := ToggleCapture start_ok (after r1) in
  isCapturing (after r1) = true
  /\ after r2
     = set_ffmpegNotFound false
         (set_screenDimensions (mkResolution 1920 1080)
            (set_capturedFrameCount 0 idle_two_pass_session)).
Proof.
  cbn zeta.
  assert (isCapturing (after (ToggleCapture start_ok idle_two_pass_session)) = true)
    as Hcap by (by vm_compute).
  split; [exact Hcap|].
  destruct (ToggleCapture_round_trip start_ok start_ok idle_two_pass_session)
    as (_ & _ & (bbDesc & Hdesc & Hafter) & _); [by vm_compute|by vm_compute|exact Hcap|].
  injection Hdesc as <-. exact Hafter.
Defined.

(** ** The labels and the command builder *)

(** X13. The labels and the command builder agree on the codecs, and
    disagree on the output formats.  [GetVideoCodecLabel] answers
    [Unknown Video Codec] for exactly the codecs for which
    [GetFFmpegCommand] logs [Unsupported video codec] and falls back, and
    two codecs with the same label other than that one are the same codec.
    Every output format for which [GetFFmpegCommand] builds a command has a
    label of its own, but [CameraData] has a label and no command. *)
Theorem labels_and_commands (d : Disk) (c : CaptureSettings) (dir : string)
    (dims : Resolution) (i : Z) (codec : VideoCodec.t) :
  outputFormat c = OutputFormat.Video ->
  videoCodec c = Some codec ->
  let unsupported :=
    EvLog LOG_ERROR "Unsupported video codec. Choosing default ({})"
          [ArgInt (Int.int32 VideoCodec.Prores4444)] in
  (GetVideoCodecLabel codec = "Unknown Video Codec"
   <-> unsupported ∈ (GetFFmpegCommand d c dir dims i).2)
  /\ (forall codec', GetVideoCodecLabel codec = GetVideoCodecLabel codec' ->
                     GetVideoCodecLabel codec <> "Unknown Video Codec" -> codec = codec')
  /\ (forall f, has_command f = true -> GetOutputFormatLabel f <> "Unknown Output Format")
  /\ GetOutputFormatLabel OutputFormat.CameraData = "Camera Data"
  /\ has_command OutputFormat.CameraData = false.
Proof.
  intros Hformat Hcodec unsupported. subst unsupported.
  split; [|split; [|split; [|by split]]].
  - unfold GetFFmpegCommand. rewrite Hformat, Hcodec. cbn [Z.eqb OutputFormat.Video
      OutputFormat.ImageSequence].
    unfold GetVideoCodecLabel, codec_table, VideoCodec.Prores4444XQ, VideoCodec.Prores4444,
      VideoCodec.Prores422HQ, VideoCodec.Prores422, VideoCodec.Prores422LT.
    destruct (codec =? 0); [|destruct (codec =? 1); [|destruct (codec =? 2);
      [|destruct (codec =? 3); [|destruct (codec =? 4)]]]];
      destruct (pick_filename _ _ _ _ _); cbn [snd];
      (split; [try discriminate; intros _; apply elem_of_cons; by left
              |try (intros Hin; inversion Hin); done]).
  - intros codec'.
    unfold GetVideoCodecLabel, VideoCodec.Prores4444XQ, VideoCodec.Prores4444,
      VideoCodec.Prores422HQ, VideoCodec.Prores422, VideoCodec.Prores422LT.
    destruct (Z.eqb_spec codec 0), (Z.eqb_spec codec 1), (Z.eqb_spec codec 2),
      (Z.eqb_spec codec 3), (Z.eqb_spec codec 4); try lia;
      destruct (Z.eqb_spec codec' 0), (Z.eqb_spec codec' 1), (Z.eqb_spec codec' 2),
        (Z.eqb_spec codec' 3), (Z.eqb_spec codec' 4); try lia; try discriminate;
      by intros.
  - intros f. unfold has_command, GetOutputFormatLabel, OutputFormat.Video,
      OutputFormat.CameraData, OutputFormat.ImageSequence.
    destruct (Z.eqb_spec f 0), (Z.eqb_spec f 1), (Z.eqb_spec f 2);
      try lia; cbn [orb]; try discriminate.
Qed.

Lemma labels_and_commands_witness :
  GetVideoCodecLabel 7 = "Unknown Video Codec"
  /\ EvLog LOG_ERROR "Unsupported video codec. Choosing default ({})" [ArgInt 1]
     ∈ (GetFFmpegCommand (mkDisk "ffmpeg.exe" [])
          (mkSettings 10 100 OutputFormat.Video (Some 7) (mkResolution 1280 720) 30 [])
          "C:/recordings" (mkResolution 1920 1080) 0).2.
Proof.
  destruct (labels_and_commands (mkDisk "ffmpeg.exe" [])
              (mkSettings 10 100 OutputFormat.Video (Some 7) (mkResolution 1280 720) 30 [])
              "C:/recordings" (mkResolution 1920 1080) 0 7 eq_refl eq_refl)
    as ((Hlog & _) & _).
  split; [reflexivity|]. exact (Hlog eq_refl).
Defined.

(** ** A start with an output format that has no command *)

Lemma GetFFmpegCommand_no_command (d : Disk) (c : CaptureSettings) (dir : string)
    (dims : Resolution) (i : Z) :
  has_command (outputFormat c) = false ->
  GetFFmpegCommand d c dir dims i
  = (Returned "", [EvLog LOG_ERROR "Output format not supported" []]).
Proof.
  unfold has_command, GetFFmpegCommand. intros [-> ->]%orb_false_elim. reflexivity.
Qed.

Lemma stop_calls_empty_command (m : CaptureManager) :
  Forall (fun e => empty_command e = true) (stop_calls m).
Proof.
  rewrite stop_calls_unfold. repeat apply Forall_app_2.
  - by repeat constructor.
  - apply Forall_forall. intros e (f & [->| [->|[]%elem_of_nil]%elem_of_cons]%elem_of_cons & _)%list_elem_of_bind;
      reflexivity.
  - apply Forall_fmap, Forall_forall. by intros h _.
Qed.

Lemma pipe_opens_no_command (w : StartInputs) (c : CaptureSettings) (dims : Resolution)
    (i : nat) :
  has_command (outputFormat c) = false ->
  pipe_opens w c dims i = bool_decide (is_Some (popen w i "")).
Proof. intros Hnone. unfold pipe_opens. by rewrite GetFFmpegCommand_no_command. Qed.

Lemma every_pipe_opens_no_command (w : StartInputs) (c : CaptureSettings) (dims : Resolution) :
  has_command (outputFormat c) = false ->
  every_pipe_opens w c dims
  = forallb (fun i => bool_decide (is_Some (popen w i "")))
            (seq 0 (Nat.max 1 (length (passes c)))).
Proof.
  intros Hnone. unfold every_pipe_opens.
  destruct (passes c) as [|pass ps] eqn:Hpasses.
  - cbn. rewrite pipe_opens_no_command by done. by rewrite andb_true_r.
  - replace (Nat.max 1 (length (pass :: ps))) with (length (pass :: ps)) by (simpl; lia).
    induction (seq 0 (length (pass :: ps))) as [|i l IH]; [done|].
    cbn [forallb]. by rewrite IH, pipe_opens_no_command.
Qed.

Ltac empty_commands :=
  rewrite ?app_nil_r;
  repeat first [ apply stop_calls_empty_command
               | assumption
               | apply Forall_nil_2
               | apply Forall_cons_2; [reflexivity|] ].

Lemma open_pass_pipes_no_command (w : StartInputs) :
  forall (n i : nat) (m : CaptureManager),
    has_command (outputFormat (captureSettings m)) = false ->
    Forall (fun e => empty_command e = true) (calls (open_pass_pipes w n i m)).
Proof.
  induction n as [|n IH]; intros i m Hnone; [constructor|].
  cbn [open_pass_pipes]. unfold cmd_bind, ffmpeg_command, log, emit, modify, cmd_ret.
  rewrite GetFFmpegCommand_no_command by done. cbn [fst snd].
  destruct (popen w i "") as [p|].
  - specialize (IH (S i) (set_pass_pipe i (Some p) m) Hnone).
    destruct (open_pass_pipes w n (S i) (set_pass_pipe i (Some p) m)) as [res m' calls'].
    simpl in IH |- *. empty_commands.
  - rewrite StopCapture_run. simpl. empty_commands.
Qed.

Lemma open_pass_pipes_first (w : StartInputs) (n i : nat) (m : CaptureManager) :
  n <> 0%nat ->
  has_command (outputFormat (captureSettings m)) = false ->
  EvLog LOG_ERROR "Output format not supported" [] ∈ calls (open_pass_pipes w n i m)
  /\ EvPopen "" (popen w i "") ∈ calls (open_pass_pipes w n i m).
Proof.
  intros Hn Hnone. destruct n as [|n]; [done|].
  cbn [open_pass_pipes]. unfold cmd_bind, ffmpeg_command, log, emit, modify, cmd_ret.
  rewrite GetFFmpegCommand_no_command by done. cbn [fst snd].
  destruct (popen w i "") as [p|].
  - destruct (open_pass_pipes w n (S i) (set_pass_pipe i (Some p) m)) as [res m' calls'].
    simpl. split; [apply elem_of_cons; by left|].
    do 2 (apply elem_of_cons; right). apply elem_of_cons. by left.
  - rewrite StopCapture_run. simpl. split; [apply elem_of_cons; by left|].
    do 2 (apply elem_of_cons; right). apply elem_of_cons. by left.
Qed.

#[local] Transparent open_pipes.

Lemma open_pipes_no_command (w : StartInputs) (m : CaptureManager) :
  has_command (outputFormat (captureSettings m)) = false ->
  Forall (fun e => empty_command e = true) (calls (open_pipes w m))
  /\ EvLog LOG_ERROR "Output format not supported" [] ∈ calls (open_pipes w m)
  /\ EvPopen "" (popen w 0 "") ∈ calls (open_pipes w m).
Proof.
  intros Hnone. unfold open_pipes, cmd_bind, read.
  destruct (decide (passes (captureSettings m) = [])) as [Hempty|Hsome].
  - rewrite bool_decide_eq_true_2 by done.
    unfold ffmpeg_command, log, emit, modify, cmd_ret.
    rewrite GetFFmpegCommand_no_command by done. cbn [fst snd].
    destruct (popen w 0%nat "") as [p|].
    + simpl. split; [empty_commands|].
      split; [apply elem_of_cons; by left|].
      do 2 (apply elem_of_cons; right). apply elem_of_cons. by left.
    + rewrite StopCapture_run. simpl. split; [empty_commands|].
      split; [apply elem_of_cons; by left|].
      do 2 (apply elem_of_cons; right). apply elem_of_cons. by left.
  - rewrite bool_decide_eq_false_2 by done.
    assert (length (passes (captureSettings m)) <> 0%nat) as Hn
      by (by destruct (passes (captureSettings m))).
    pose proof (open_pass_pipes_no_command w (length (passes (captureSettings m))) 0 m Hnone)
      as Hall.
    destruct (open_pass_pipes_first w (length (passes (captureSettings m))) 0 m Hn Hnone)
      as (Hlog & Hpopen).
    destruct (open_pass_pipes w (length (passes (captureSettings m))) 0 m)
      as [res m' calls'].
    simpl in *. by rewrite ?app_nil_r.
Qed.

#[local] Opaque open_pipes.

Lemma StartCapture_no_command_calls (w : StartInputs) (m : CaptureManager) :
  startTick (captureSettings m) < endTick (captureSettings m) ->
  has_command (outputFormat (captureSettings m)) = false ->
  Forall (fun e => empty_command e = true) (calls (StartCapture w m))
  /\ (directory_ready w = true -> device_steps_succeed w = true ->
      ffmpegExists w = Some true ->
      EvLog LOG_ERROR "Output format not supported" [] ∈ calls (StartCapture w m)
      /\ EvPopen "" (popen w 0 "") ∈ calls (StartCapture w m)).
Proof.
  intros Hguard Hnone.
  unfold device_steps_succeed, directory_ready.
  StartCapture_steps w m Hguard.
  destruct (outputDirectoryExists w) as [[|]|]; simpl;
    [|destruct (createDirectories w) as [created|]; simpl;
      [|split; [empty_commands|intros; discriminate]]
     |split; [empty_commands|intros; discriminate]];
    destruct (getBackBuffer w), (getDesc w),
      (createOffscreenPlainSurface w), (createRenderTarget w),
      (ffmpegExists w) as [[|]|];
    simpl; rewrite ?StopCapture_run; simpl;
    try (split; [empty_commands|intros; discriminate]).
  all: match goal with
       | |- context [open_pipes ?w' ?m5] =>
           destruct (open_pipes_no_command w' m5 Hnone) as (Hall & Hlog & Hpopen);
           destruct (open_pipes w' m5) as [[[|]| |] m6 calls6]
       end; simpl in Hall, Hlog, Hpopen |- *; rewrite ?app_nil_r;
    (split; [empty_commands|]);
    intros _ _ _; split; repeat (apply elem_of_cons; right); assumption.
Qed.

Lemma StartCapture_throws_before_pipes (w : StartInputs) (m : CaptureManager) :
  startTick (captureSettings m) < endTick (captureSettings m) ->
  filesystem_answers w = false ->
  List.filter is_popen (calls (StartCapture w m)) = []
  /\ isCapturing (after (StartCapture w m)) = isCapturing m.
Proof.
  intros Hguard.
  unfold filesystem_answers, directory_ready, device_steps_succeed.
  StartCapture_steps w m Hguard.
  destruct (outputDirectoryExists w) as [[|]|]; simpl;
    [|destruct (createDirectories w) as [created|]; simpl; [|done]|done];
    destruct (getBackBuffer w) as [bb|], (getDesc w) as [bbDesc|],
      (createOffscreenPlainSurface w) as [tmp|], (createRenderTarget w) as [rt|];
    simpl; try discriminate;
    destruct (ffmpegExists w) as [[|]|]; simpl; try discriminate; done.
Qed.

(** X14. A start with an output format for which [GetFFmpegCommand] has no
    command (camera data, for one) is not refused.  Past the tick guard,
    every [_popen] it makes is given the empty command.  When no filesystem
    call it gets to throws, it returns, and whether the session is
    capturing afterwards depends only on the device calls, on the encoder
    executable being there and on [_popen] opening a stream for the empty
    command, once per pass.  When a filesystem call throws, it is left by
    that exception before any [_popen], with [isCapturing] as it was.  When
    the directory is ready, the device calls succeed and the executable is
    there, it has logged [Output format not supported] and called [_popen]
    with the empty command. *)
Theorem StartCapture_format_without_command (w : StartInputs) (m : CaptureManager) :
  startTick (captureSettings m) < endTick (captureSettings m) ->
  has_command (outputFormat (captureSettings m)) = false ->
  let r := StartCapture w m in
  Forall (fun e => empty_command e = true) (calls r)
  /\ (filesystem_answers w = true ->
      result r = Returned tt
      /\ isCapturing (after r)
         = device_steps_succeed w && encoder_found w
           && forallb (fun i => bool_decide (is_Some (popen w i "")))
                      (seq 0 (Nat.max 1 (length (passes (captureSettings m))))))
  /\ (filesystem_answers w = false ->
      result r = Raised filesystem_error
      /\ isCapturing (after r) = isCapturing m
      /\ List.filter is_popen (calls r) = [])
  /\ (directory_ready w = true -> device_steps_succeed w = true ->
      ffmpegExists w = Some true ->
      EvLog LOG_ERROR "Output format not supported" [] ∈ calls r
      /\ EvPopen "" (popen w 0 "") ∈ calls r).
Proof.
  intros Hguard Hnone r. subst r.
  destruct (StartCapture_no_command_calls w m Hguard Hnone) as (Hall & Hlogged).
  split; [exact Hall|]. split; [|split; [|exact Hlogged]].
  - intros Hanswers.
    pose proof (StartCapture_spec w m Hguard) as Hspec. cbn zeta in Hspec.
    assert (directory_ready w = true) as Hready.
    { unfold filesystem_answers in Hanswers. by destruct (directory_ready w). }
    assert (start_steps_succeed w m
            = device_steps_succeed w && encoder_found w
              && forallb (fun i => bool_decide (is_Some (popen w i "")))
                         (seq 0 (Nat.max 1 (length (passes (captureSettings m))))))
      as Hsteps.
    { unfold start_steps_succeed, device_steps_succeed. rewrite Hready.
      destruct (getBackBuffer w), (getDesc w), (createOffscreenPlainSurface w),
        (createRenderTarget w); try reflexivity.
      by rewrite every_pipe_opens_no_command. }
    destruct (result (StartCapture w m)) as [[]| |] eqn:Hres.
    + split; [reflexivity|].
      rewrite <- Hsteps. destruct (start_steps_succeed w m); by destruct Hspec.
    + destruct Hspec as (_ & _ & [Hnot|(j & dims & Hnever)]); [congruence|].
      rewrite GetFFmpegCommand_no_command in Hnever by done. destruct Hnever.
    + destruct Hspec as (_ & _ & [Hnot|(j & dims & Hnever)]); [congruence|].
      rewrite GetFFmpegCommand_no_command in Hnever by done. destruct Hnever.
  - intros Hthrows.
    destruct (StartCapture_throws_before_pipes w m Hguard Hthrows) as (Hpopen & Hsame).
    split; [by apply StartCapture_throws|]. by split.
Qed.

Lemma StartCapture_format_without_command_witness :
  isCapturing (after (StartCapture start_ok camera_data_session)) = true
  /\ EvPopen "" (Some 10%nat) ∈ calls (StartCapture start_ok camera_data_session).
Proof.
  destruct (StartCapture_format_without_command start_ok camera_data_session)
    as (_ & Hruns & _ & Hlogged); [by vm_compute|by vm_compute|].
  destruct (Hruns eq_refl) as (_ & Hcap).
  split; [rewrite Hcap; by vm_compute|].
  destruct (Hlogged eq_refl eq_refl eq_refl) as (_ & Hpopen). exact Hpopen.
Defined.

(** ** Initialize *)

Lemma int32_range (z : Z) : - 2 ^ 31 <= Int.int32 z < 2 ^ 31.
Proof. unfold Int.int32. pose proof (Z.mod_pos_bound (z + 2 ^ 31) (2 ^ 32)). lia. Qed.

Lemma quot_in_range (a i : Z) :
  - 2 ^ 31 <= a < 2 ^ 31 -> 0 <= i -> - 2 ^ 31 <= a `quot` (i + 1) < 2 ^ 31.
Proof.
  intros Ha Hi.
  destruct (Z.le_gt_cases 0 a) as [Hpos|Hneg].
  - rewrite Z.quot_div_nonneg by lia.
    pose proof (Z.div_pos a (i + 1)). pose proof (Z.div_le_upper_bound a (i + 1) a). nia.
  - replace a with (- (- a)) by lia. rewrite Z.quot_opp_l by lia.
    rewrite Z.quot_div_nonneg by lia.
    pose proof (Z.div_pos (- a) (i + 1)).
    pose proof (Z.div_le_upper_bound (- a) (i + 1) (- a)). nia.
Qed.

Lemma fill_resolutions_length (g : Resolution) :
  forall (n : nat) (i : Z) (resolutions : list Resolution),
    length (fill_resolutions g n i resolutions) = length resolutions.
Proof.
  induction n as [|n IH]; intros i resolutions; [reflexivity|].
  cbn [fill_resolutions]. by rewrite IH, length_insert.
Qed.

Lemma fill_resolutions_lookup (g : Resolution) :
  forall (n : nat) (i : Z) (resolutions : list Resolution) (k : nat),
    0 <= i ->
    fill_resolutions g n i resolutions !! k
    = if decide ((Z.to_nat i <= k < Z.to_nat i + n)%nat /\ (k < length resolutions)%nat)
      then Some (mkResolution (Int.int32 (width g `quot` (Z.of_nat k + 1)))
                              (Int.int32 (height g `quot` (Z.of_nat k + 1))))
      else resolutions !! k.
Proof.
  induction n as [|n IH]; intros i resolutions k Hi.
  - cbn [fill_resolutions]. case_decide; [lia|reflexivity].
  - cbn [fill_resolutions]. rewrite IH by lia. rewrite length_insert.
    replace (Z.to_nat (i + 1)) with (S (Z.to_nat i)) by lia.
    destruct (decide (k = Z.to_nat i)) as [->|Hk].
    + rewrite Z2Nat.id by lia.
      repeat case_decide; try lia.
      * by rewrite list_lookup_insert_eq by lia.
      * rewrite !lookup_ge_None_2; [reflexivity|lia|rewrite length_insert; lia].
    + rewrite list_lookup_insert_ne by done.
      repeat case_decide; try lia; reflexivity.
Qed.

Lemma Initialize_succeeds (w : InitInputs) (s : Surroundings) (bb : ComPtr)
    (bbDesc : D3DSURFACE_DESC) :
  init_getBackBuffer w = Some bb ->
  init_getDesc w = Some bbDesc ->
  let g := mkResolution (Int.int32 (Width bbDesc)) (Int.int32 (Height bbDesc)) in
  members (Initialize w s).1
  = set_captureSettings
      (mkSettings 0 0 OutputFormat.Video (Some VideoCodec.Prores4444) g 250 [])
      (set_backBuffer None (members s))
  /\ supportedResolutions (Initialize w s).1
     = fill_resolutions g (length (supportedResolutions s)) 0 (supportedResolutions s).
Proof.
  intros Hbb Hdesc. unfold Initialize. rewrite Hbb, Hdesc.
  by destruct (r_smp_backend s).
Qed.

(** X15. The catalog of capture resolutions.  When [Initialize] gets the
    back buffer and its description, the capture resolution is the size of
    the back buffer, and entry [i] of [supportedResolutions] is that size
    divided by [i + 1], both ways, rounded towards zero: the array keeps its
    length, and entry 0 is the game's resolution.  For a back buffer below
    2^31 pixels each way the entries shrink along the array and none is
    larger than the back buffer. *)
Theorem Initialize_catalog (w : InitInputs) (s : Surroundings) (bb : ComPtr)
    (bbDesc : D3DSURFACE_DESC) :
  init_getBackBuffer w = Some bb ->
  init_getDesc w = Some bbDesc ->
  let s' := (Initialize w s).1 in
  let g := resolution (captureSettings (members s')) in
  g = mkResolution (Int.int32 (Width bbDesc)) (Int.int32 (Height bbDesc))
  /\ length (supportedResolutions s') = length (supportedResolutions s)
  /\ (forall i, (i < length (supportedResolutions s))%nat ->
        supportedResolutions s' !! i
        = Some (mkResolution (width g `quot` (Z.of_nat i + 1))
                             (height g `quot` (Z.of_nat i + 1))))
  /\ (0 <= Width bbDesc < 2 ^ 31 -> 0 <= Height bbDesc < 2 ^ 31 ->
      forall i j r r', (i <= j)%nat ->
        supportedResolutions s' !! i = Some r ->
        supportedResolutions s' !! j = Some r' ->
        0 <= width r' <= width r /\ width r <= Width bbDesc
        /\ 0 <= height r' <= height r /\ height r <= Height bbDesc).
Proof.
  intros Hbb Hdesc s' g. subst s' g.
  destruct (Initialize_succeeds w s bb bbDesc Hbb Hdesc) as (-> & ->). cbn zeta.
  cbn [set_captureSettings captureSettings resolution width height].
  assert (forall i, (i < length (supportedResolutions s))%nat ->
            fill_resolutions
              (mkResolution (Int.int32 (Width bbDesc)) (Int.int32 (Height bbDesc)))
              (length (supportedResolutions s)) 0 (supportedResolutions s) !! i
            = Some (mkResolution (Int.int32 (Width bbDesc) `quot` (Z.of_nat i + 1))
                                 (Int.int32 (Height bbDesc) `quot` (Z.of_nat i + 1))))
    as Hentry.
  { intros i Hi. rewrite fill_resolutions_lookup by lia.
    rewrite decide_True by lia. cbn [width height].
    rewrite (IntFacts.int32_small (Int.int32 (Width bbDesc) `quot` (Z.of_nat i + 1)))
      by (apply quot_in_range; [apply int32_range|lia]).
    rewrite (IntFacts.int32_small (Int.int32 (Height bbDesc) `quot` (Z.of_nat i + 1)))
      by (apply quot_in_range; [apply int32_range|lia]).
    reflexivity. }
  split; [reflexivity|]. split; [apply fill_resolutions_length|]. split; [exact Hentry|].
  intros Hw Hh i j r r' Hij Hi Hj.
  assert (j < length (supportedResolutions s))%nat as Hjlt.
  { apply lookup_lt_Some in Hj. by rewrite fill_resolutions_length in Hj. }
  rewrite Hentry in Hi, Hj by lia. injection Hi as <-. injection Hj as <-.
  cbn [width height]. rewrite !IntFacts.int32_small by lia.
  rewrite !Z.quot_div_nonneg by lia.
  pose proof (Z.div_le_compat_l (Width bbDesc) (Z.of_nat i + 1) (Z.of_nat j + 1)).
  pose proof (Z.div_le_compat_l (Height bbDesc) (Z.of_nat i + 1) (Z.of_nat j + 1)).
  pose proof (Z.div_pos (Width bbDesc) (Z.of_nat j + 1)).
  pose proof (Z.div_pos (Height bbDesc) (Z.of_nat j + 1)).
  pose proof (Z.div_le_upper_bound (Width bbDesc) (Z.of_nat i + 1) (Width bbDesc)).
  pose proof (Z.div_le_upper_bound (Height bbDesc) (Z.of_nat i + 1) (Height bbDesc)).
  repeat split; try lia; nia.
Qed.

Lemma Initialize_catalog_witness :
  supportedResolutions (Initialize init_ok fresh_surroundings).1
  = [mkResolution 1920 1080; mkResolution 960 540; mkResolution 640 360;
     mkResolution 480 270].
Proof.
  destruct (Initialize_catalog init_ok fresh_surroundings 1%nat (mkDesc 1920 1080 21)
              eq_refl eq_refl) as (Hg & Hlen & Hentry & _).
  apply list_eq. intros i.
  destruct (decide (i < 4)%nat) as [Hi|Hi].
  - rewrite Hentry by exact Hi. rewrite Hg.
    destruct i as [|[|[|[|i]]]]; [reflexivity..|]. cbn in Hi. lia.
  - rewrite !lookup_ge_None_2; [reflexivity|cbn; lia|rewrite Hlen; cbn; lia].
Defined.

(** X16. A session fresh from [Initialize] cannot record yet.  When
    [Initialize] succeeds, the back buffer it took to learn the size has
    been released and is no longer held, the passes configured before are
    gone, the game is held for 4 ms per frame (250 fps), and, the tick
    range being 0 to 0, a [StartCapture] (or a [ToggleCapture] of an idle
    session) only logs that the start tick must be less than the end tick,
    until something sets the range. *)
Theorem Initialize_then_StartCapture (w : InitInputs) (s : Surroundings) (bb : ComPtr)
    (bbDesc : D3DSURFACE_DESC) (ws : StartInputs) :
  init_getBackBuffer w = Some bb ->
  init_getDesc w = Some bbDesc ->
  let m' := members (Initialize w s).1 in
  let refused :=
    mkRun (Returned tt) m' [EvLog LOG_ERROR "Start tick must be less than end tick" []] in
  StartCapture ws m' = refused
  /\ (isCapturing (members s) = false -> ToggleCapture ws m' = refused)
  /\ OnGameFrame m' = Some 4
  /\ MultiPassEnabled m' = false
  /\ backBuffer m' = None
  /\ (Initialize w s).2 ≫= acquired = [bb]
  /\ (Initialize w s).2 ≫= released = [bb].
Proof.
  intros Hbb Hdesc m' refused. subst m' refused.
  destruct (Initialize_succeeds w s bb bbDesc Hbb Hdesc) as (Hmembers & _).
  cbn zeta in Hmembers.
  assert (StartCapture ws (members (Initialize w s).1)
          = mkRun (Returned tt) (members (Initialize w s).1)
                  [EvLog LOG_ERROR "Start tick must be less than end tick" []]) as Hrefused.
  { apply StartCapture_guard. rewrite Hmembers. cbn. lia. }
  split; [exact Hrefused|]. split.
  { intros Hidle. rewrite ToggleCapture_idle; [exact Hrefused|]. by rewrite Hmembers. }
  rewrite Hmembers. split; [reflexivity|]. split; [reflexivity|]. split; [reflexivity|].
  unfold Initialize. rewrite Hbb, Hdesc. by destruct (r_smp_backend s).
Qed.

Lemma Initialize_then_StartCapture_witness :
  calls (StartCapture start_ok (members (Initialize init_ok fresh_surroundings).1))
  = [EvLog LOG_ERROR "Start tick must be less than end tick" []].
Proof.
  destruct (Initialize_then_StartCapture init_ok fresh_surroundings 1%nat
              (mkDesc 1920 1080 21) start_ok eq_refl eq_refl) as (Hrefused & _).
  exact (f_equal calls Hrefused).
Defined.

(** X17. A failed [Initialize] configures nothing.  When the back buffer or
    its description cannot be had, the capture settings, the catalog of
    resolutions, the output directory and the listeners are as they were
    and nothing has been released; the run ends with an error in the log.
    The dvar [r_smp_backend], when the game has it, is set to 0 all the
    same. *)
Theorem Initialize_failure (w : InitInputs) (s : Surroundings) :
  init_getBackBuffer w = None \/ init_getDesc w = None ->
  let s' := (Initialize w s).1 in
  let made := (Initialize w s).2 in
  captureSettings (members s') = captureSettings (members s)
  /\ supportedResolutions s' = supportedResolutions s
  /\ captureOutputDirectory s' = captureOutputDirectory s
  /\ listeners s' = listeners s
  /\ r_smp_backend s' = (fun _ => 0) <$> r_smp_backend s
  /\ made ≫= released = []
  /\ (exists message, last made = Some (EvLog LOG_ERROR message []))
  /\ backBuffer (members s')
     = match init_getBackBuffer w with
       | Some bb => Some bb
       | None => backBuffer (members s)
       end.
Proof.
  intros Hfail s' made. subst s' made. unfold Initialize.
  destruct (init_getBackBuffer w) as [bb|], (init_getDesc w) as [bbDesc|],
    (r_smp_backend s) as [v|] eqn:Hdvar; cbn;
    try (destruct Hfail; discriminate);
    rewrite ?Hdvar; repeat split; try reflexivity; eexists; reflexivity.
Qed.

Lemma Initialize_failure_witness :
  let s' := (Initialize (mkInitInputs None None "C:/game") fresh_surroundings).1 in
  supportedResolutions s' = replicate 4 (mkResolution 0 0)
  /\ r_smp_backend s' = Some 0.
Proof.
  cbn zeta.
  destruct (Initialize_failure (mkInitInputs None None "C:/game") fresh_surroundings)
    as (_ & Hcatalog & _ & _ & Hdvar & _); [by left|].
  split; [exact Hcatalog|exact Hdvar].
Defined.

Lemma StartCapture_releases_or_holds (w : StartInputs) (m : CaptureManager) (bb : ComPtr) :
  startTick (captureSettings m) < endTick (captureSettings m) ->
  open_pipes_of m = [] ->
  directory_ready w = true ->
  getBackBuffer w = Some bb ->
  let r := StartCapture w m in
  let tmp := match getDesc w, createOffscreenPlainSurface w with
             | Some _, Some tmp => Some tmp
             | _, _ => tempSurface m
             end in
  let rt := match getDesc w, createOffscreenPlainSurface w, createRenderTarget w with
            | Some _, Some _, Some rt => Some rt
            | _, _, _ => downsampledRenderTarget m
            end in
  (calls r ≫= released) ++ held_of (after r)
  = option_list tmp ++ [bb] ++ option_list rt
    ++ option_list (depthSurface m) ++ option_list (depthShader m).
Proof.
  intros Hguard Hclean Hready Hbb r. subst r. unfold directory_ready in Hready.
  StartCapture_steps w m Hguard.
  rewrite Hbb.
  destruct (outputDirectoryExists w) as [[|]|]; try discriminate Hready;
    [|destruct (createDirectories w) as [created|]; try discriminate Hready]; simpl;
    (destruct (getDesc w) as [bbDesc|]; simpl;
     [destruct (createOffscreenPlainSurface w) as [tmp|]; simpl;
      [destruct (createRenderTarget w) as [rt|]; simpl;
       [destruct (ffmpegExists w) as [[|]|]; simpl; [| |reflexivity]|]|]|]).
  all: try (rewrite StopCapture_run; cbn [calls after result];
            rewrite ?bind_cons, ?bind_app;
            match goal with
            | |- context [stop_calls ?m'] =>
                destruct (stop_calls_tally m') as (_ & -> & _ & _)
            end;
            rewrite idle_of_holds_nothing; unfold held_of; simpl;
            by rewrite ?app_nil_r).
  all: match goal with
       | |- context [open_pipes ?w' ?m5] =>
           destruct (open_pipes_tally w' m5 Hclean) as (_ & Hrel & _);
           destruct (open_pipes w' m5) as [res m6 calls6]
       end.
  all: cbn [calls after result] in Hrel.
  all: destruct res as [[|]|e|]; simpl.
  all: rewrite ?bind_cons, ?bind_app, ?app_nil_r; cbn [released app].
  all: change (held_of (set_isCapturing true m6)) with (held_of m6).
  all: change (list_bind Event ComPtr released calls6) with (calls6 ≫= released).
  all: by rewrite Hrel.
Qed.

(** X18. [StartCapture] does not release a back buffer it already holds.
    When [Initialize] gets the back buffer and then fails to get its
    description, it returns holding that reference; a [StopCapture] at this
    point would release it, but the next [StartCapture] that gets a back
    buffer stores the new pointer over it.  After a start that got as far
    as the device (the output directory was ready), however it ends, the
    first reference has not been released by either call and is no longer
    held by the session.  A start that is left by the exception of a
    filesystem call before that leaves the reference where it was. *)
Theorem Initialize_GetDesc_failure_loses_backBuffer (w : InitInputs) (s : Surroundings)
    (ws : StartInputs) (bb bb' : ComPtr) :
  init_getBackBuffer w = Some bb ->
  init_getDesc w = None ->
  open_pipes_of (members s) = [] ->
  startTick (captureSettings (members s)) < endTick (captureSettings (members s)) ->
  getBackBuffer ws = Some bb' ->
  bb ∉ bb' :: option_list (createOffscreenPlainSurface ws)
         ++ option_list (createRenderTarget ws)
         ++ held_of (set_backBuffer None (members s)) ->
  let init := Initialize w s in
  let r := StartCapture ws (members init.1) in
  init.2 ≫= acquired = [bb]
  /\ backBuffer (members init.1) = Some bb
  /\ bb ∈ calls (StopCapture (members init.1)) ≫= released
  /\ (directory_ready ws = true ->
      bb ∉ ((init.2 ++ calls r) ≫= released) ++ held_of (after r))
  /\ (directory_ready ws = false ->
      backBuffer (after r) = Some bb /\ (init.2 ++ calls r) ≫= released = []).
Proof.
  intros Hbb Hdesc Hclean Hguard Hbb' Hfresh init r. subst init r.
  assert (members (Initialize w s).1 = set_backBuffer (Some bb) (members s)
          /\ (Initialize w s).2 ≫= acquired = [bb]
          /\ (Initialize w s).2 ≫= released = []) as (Hmembers & Hacq & Hrel).
  { unfold Initialize. rewrite Hbb, Hdesc. by destruct (r_smp_backend s). }
  rewrite Hmembers.
  split; [exact Hacq|]. split; [reflexivity|]. split.
  { rewrite StopCapture_run. cbn [calls].
    destruct (stop_calls_tally (set_backBuffer (Some bb) (members s))) as (_ & -> & _ & _).
    unfold held_of. cbn. apply elem_of_app. right. apply elem_of_cons. by left. }
  split.
  - intros Hready. rewrite bind_app, Hrel. cbn [app].
    rewrite (StartCapture_releases_or_holds ws (set_backBuffer (Some bb) (members s)) bb')
      by done.
    cbn [set_backBuffer tempSurface downsampledRenderTarget depthSurface depthShader].
    intros Hin. apply Hfresh. unfold held_of.
    cbn [set_backBuffer tempSurface backBuffer downsampledRenderTarget depthSurface
         depthShader].
    destruct (getDesc ws), (createOffscreenPlainSurface ws), (createRenderTarget ws);
      cbn [option_list app] in Hin |- *;
      repeat (rewrite ?elem_of_app, ?elem_of_cons in Hin);
      repeat (rewrite ?elem_of_app, ?elem_of_cons);
      tauto.
  - intros Hthrows.
    rewrite (StartCapture_directory_throws ws (set_backBuffer (Some bb) (members s)))
      by done.
    cbn [after calls]. split; [reflexivity|]. rewrite bind_app, Hrel.
    by destruct (outputDirectoryExists ws) as [[|]|].
Qed.

Lemma Initialize_GetDesc_failure_loses_backBuffer_witness :
  let init := Initialize (mkInitInputs (Some 7%nat) None "C:/game") fresh_surroundings in
  let r := StartCapture start_ok (members init.1) in
  init.2 ≫= acquired = [7%nat]
  /\ 7%nat ∉ ((init.2 ++ calls r) ≫= released) ++ held_of (after r).
Proof.
  cbn zeta.
  destruct (Initialize_GetDesc_failure_loses_backBuffer
              (mkInitInputs (Some 7%nat) None "C:/game") fresh_surroundings start_ok
              7%nat 1%nat eq_refl eq_refl eq_refl) as (Hacq & _ & _ & Hlost & _).
  - by vm_compute.
  - reflexivity.
  - cbn. rewrite !not_elem_of_cons. repeat split; try lia. apply not_elem_of_nil.
  - split; [exact Hacq|exact (Hlost eq_refl)].
Defined.

(** ** The frame size: what the encoder is told and what is written *)

Lemma GetFFmpegCommand_declares_size (d : Disk) (c : CaptureSettings) (dir : string)
    (dims : Resolution) (i : Z) (command : string) :
  has_command (outputFormat c) = true ->
  (GetFFmpegCommand d c dir dims i).1 = Returned command ->
  exists rest,
    command = shortPath d +:+ " -f rawvideo -pix_fmt bgra -s " +:+ fmt (width dims)
              +:+ "x" +:+ fmt (height dims) +:+ rest.
Proof.
  unfold has_command, GetFFmpegCommand. intros Hformat.
  destruct (outputFormat c =? OutputFormat.ImageSequence).
  { intros [= <-]. unfold image_sequence_command. eexists. reflexivity. }
  destruct (outputFormat c =? OutputFormat.Video); [|discriminate Hformat].
  destruct (videoCodec c) as [codec|]; [|discriminate].
  destruct (codec_table codec) as [[profile pixelFormat] unsupported].
  destruct (pick_filename _ _ _ _ _) as [filename|]; [|discriminate].
  intros [= <-]. unfold video_command. eexists. reflexivity.
Qed.

Lemma logs_declare_size (d : Disk) (dims : Resolution) (l : list Event) :
  Forall (fun e => is_log e = true) l -> Forall (declares_size d dims) l.
Proof. intros Hlogs. eapply Forall_impl; [exact Hlogs|]. by intros []. Qed.

Lemma stop_calls_declare_size (d : Disk) (dims : Resolution) (m : CaptureManager) :
  Forall (declares_size d dims) (stop_calls m).
Proof.
  rewrite stop_calls_unfold. repeat apply Forall_app_2.
  - by repeat constructor.
  - apply Forall_forall.
    intros e (f & [->| [->|[]%elem_of_nil]%elem_of_cons]%elem_of_cons & _)%list_elem_of_bind;
      exact I.
  - apply Forall_fmap, Forall_forall. by intros h _.
Qed.

Lemma open_pass_pipes_declare_size (w : StartInputs) :
  forall (n i : nat) (m : CaptureManager),
    has_command (outputFormat (captureSettings m)) = true ->
    Forall (declares_size (disk w) (screenDimensions m)) (calls (open_pass_pipes w n i m)).
Proof.
  induction n as [|n IH]; intros i m Hformat; [constructor|].
  cbn [open_pass_pipes]. unfold cmd_bind, ffmpeg_command, log, emit, modify, cmd_ret.
  pose proof (GetFFmpegCommand_only_logs (disk w) (captureSettings m) (outputDirectory w)
                (screenDimensions m) (Z.of_nat i)) as Hlogs.
  pose proof (GetFFmpegCommand_declares_size (disk w) (captureSettings m) (outputDirectory w)
                (screenDimensions m) (Z.of_nat i)) as Hsize.
  destruct (GetFFmpegCommand (disk w) (captureSettings m) (outputDirectory w)
              (screenDimensions m) (Z.of_nat i)) as [[command|e|] logs];
    cbn [fst snd] in *;
    apply (logs_declare_size (disk w) (screenDimensions m)) in Hlogs;
    [|by rewrite ?app_nil_r..].
  specialize (Hsize command Hformat eq_refl).
  destruct (popen w i command) as [p|].
  - specialize (IH (S i) (set_pass_pipe i (Some p) m) Hformat).
    change (screenDimensions (set_pass_pipe i (Some p) m)) with (screenDimensions m) in IH.
    destruct (open_pass_pipes w n (S i) (set_pass_pipe i (Some p) m)) as [res m' calls'].
    simpl in IH |- *. apply Forall_app_2; [exact Hlogs|].
    apply Forall_cons_2; [exact I|]. apply Forall_cons_2; [exact Hsize|]. exact IH.
  - rewrite StopCapture_run. simpl. rewrite ?app_nil_r.
    apply Forall_app_2; [exact Hlogs|].
    apply Forall_cons_2; [exact I|]. apply Forall_cons_2; [exact Hsize|].
    apply Forall_cons_2; [exact I|]. apply stop_calls_declare_size.
Qed.

#[local] Transparent open_pipes.

Lemma open_pipes_declare_size (w : StartInputs) (m : CaptureManager) :
  has_command (outputFormat (captureSettings m)) = true ->
  Forall (declares_size (disk w) (screenDimensions m)) (calls (open_pipes w m)).
Proof.
  intros Hformat. unfold open_pipes, cmd_bind, read.
  destruct (decide (passes (captureSettings m) = [])) as [Hempty|Hsome].
  - rewrite bool_decide_eq_true_2 by done.
    unfold ffmpeg_command, log, emit, modify, cmd_ret.
    pose proof (GetFFmpegCommand_only_logs (disk w) (captureSettings m) (outputDirectory w)
                  (screenDimensions m) 0) as Hlogs.
    pose proof (GetFFmpegCommand_declares_size (disk w) (captureSettings m)
                  (outputDirectory w) (screenDimensions m) 0) as Hsize.
    destruct (GetFFmpegCommand (disk w) (captureSettings m) (outputDirectory w)
                (screenDimensions m) 0) as [[command|e|] logs];
      cbn [fst snd] in *;
      apply (logs_declare_size (disk w) (screenDimensions m)) in Hlogs;
      [|by rewrite ?app_nil_r..].
    specialize (Hsize command Hformat eq_refl).
    destruct (popen w 0%nat command) as [p|].
    + simpl. rewrite ?app_nil_r. apply Forall_app_2; [exact Hlogs|].
      apply Forall_cons_2; [exact I|]. apply Forall_cons_2; [exact Hsize|]. constructor.
    + rewrite StopCapture_run. simpl. rewrite ?app_nil_r.
      apply Forall_app_2; [exact Hlogs|].
      apply Forall_cons_2; [exact I|]. apply Forall_cons_2; [exact Hsize|].
      apply Forall_cons_2; [exact I|]. apply stop_calls_declare_size.
  - rewrite bool_decide_eq_false_2 by done.
    pose proof (open_pass_pipes_declare_size w (length (passes (captureSettings m))) 0 m
                  Hformat) as Hall.
    destruct (open_pass_pipes w (length (passes (captureSettings m))) 0 m)
      as [res m' calls'].
    simpl in *. by rewrite ?app_nil_r.
Qed.

#[local] Opaque open_pipes.

Lemma StartCapture_declares_size (w : StartInputs) (m : CaptureManager)
    (bbDesc : D3DSURFACE_DESC) :
  startTick (captureSettings m) < endTick (captureSettings m) ->
  has_command (outputFormat (captureSettings m)) = true ->
  getDesc w = Some bbDesc ->
  Forall (declares_size (disk w)
            (mkResolution (Int.int32 (Width bbDesc)) (Int.int32 (Height bbDesc))))
         (calls (StartCapture w m)).
Proof.
  intros Hguard Hformat Hdesc.
  StartCapture_steps w m Hguard.
  rewrite Hdesc.
  destruct (outputDirectoryExists w) as [[|]|]; simpl;
    [|destruct (createDirectories w) as [created|]; simpl; [|by repeat constructor]
     |by repeat constructor];
    destruct (getBackBuffer w),
      (createOffscreenPlainSurface w), (createRenderTarget w), (ffmpegExists w) as [[|]|];
    simpl; rewrite ?StopCapture_run; simpl; rewrite ?app_nil_r;
    try (repeat first [ apply stop_calls_declare_size
                      | apply Forall_nil_2
                      | apply Forall_cons_2; [exact I|] ]; fail).
  all: match goal with
       | |- context [open_pipes ?w' ?m5] =>
           pose proof (open_pipes_declare_size w' m5 Hformat) as Hall;
           destruct (open_pipes w' m5) as [[[|]| |] m6 calls6]
       end; simpl in Hall |- *; rewrite ?app_nil_r;
    repeat first [ exact Hall | apply Forall_cons_2; [exact I|] ].
Qed.

Lemma idle_of_screenDimensions (m : CaptureManager) :
  screenDimensions (idle_of m) = screenDimensions m.
Proof. reflexivity. Qed.

Lemma CaptureFrame_screenDimensions (w : FrameInputs) (m : CaptureManager) :
  screenDimensions (after (CaptureFrame w m)) = screenDimensions m.
Proof. CaptureFrame_paths w m; by rewrite ?idle_of_screenDimensions. Qed.

Lemma capture_frames_calls_size :
  forall (ws : list FrameInputs) (m : CaptureManager) (e : Event),
    e ∈ capture_frames_calls ws m ->
    is_fwrite e = true ->
    exists f, e = EvFwrite (Int.size_t (surfaceByteSize m)) 1 f.
Proof.
  induction ws as [|w ws IH]; intros m e Hin Hwrite.
  - by apply elem_of_nil in Hin.
  - cbn [capture_frames_calls] in Hin. apply elem_of_app in Hin as [Hin|Hin].
    + assert (In e (List.filter is_fwrite (calls (CaptureFrame w m)))) as Hfiltered.
      { apply filter_In. split; [by apply list_elem_of_In|exact Hwrite]. }
      destruct (CaptureFrame_at_most_one_write w m) as (_ & _ & [Hnone|Hone]).
      * rewrite Hnone in Hfiltered. destruct Hfiltered.
      * rewrite Hone in Hfiltered. destruct Hfiltered as [<-|[]]. by eexists.
    + destruct (IH _ e Hin Hwrite) as (f & ->). exists f.
      unfold surfaceByteSize. by rewrite CaptureFrame_screenDimensions.
Qed.

(** X19. The encoder is told the size of the frames it gets.  When a start
    with an output format that has a command leaves the session capturing,
    every [_popen] it made asks for raw BGRA input of [W]x[H], the size of
    the back buffer, and, when [W * H * 4] bytes fit a 32-bit signed
    integer, every frame written afterwards, over any run of
    [CaptureFrame], is one block of exactly [W * H * 4] bytes. *)
Theorem StartCapture_declares_frame_size (w : StartInputs) (m : CaptureManager)
    (ws : list FrameInputs) :
  startTick (captureSettings m) < endTick (captureSettings m) ->
  isCapturing m = false ->
  has_command (outputFormat (captureSettings m)) = true ->
  let r := StartCapture w m in
  isCapturing (after r) = true ->
  exists bbDesc,
    getDesc w = Some bbDesc
    /\ let W := Int.int32 (Width bbDesc) in
       let H := Int.int32 (Height bbDesc) in
       (forall command p,
          EvPopen command p ∈ calls r ->
          exists rest,
            command = shortPath (disk w) +:+ " -f rawvideo -pix_fmt bgra -s " +:+ fmt W
                      +:+ "x" +:+ fmt H +:+ rest)
       /\ (0 <= W -> 0 <= H -> W * H * 4 < 2 ^ 31 ->
           forall e, e ∈ capture_frames_calls ws (after r) -> is_fwrite e = true ->
                     exists f, e = EvFwrite (W * H * 4) 1 f).
Proof.
  intros Hguard Hidle Hformat r Hcap. subst r.
  destruct (StartCapture_capturing_needs w m Hguard Hidle Hcap)
    as (_ & Hready & Hffmpeg & bb & bbDesc & tmp & rt & Hbb & Hdesc & Htmp & Hrt).
  exists bbDesc. split; [exact Hdesc|]. cbn zeta. split.
  - intros command p Hin.
    pose proof (StartCapture_declares_size w m bbDesc Hguard Hformat Hdesc) as Hall.
    rewrite Forall_forall in Hall. exact (Hall _ Hin).
  - intros HW HH Hfits e Hin Hwrite.
    destruct (capture_frames_calls_size ws _ e Hin Hwrite) as (f & ->). exists f.
    assert (screenDimensions (after (StartCapture w m))
            = mkResolution (Int.int32 (Width bbDesc)) (Int.int32 (Height bbDesc))) as Hdims.
    { pose proof (f_equal screenDimensions (StartCapture_idle_of w m Hguard)) as Hsame.
      rewrite !idle_of_screenDimensions in Hsame. rewrite Hsame.
      unfold start_record. by rewrite Hready, Hbb, Hdesc, Htmp, Hrt, Hffmpeg. }
    rewrite surfaceByteSize_exact; rewrite Hdims; [reflexivity|assumption..].
Qed.

Lemma StartCapture_declares_frame_size_witness :
  let started := after (StartCapture start_ok idle_two_pass_session) in
  isCapturing started = true
  /\ exists f, EvFwrite (Int.size_t (surfaceByteSize started)) 1 (written_to started)
              = EvFwrite 8294400 1 f.
Proof.
  cbn zeta.
  assert (isCapturing (after (StartCapture start_ok idle_two_pass_session)) = true)
    as Hcap by (by vm_compute).
  split; [exact Hcap|].
  destruct (StartCapture_declares_frame_size start_ok idle_two_pass_session
              [good_frame 11; good_frame 12]) as (bbDesc & Hdesc & _ & Hframes);
    [by vm_compute|reflexivity|reflexivity|exact Hcap|].
  injection Hdesc as <-. apply Hframes; [by vm_compute..| |reflexivity].
  apply list_elem_of_In. vm_compute. repeat (first [left; reflexivity | right]).
Defined.
